(** * Braza adapter: the RFQ order script [scripts/create_order.py]

    A shallow embedding of the request signer, the three HTTP operations
    (create RFQ, poll quotes, execute quote) and of the library functions
    they rest on (SHA-256, HMAC, base64, [urllib.parse.urlparse], the part
    of [requests] the script touches), followed by the properties of the
    script that the specification states.

    Conventions.  A Python [str] is represented by its UTF-8 encoding, a
    [String.string] of 8-bit characters: [s.encode("utf-8")] is then the
    list of its bytes, and concatenation, [startswith] and stripping of
    ASCII characters act on the encoding exactly as they act on the text.
    Python's unbounded [int] is [Z]; a [float] is the rational [Q] it
    denotes, and arithmetic on floats rounds its exact result to the nearest
    double ([PyFloat]). *)

From Stdlib Require Import ZArith String Ascii Bool Lia Arith List.
From Stdlib Require Import QArith Qround Qpower Lqa DecimalString DecimalZ.
Import ListNotations.
Open Scope Z_scope.

(** ** Bytes *)

Module Bytes.

Definition byte_of_ascii (c : ascii) : Z := Z.of_N (N_of_ascii c).

Definition ascii_of_byte (b : Z) : ascii := ascii_of_N (Z.to_N b).

(** [s.encode("utf-8")] under the convention above. *)
Definition encode_utf8 (s : string) : list Z :=
  map byte_of_ascii (list_ascii_of_string s).

(** [b.decode("utf-8")], used on base64 output, which is ASCII. *)
Definition decode_utf8 (l : list Z) : string :=
  string_of_list_ascii (map ascii_of_byte l).

(** Big-endian serialisation of the low [8 * n] bits of [x]. *)
Fixpoint be_bytes (n : nat) (x : Z) : list Z :=
  match n with
  | O => []
  | S n' => Z.land (Z.shiftr x (8 * Z.of_nat n')) 255 :: be_bytes n' x
  end.

Definition be_word (l : list Z) : Z :=
  fold_left (fun acc b => Z.lor (Z.shiftl acc 8) b) l 0.

(** Cut a list into [n] consecutive pieces of [k] elements. *)
Fixpoint chunks {A} (k n : nat) (l : list A) : list (list A) :=
  match n with
  | O => []
  | S n' => firstn k l :: chunks k n' (skipn k l)
  end.

End Bytes.

(** ** SHA-256 (FIPS 180-4), the digest behind [hashlib.sha256] *)

Module SHA256.
Import Bytes.

Definition wrap32 (x : Z) : Z := x mod 2 ^ 32.
Definition add32 (x y : Z) : Z := wrap32 (x + y).
Definition not32 (x : Z) : Z := Z.lxor x (2 ^ 32 - 1).
Definition rotr (n x : Z) : Z :=
  Z.lor (Z.shiftr x n) (wrap32 (Z.shiftl x (32 - n))).

Definition Ch (x y z : Z) := Z.lxor (Z.land x y) (Z.land (not32 x) z).
Definition Maj (x y z : Z) :=
  Z.lxor (Z.land x y) (Z.lxor (Z.land x z) (Z.land y z)).
Definition bsig0 (x : Z) := Z.lxor (rotr 2 x) (Z.lxor (rotr 13 x) (rotr 22 x)).
Definition bsig1 (x : Z) := Z.lxor (rotr 6 x) (Z.lxor (rotr 11 x) (rotr 25 x)).
Definition ssig0 (x : Z) := Z.lxor (rotr 7 x) (Z.lxor (rotr 18 x) (Z.shiftr x 3)).
Definition ssig1 (x : Z) := Z.lxor (rotr 17 x) (Z.lxor (rotr 19 x) (Z.shiftr x 10)).

(** The round constants are the first 32 fractional bits of the cube
    roots of the first 64 primes, the initial hash value those of the
    square roots of the first 8; both are computed from that
    description rather than tabulated. *)
Definition is_prime (n : nat) : bool :=
  (2 <=? n)%nat &&
  forallb (fun d => negb (Nat.eqb (n mod d) 0)) (seq 2 (n - 2)).

Definition primes64 : list Z :=
  Eval vm_compute in map Z.of_nat (firstn 64 (filter is_prime (seq 2 320))).

(** Largest [r] below [2 ^ bits] with [r ^ 3 <= n]. *)
Fixpoint icbrt_from (bits : nat) (n r : Z) : Z :=
  match bits with
  | O => r
  | S b =>
      let r' := r + 2 ^ Z.of_nat b in
      icbrt_from b n (if r' * r' * r' <=? n then r' else r)
  end.

Definition K256 : list Z :=
  Eval vm_compute in
    map (fun p => wrap32 (icbrt_from 40 (p * 2 ^ 96) 0)) primes64.

Definition H256 : list Z :=
  Eval vm_compute in
    map (fun p => wrap32 (Z.sqrt (p * 2 ^ 64))) (firstn 8 primes64).

Record hstate := HState {
  ha : Z; hb : Z; hc : Z; hd : Z; he : Z; hf : Z; hg : Z; hh : Z }.

Definition init_state : hstate :=
  match H256 with
  | [a; b; c; d; e; f; g; h] => HState a b c d e f g h
  | _ => HState 0 0 0 0 0 0 0 0
  end.

(** Message schedule: [rev_ws] holds W(t-1), W(t-2), ... *)
Fixpoint schedule (n : nat) (rev_ws : list Z) : list Z :=
  match n with
  | O => rev_ws
  | S n' =>
      let wt :=
        add32 (add32 (ssig1 (nth 1 rev_ws 0)) (nth 6 rev_ws 0))
              (add32 (ssig0 (nth 14 rev_ws 0)) (nth 15 rev_ws 0)) in
      schedule n' (wt :: rev_ws)
  end.

Definition round (s : hstate) (kw : Z * Z) : hstate :=
  let '(k, w) := kw in
  let t1 := add32 (add32 (add32 (hh s) (bsig1 (he s)))
                         (add32 (Ch (he s) (hf s) (hg s)) k)) w in
  let t2 := add32 (bsig0 (ha s)) (Maj (ha s) (hb s) (hc s)) in
  HState (add32 t1 t2) (ha s) (hb s) (hc s)
         (add32 (hd s) t1) (he s) (hf s) (hg s).

Definition compress (s : hstate) (block : list Z) : hstate :=
  let w16 := map be_word (chunks 4 16 block) in
  let ws := rev (schedule 48 (rev w16)) in
  let r := fold_left round (combine K256 ws) s in
  HState (add32 (ha s) (ha r)) (add32 (hb s) (hb r))
         (add32 (hc s) (hc r)) (add32 (hd s) (hd r))
         (add32 (he s) (he r)) (add32 (hf s) (hf r))
         (add32 (hg s) (hg r)) (add32 (hh s) (hh r)).

Definition pad (msg : list Z) : list Z :=
  let len := Z.of_nat (length msg) in
  msg ++ [128] ++ repeat 0 (Z.to_nat ((55 - len) mod 64))
      ++ be_bytes 8 (8 * len).

Definition digest_bytes (s : hstate) : list Z :=
  be_bytes 4 (ha s) ++ be_bytes 4 (hb s) ++ be_bytes 4 (hc s)
  ++ be_bytes 4 (hd s) ++ be_bytes 4 (he s) ++ be_bytes 4 (hf s)
  ++ be_bytes 4 (hg s) ++ be_bytes 4 (hh s).

Definition sha256 (msg : list Z) : list Z :=
  let p := pad msg in
  digest_bytes (fold_left compress (chunks 64 (length p / 64) p) init_state).

End SHA256.

(** ** HMAC (RFC 2104) with SHA-256: [hmac.new(key, msg, hashlib.sha256).digest()] *)

Module HMAC.

Definition block_size : nat := 64.

Definition block_key (key : list Z) : list Z :=
  let k := if (block_size <? length key)%nat then SHA256.sha256 key else key in
  k ++ repeat 0 (block_size - length k).

Definition hmac_sha256 (key msg : list Z) : list Z :=
  let k := block_key key in
  let ipad := map (Z.lxor 54) k in
  let opad := map (Z.lxor 92) k in
  SHA256.sha256 (opad ++ SHA256.sha256 (ipad ++ msg)).

End HMAC.

(** ** Base64 (RFC 4648, standard alphabet, padded): [base64.b64encode] *)

Module Base64.

Definition alphabet : string :=
  "ABCDEFGHIJKLMNOPQRSTUVWXYZabcdefghijklmnopqrstuvwxyz0123456789+/".

Definition sextet (i : Z) : Z :=
  match String.get (Z.to_nat i) alphabet with
  | Some c => Bytes.byte_of_ascii c
  | None => 61
  end.

Definition pad_byte : Z := 61.

Fixpoint b64encode (l : list Z) : list Z :=
  match l with
  | [] => []
  | [a] =>
      [ sextet (Z.shiftr a 2); sextet (Z.shiftl (Z.land a 3) 4);
        pad_byte; pad_byte ]
  | [a; b] =>
      [ sextet (Z.shiftr a 2);
        sextet (Z.lor (Z.shiftl (Z.land a 3) 4) (Z.shiftr b 4));
        sextet (Z.shiftl (Z.land b 15) 2); pad_byte ]
  | a :: b :: c :: rest =>
      sextet (Z.shiftr a 2)
      :: sextet (Z.lor (Z.shiftl (Z.land a 3) 4) (Z.shiftr b 4))
      :: sextet (Z.lor (Z.shiftl (Z.land b 15) 2) (Z.shiftr c 6))
      :: sextet (Z.land c 63)
      :: b64encode rest
  end.

End Base64.

(** ** Python strings *)

Module PyStr.
Open Scope string_scope.

(** [s[:n]] and [s[n:]] for [n >= 0]. *)
Fixpoint take (n : nat) (s : string) : string :=
  match n, s with
  | S n', String a s' => String a (take n' s')
  | _, _ => ""
  end.

Fixpoint drop (n : nat) (s : string) : string :=
  match n, s with
  | S n', String _ s' => drop n' s'
  | _, _ => s
  end.

(** [s.find(c)] for a one-character [c]; [None] is Python's [-1]. *)
Fixpoint find (c : ascii) (s : string) : option nat :=
  match s with
  | "" => None
  | String a s' =>
      if Ascii.eqb a c then Some O else option_map S (find c s')
  end.

(** [s.find(c, start)]. *)
Definition find_from (c : ascii) (s : string) (start : nat) : option nat :=
  option_map (Nat.add start) (find c (drop start s)).

(** [s.rfind(c)]. *)
Fixpoint rfind (c : ascii) (s : string) : option nat :=
  match s with
  | "" => None
  | String a s' =>
      match rfind c s' with
      | Some i => Some (S i)
      | None => if Ascii.eqb a c then Some O else None
      end
  end.

(** [c in s]. *)
Definition contains (c : ascii) (s : string) : bool :=
  match find c s with Some _ => true | None => false end.

(** [s.startswith(p)]. *)
Definition startswith (s p : string) : bool := String.prefix p s.

(** [s.rstrip(c)]: every trailing occurrence of [c] is removed. *)
Fixpoint rstrip (c : ascii) (s : string) : string :=
  match s with
  | "" => ""
  | String a s' =>
      match rstrip c s' with
      | "" => if Ascii.eqb a c then "" else String a ""
      | r => String a r
      end
  end.

(** [s.lstrip(chars)], with [chars] given as a predicate. *)
Fixpoint lstrip (p : ascii -> bool) (s : string) : string :=
  match s with
  | "" => ""
  | String a s' => if p a then lstrip p s' else s
  end.

(** Removal of every character satisfying [p] (chained [replace(b, "")]). *)
Fixpoint remove (p : ascii -> bool) (s : string) : string :=
  match s with
  | "" => ""
  | String a s' => if p a then remove p s' else String a (remove p s')
  end.

Fixpoint str_forallb (p : ascii -> bool) (s : string) : bool :=
  match s with
  | "" => true
  | String a s' => p a && str_forallb p s'
  end.

Definition code (c : ascii) : nat := nat_of_ascii c.

Definition is_upper (c : ascii) : bool := (65 <=? code c)%nat && (code c <=? 90)%nat.
Definition is_lower (c : ascii) : bool := (97 <=? code c)%nat && (code c <=? 122)%nat.
Definition is_digit (c : ascii) : bool := (48 <=? code c)%nat && (code c <=? 57)%nat.
Definition is_ascii (c : ascii) : bool := (code c <? 128)%nat.

(** [c.lower()] on ASCII letters; other bytes are left alone.  The
    strings lowered in the script are URL schemes (ASCII by
    construction) and HTTP header names. *)
Definition lower_char (c : ascii) : ascii :=
  if is_upper c then ascii_of_nat (code c + 32) else c.

Fixpoint lower (s : string) : string :=
  match s with
  | "" => ""
  | String a s' => String (lower_char a) (lower s')
  end.

(** [str(n)] for an [int]. *)
Definition str_of_int (n : Z) : string := NilZero.string_of_int (Z.to_int n).

(** [int(x)] for a [float]: truncation towards zero. *)
Definition int_of_float (x : Q) : Z := Z.quot (Qnum x) (Zpos (Qden x)).

End PyStr.

(** ** Floats

    A finite [float] is an IEEE 754 double: a rational [m * 2^e] whose
    mantissa [m] has at most 53 bits.  The result of an operation is the
    exact result rounded to the nearest such number, a tie going to the even
    mantissa.  The exponent range of a double is not represented: the clock
    readings of the script and their thousandfold lie far inside it. *)

Module PyFloat.

(** [x] rounded to the nearest integer, a tie to the even one. *)
Definition round_half_even (x : Q) : Z :=
  let q := Qfloor x in
  match (x - inject_Z q ?= 1 # 2)%Q with
  | Lt => q
  | Gt => q + 1
  | Eq => if Z.even q then q else q + 1
  end.

(** The binary exponent of a positive [x]: [2^e <= x < 2^(e+1)]. *)
Definition exponent (x : Q) : Z :=
  let e := Z.log2 (Qnum x) - Z.log2 (Zpos (Qden x)) in
  if Qle_bool ((2 # 1) ^ e) x then e else e - 1.

(** A positive [x] rounded to 53 significant bits. *)
Definition round_positive (x : Q) : Q :=
  let e := exponent x - 52 in
  (inject_Z (round_half_even (x / (2 # 1) ^ e)) * (2 # 1) ^ e)%Q.

(** The [float] nearest to [x]. *)
Definition round_float (x : Q) : Q :=
  match (x ?= 0)%Q with
  | Eq => 0%Q
  | Gt => round_positive x
  | Lt => (- round_positive (- x))%Q
  end.

(** [x * y] on floats. *)
Definition float_mul (x y : Q) : Q := round_float (x * y).

End PyFloat.

(** ** [urllib.parse.urlparse] *)

Module Url.
Import PyStr.
Open Scope string_scope.

Record ParseResult := mkParseResult {
  scheme : string; netloc : string; path : string;
  params : string; query : string; fragment : string }.

Definition scheme_char (c : ascii) : bool :=
  is_lower c || is_upper c || is_digit c
  || Ascii.eqb c "+" || Ascii.eqb c "-" || Ascii.eqb c ".".

Definition uses_params : list string :=
  [ ""; "ftp"; "hdl"; "prospero"; "http"; "imap"; "https"; "shttp";
    "rtsp"; "rtspu"; "sip"; "sips"; "mms"; "sftp"; "tel" ].

(** [_WHATWG_C0_CONTROL_OR_SPACE] and [_UNSAFE_URL_BYTES_TO_REMOVE]. *)
Definition c0_or_space (c : ascii) : bool := (code c <=? 32)%nat.
Definition unsafe_byte (c : ascii) : bool :=
  (code c =? 9)%nat || (code c =? 13)%nat || (code c =? 10)%nat.

(** The scheme test of [urlsplit]: a colon at index [i > 0], a first
    character that is an ASCII letter, scheme characters before the
    colon. *)
Definition split_scheme (url : string) : string * string :=
  match find ":" url, url with
  | Some (S i), String c0 _ =>
      if (is_lower c0 || is_upper c0) && str_forallb scheme_char (take (S i) url)
      then (lower (take (S i) url), drop (S (S i)) url)
      else ("", url)
  | _, _ => ("", url)
  end.

(** [_splitnetloc(url, 2)]. *)
Definition splitnetloc (url : string) : string * string :=
  let delim :=
    fold_left
      (fun d c => match find_from c url 2 with
                  | Some w => Nat.min d w
                  | None => d
                  end)
      ["/"%char; "?"%char; "#"%char] (String.length url) in
  (take (delim - 2) (drop 2 url), drop delim url).

(** [url.split(c, 1)] when [c] occurs in [url]. *)
Definition split_at (c : ascii) (url : string) : string * string :=
  match find c url with
  | Some i => (take i url, drop (S i) url)
  | None => (url, "")
  end.

Definition splitparams (url : string) : string * string :=
  if contains "/" url then
    match rfind "/" url with
    | Some r =>
        match find_from ";" url r with
        | Some i => (take i url, drop (S i) url)
        | None => (url, "")
        end
    | None => (url, "")
    end
  else
    match find ";" url with
    | Some i => (take i url, drop (S i) url)
    | None => (url, "")
    end.

Section Parse.

(** [urlsplit] validates a network location that holds a bracketed
    host or a non-ASCII character with the [ipaddress] and
    [unicodedata] modules ([_check_bracketed_netloc],
    [_checknetloc]); the outcome of that validation is a parameter. *)
Variable netloc_valid : string -> bool.

Definition netloc_ok (nl : string) : bool :=
  let lb := contains "[" nl in
  let rb := contains "]" nl in
  if xorb lb rb then false
  else if lb || negb (str_forallb is_ascii nl) then netloc_valid nl
  else true.

(** [urlsplit(url)]; [None] stands for the [ValueError] it raises on
    an invalid network location. *)
Definition urlsplit (url0 : string) : option ParseResult :=
  let url := remove unsafe_byte (lstrip c0_or_space url0) in
  let '(sch, url) := split_scheme url in
  let '(nl, url) :=
    if startswith url "//" then splitnetloc url else ("", url) in
  let '(url, frag) := split_at "#" url in
  let '(url, qry) := split_at "?" url in
  if netloc_ok nl then Some (mkParseResult sch nl url "" qry frag)
  else None.

Definition urlparse (url : string) : option ParseResult :=
  match urlsplit url with
  | Some r =>
      if existsb (String.eqb (scheme r)) uses_params && contains ";" (path r)
      then
        let '(p, prm) := splitparams (path r) in
        Some (mkParseResult (scheme r) (netloc r) p prm (query r) (fragment r))
      else Some r
  | None => None
  end.

End Parse.

End Url.

(** ** Python values, HTTP messages and the world the script runs in *)

Module Py.
Import PyStr.
Open Scope string_scope.
Open Scope Z_scope.

Set Warnings "-register-all".

(** What [resp.json()] can return; [JNull] is [None]. *)
Inductive json :=
| JNull
| JBool (b : bool)
| JInt (n : Z)
| JFloat (x : Q)
| JStr (s : string)
| JList (l : list json)
| JDict (d : list (string * json)).

(** Truth value of an object, as [if v:], [not v] and [or] test it. *)
Definition truthy (v : json) : bool :=
  match v with
  | JNull => false
  | JBool b => b
  | JInt n => negb (n =? 0)%Z
  | JFloat x => negb (Qnum x =? 0)%Z
  | JStr s => negb (String.eqb s "")
  | JList l => match l with [] => false | _ => true end
  | JDict d => match d with [] => false | _ => true end
  end.

Fixpoint assoc {A} (k : string) (d : list (string * A)) : option A :=
  match d with
  | [] => None
  | (k', v) :: t => if String.eqb k' k then Some v else assoc k t
  end.

(** An [Optional[str]] as an object. *)
Definition of_opt_str (o : option string) : json :=
  match o with Some s => JStr s | None => JNull end.

(** Header sets.  [requests] keeps them in a [CaseInsensitiveDict]: the
    list is its [items()], keys compared after lowering. *)
Definition headers := list (string * string).

Fixpoint ci_get (k : string) (h : headers) : option string :=
  match h with
  | [] => None
  | (k', v) :: t => if String.eqb (lower k') (lower k) then Some v else ci_get k t
  end.

(** [h[k] = v]: an entry with the same lowered key is replaced where it
    stands, a new key goes last. *)
Fixpoint ci_set (k v : string) (h : headers) : headers :=
  match h with
  | [] => [(k, v)]
  | (k', v') :: t =>
      if String.eqb (lower k') (lower k) then (k, v) :: t
      else (k', v') :: ci_set k v t
  end.

(** [merge_setting(request_headers, session_headers)]. *)
Definition merge_headers (session_h request_h : headers) : headers :=
  fold_left (fun acc kv => ci_set (fst kv) (snd kv) acc) request_h session_h.

Record Request := mkRequest {
  req_method : string;
  req_url : string;
  req_headers : headers;
  req_body : option json }.

(** What comes back over the wire.  [reply_json] is the outcome of
    decoding the body as JSON, [None] when it is not valid JSON. *)
Record Reply := mkReply {
  reply_status : Z;
  reply_headers : headers;
  reply_text : string;
  reply_json : option json }.

(** A [requests.Response]: the reply and [resp.request], the request it
    answers. *)
Record Response := mkResponse {
  reply : Reply;
  request : Request }.

Definition status_code (r : Response) : Z := reply_status (reply r).
Definition resp_headers (r : Response) : headers := reply_headers (reply r).
Definition text (r : Response) : string := reply_text (reply r).

(** [resp.ok]: false exactly when [raise_for_status] would raise, that
    is for a status from 400 to 599. *)
Definition error_status (status : Z) : bool :=
  (400 <=? status) && (status <? 600).

Definition ok (r : Response) : bool := negb (error_status (status_code r)).

(** Objects handed to [print] or formatted into a message; [PFmt] is an
    f-string, kept as the sequence of its pieces. *)
Inductive pyobj :=
| PStr (s : string)
| PInt (n : Z)
| PJson (j : json)
| PHeaders (h : headers)
| PBody (b : option json)
| PError (r : Response)
| PFmt (parts : list pyobj).

Inductive exn :=
| HTTPError (r : Response)       (* requests.HTTPError, with its response *)
| RequestException               (* any other exception of requests *)
| ValueError (msg : string)
| RuntimeError (msg : pyobj)
| TimeoutError (msg : string)
| AttributeError
| TypeError
| KeyError
| IndexError
| SystemExit (msg : string).

Inductive result (A : Type) :=
| Ok (a : A)
| Raise (e : exn).
Arguments Ok {A} a.
Arguments Raise {A} e.

(** The world: the clock and the network as oracles, the environment,
    and a record of what the script did. *)
Record World := mkWorld {
  clock : nat -> Q;          (* successive values of [time.time()] *)
  transport : nat -> Request -> option Reply;
                             (* outcome of the k-th call of [session.request]:
                                the reply the call returns, or [None] when it
                                raises instead (invalid URL or header,
                                connection failure, timeout, too many
                                redirects).  requests follows redirects by
                                itself, so the reply is that of the last hop *)
  last_hop : nat -> Request -> Request;
                             (* [resp.request] of that reply: the request it
                                answers, which is the request of the call as
                                it went out, or the one requests made for the
                                last redirect it followed *)
  environ : list (string * string);
  ticks : nat;               (* clock readings taken so far *)
  sent : list Request;       (* the request of each call of [session.request]
                                so far, oldest first *)
  stdout : list (list pyobj);(* arguments of each [print], oldest first *)
  slept : list Q }.          (* arguments of each [time.sleep] *)

Definition M (A : Type) : Type := World -> result A * World.

Definition ret {A} (a : A) : M A := fun w => (Ok a, w).
Definition raise {A} (e : exn) : M A := fun w => (Raise e, w).
Definition bind {A B} (c : M A) (k : A -> M B) : M B :=
  fun w => match c w with
           | (Ok a, w') => k a w'
           | (Raise e, w') => (Raise e, w')
           end.

(** [try: c  except <handled>: h]. *)
Definition try_except {A} (c : M A) (h : exn -> option (M A)) : M A :=
  fun w => match c w with
           | (Ok a, w') => (Ok a, w')
           | (Raise e, w') =>
               match h e with
               | Some k => k w'
               | None => (Raise e, w')
               end
           end.

Declare Scope py_scope.
Delimit Scope py_scope with py.
Notation "x <- c ;; k" := (bind c (fun x => k))
  (at level 61, c at next level, right associativity) : py_scope.
Notation "c ;; k" := (bind c (fun _ => k))
  (at level 61, right associativity) : py_scope.
Open Scope py_scope.

Definition set_ticks (n : nat) (w : World) : World :=
  mkWorld (clock w) (transport w) (last_hop w) (environ w) n (sent w) (stdout w) (slept w).
Definition set_sent (l : list Request) (w : World) : World :=
  mkWorld (clock w) (transport w) (last_hop w) (environ w) (ticks w) l (stdout w) (slept w).
Definition set_stdout (l : list (list pyobj)) (w : World) : World :=
  mkWorld (clock w) (transport w) (last_hop w) (environ w) (ticks w) (sent w) l (slept w).
Definition set_slept (l : list Q) (w : World) : World :=
  mkWorld (clock w) (transport w) (last_hop w) (environ w) (ticks w) (sent w) (stdout w) l.

(** [time.time()] returns a float: a value of the oracle that is not one
    is taken as the float nearest to it. *)
Definition time_time : M Q :=
  fun w => (Ok (PyFloat.round_float (clock w (ticks w))), set_ticks (S (ticks w)) w).

(** [time.sleep(d)] rejects a negative length. *)
Definition time_sleep (d : Q) : M unit :=
  fun w => if Qle_bool 0 d
           then (Ok tt, set_slept (slept w ++ [d])%list w)
           else (Raise (ValueError "sleep length must be non-negative"), w).

Definition print (args : list pyobj) : M unit :=
  fun w => (Ok tt, set_stdout (stdout w ++ [args])%list w).

Definition environ_get (k : string) : M (option string) :=
  fun w => (Ok (assoc k (environ w)), w).

(** A [requests.Session]: the headers it adds to every request. *)
Record Session := mkSession { sess_headers : headers }.

(** [session.request(method, url, json=body, headers=hdrs, timeout=10)]:
    one call.  What happens on the wire during the call (the headers
    requests adds in transit, the redirects it follows) is the world's: the
    call returns the last reply together with the request that reply
    answers. *)
Definition session_request (s : Session) (method url : string)
           (body : option json) (hdrs : headers) : M Response :=
  fun w =>
    let req := mkRequest method url (merge_headers (sess_headers s) hdrs) body in
    let k := List.length (sent w) in
    let w' := set_sent (sent w ++ [req])%list w in
    match transport w k req with
    | Some rep => (Ok (mkResponse rep (last_hop w k req)), w')
    | None => (Raise RequestException, w')
    end.

Definition session_get (s : Session) (url : string) (hdrs : headers) :=
  session_request s "GET" url None hdrs.

Definition session_post (s : Session) (url : string) (body : json) (hdrs : headers) :=
  session_request s "POST" url (Some body) hdrs.

Definition raise_for_status (r : Response) : M unit :=
  if ok r then ret tt else raise (HTTPError r).

(** [resp.json()]; its exception is a [ValueError]. *)
Definition response_json (r : Response) : M json :=
  match reply_json (reply r) with
  | Some j => ret j
  | None => raise (ValueError "JSONDecodeError")
  end.

(** [v.get(k)]: only a dict has the method. *)
Definition py_get (v : json) (k : string) : M json :=
  match v with
  | JDict d => ret (match assoc k d with Some x => x | None => JNull end)
  | _ => raise AttributeError
  end.

(** [a or b]. *)
Definition py_or (a b : M json) : M json :=
  x <- a ;; if truthy x then ret x else b.

(** The receiver of a [str] method call. *)
Definition as_str (v : json) : M string :=
  match v with
  | JStr s => ret s
  | _ => raise AttributeError
  end.

(** Length in bytes of the first character of an encoded text. *)
Definition head_width (c : ascii) : nat :=
  if (code c <? 192)%nat then 1
  else if (code c <? 224)%nat then 2
  else if (code c <? 240)%nat then 3 else 4.

(** [v[0]]. *)
Definition index0 (v : json) : M json :=
  match v with
  | JList (x :: _) => ret x
  | JList [] => raise IndexError
  | JStr (String c _ as s) => ret (JStr (take (head_width c) s))
  | JStr "" => raise IndexError
  | JDict _ => raise KeyError
  | _ => raise TypeError
  end.

(** [v[k]] for a string [k]. *)
Definition getitem (v : json) (k : string) : M json :=
  match v with
  | JDict d => match assoc k d with Some x => ret x | None => raise KeyError end
  | _ => raise TypeError
  end.

(** [list(range(lo, hi))]. *)
Definition py_range (lo hi : Z) : list Z :=
  map (fun k => lo + Z.of_nat k) (seq 0 (Z.to_nat (hi - lo))).

End Py.

(** ** The script *)

Module CreateOrder.
Import Bytes PyStr Url Py.
Open Scope string_scope.
Open Scope Z_scope.
Open Scope py_scope.

Definition BASE_URL : string := "https://api-staging.checker.finance".
Definition RFQ_PATH : string := "/api/v1/request-for-quotes".

(** The f-string [f"{api_key}:{nonce}:{path}"]. *)
Definition signing_message (nonce path api_key : string) : string :=
  api_key ++ ":" ++ nonce ++ ":" ++ path.

(** Signature over the message ['apiKey:nonce:path']. *)
Definition create_signature (nonce path api_key secret_key : string) : string :=
  let message := signing_message nonce path api_key in
  let digest :=
    HMAC.hmac_sha256 (encode_utf8 secret_key) (encode_utf8 message) in
  decode_utf8 (Base64.b64encode digest).

(** [int(t * 1000)] for a float [t]: milliseconds since the epoch. *)
Definition nonce_ms (t : Q) : Z := int_of_float (PyFloat.float_mul t (1000 # 1)).


Definition make_auth_headers (path api_key secret_key : string) : M headers :=
  t <- time_time ;;
  let nonce := str_of_int (nonce_ms t) in
  let signature := create_signature nonce path api_key secret_key in
  ret [ ("x-api-key", api_key);
        ("x-nonce", nonce);
        ("x-signature", signature);
        ("Content-Type", "application/json");
        ("Accept", "application/json") ].

Definition rfq_payload : json :=
  JDict [ ("instrumentPair", JStr "usdc/brl");
          ("quantity", JFloat (100 # 1));
          ("side", JStr "buy");
          ("amountDenomination", JStr "usdc");
          ("providers", JList [JStr "braza"]) ].

Definition create_rfq (session : Session) (api_key secret_key : string) : M string :=
  let url := BASE_URL ++ RFQ_PATH in
  let payload := rfq_payload in
  headers <- make_auth_headers RFQ_PATH api_key secret_key ;;
  resp <- session_post session url payload headers ;;
  raise_for_status resp ;;
  (* data = {}; try: data = resp.json(); except ValueError: pass *)
  data <- try_except (response_json resp)
            (fun e => match e with
                      | ValueError _ => Some (ret (JDict []))
                      | _ => None
                      end) ;;
  rfq_url <- py_or (py_get data "rfqUrl")
            (py_or (py_get data "rfq_url")
            (py_or (py_get data "url")
                   (ret (of_opt_str (ci_get "Location" (resp_headers resp)))))) ;;
  if negb (truthy rfq_url) then
    raise (RuntimeError
             (PFmt [ PStr "Could not determine RFQ URL from response: status=";
                     PInt (status_code resp);
                     PStr ", body="; PJson data;
                     PStr ", headers="; PHeaders (resp_headers resp) ]))
  else
    s <- as_str rfq_url ;;
    let rfq_url :=
      if startswith s "http://"
      then "https://" ++ drop (String.length "http://") s
      else s in
    print [PFmt [PStr "Created RFQ: "; PStr rfq_url]] ;;
    ret rfq_url.

(** The request headers shown by the execute diagnostic. *)
Definition shown_header (kv : string * string) : bool :=
  startswith (lower (fst kv)) "x-"
  || existsb (String.eqb (lower (fst kv))) ["content-type"; "accept"].

Section WithUrlValidation.

Variable netloc_valid : string -> bool.

(** [urlparse(u)] as a step of the script. *)
Definition urlparse_or_raise (u : string) : M ParseResult :=
  match urlparse netloc_valid u with
  | Some r => ret r
  | None => raise (ValueError "invalid URL")
  end.

(** The body of [for attempt in range(1, max_attempts + 1)], over the
    attempts still to come. *)
Fixpoint poll_loop (session : Session)
         (quotes_url quotes_path api_key secret_key : string)
         (max_attempts : Z) (delay_seconds : Q) (attempts : list Z) : M json :=
  match attempts with
  | [] => raise (TimeoutError "No quotes received within polling limit")
  | attempt :: rest =>
      headers <- make_auth_headers quotes_path api_key secret_key ;;
      resp <- session_get session quotes_url headers ;;
      raise_for_status resp ;;
      quotes <- response_json resp ;;
      if truthy quotes then
        quote <- index0 quotes ;;
        print [PFmt [ PStr "Received quote on attempt "; PInt attempt;
                      PStr ": "; PJson quote ]] ;;
        ret quote
      else
        print [PFmt [ PStr "No quotes yet (attempt "; PInt attempt; PStr "/";
                      PInt max_attempts; PStr "), sleeping..." ]] ;;
        time_sleep delay_seconds ;;
        poll_loop session quotes_url quotes_path api_key secret_key
                  max_attempts delay_seconds rest
  end.

Definition poll_quotes (session : Session) (rfq_url api_key secret_key : string)
           (max_attempts : Z) (delay_seconds : Q) : M json :=
  parsed <- urlparse_or_raise rfq_url ;;
  let quotes_path := rstrip "/" (path parsed) ++ "/quotes" in
  let quotes_url := scheme parsed ++ "://" ++ netloc parsed ++ quotes_path in
  poll_loop session quotes_url quotes_path api_key secret_key
            max_attempts delay_seconds (py_range 1 (max_attempts + 1)).

Definition execute_quote (session : Session) (rfq_url : string) (quote_id : json)
           (api_key secret_key : string) : M string :=
  parsed <- urlparse_or_raise rfq_url ;;
  let execute_path := rstrip "/" (path parsed) ++ "/execute" in
  let execute_url := scheme parsed ++ "://" ++ netloc parsed ++ execute_path in
  let payload := JDict [("winningQuoteId", quote_id)] in
  print [PFmt [ PStr "sending payload "; PJson payload; PStr " to ";
                PStr execute_path ]] ;;
  headers <- make_auth_headers execute_path api_key secret_key ;;
  resp <- session_post session execute_url payload headers ;;
  (if negb (ok resp) then
     print [PStr "---- EXECUTE ERROR ----"] ;;
     print [PStr "Status code:"; PInt (status_code resp)] ;;
     print [PStr "URL:"; PStr execute_url] ;;
     print [PStr "Method actually used:"; PStr (req_method (request resp))] ;;
     print [PStr "Path used for signature:"; PStr execute_path] ;;
     print [PStr "Request headers:";
            PHeaders (filter shown_header (req_headers (request resp)))] ;;
     print [PStr "Request body:"; PBody (req_body (request resp))] ;;
     print [PStr "Response headers:"; PHeaders (resp_headers resp)] ;;
     print [PStr "Response body:"; PStr (text resp)] ;;
     print [PStr "------------------------"] ;;
     raise_for_status resp
   else ret tt) ;;
  let data := text resp in
  print [PFmt [PStr "Execution response: "; PStr data]] ;;
  ret data.

(** The headers of a fresh [requests.Session()]; they name the installed
    version of the library. *)
Variable default_headers : headers.

Definition main : M unit :=
  api_key <- environ_get "CHECKER_API_KEY" ;;
  secret_key <- environ_get "CHECKER_SECRET_KEY" ;;
  match api_key, secret_key with
  | Some (String _ _ as api_key), Some (String _ _ as secret_key) =>
      let session := mkSession default_headers in
      rfq_url <- create_rfq session api_key secret_key ;;
      quote <- poll_quotes session rfq_url api_key secret_key 10 (1 # 1) ;;
      winning_quote_id <- getitem quote "quoteId" ;;
      try_except
        (execute_quote session rfq_url winning_quote_id api_key secret_key ;;
         ret tt)
        (fun e => match e with
                  | HTTPError r =>
                      Some (print [PStr "HTTPError during execute:"; PError r] ;;
                            raise (HTTPError r))
                  | _ => None
                  end)
  | _, _ =>
      raise (SystemExit
        "Please set CHECKER_API_KEY and CHECKER_SECRET_KEY environment variables.")
  end.

End WithUrlValidation.

End CreateOrder.

(** * Vocabulary of the properties *)

Import Bytes PyStr Py CreateOrder.

Definition hex_of (l : list Z) : Z := Bytes.be_word l.

(** The dict literal returned by [make_auth_headers]. *)
Definition auth_headers (nonce path api_key secret_key : string) : headers :=
  [ ("x-api-key", api_key);
    ("x-nonce", nonce);
    ("x-signature", create_signature nonce path api_key secret_key);
    ("Content-Type", "application/json");
    ("Accept", "application/json") ]%string.

(** The nonce the next call of [make_auth_headers] will produce. *)
Definition next_nonce (w : World) : string :=
  str_of_int (nonce_ms (PyFloat.round_float (clock w (ticks w)))).

(** The request [create_rfq] issues in world [w]. *)
Definition create_request (session : Session) (api_key secret_key : string)
           (w : World) : Request :=
  mkRequest "POST" (BASE_URL ++ RFQ_PATH)
    (merge_headers (sess_headers session)
       (auth_headers (next_nonce w) RFQ_PATH api_key secret_key))
    (Some rfq_payload).

(** [data] after the [try]: the decoded body, or the empty dict when the
    body is not JSON. *)
Definition body_data (rep : Reply) : json :=
  match reply_json rep with Some j => j | None => JDict [] end.

(** [d.get(k)] on a dict. *)
Definition field (k : string) (d : list (string * json)) : json :=
  match assoc k d with Some v => v | None => JNull end.

(** Value of the [or] chain over a dict body [d] and response headers [h]. *)
Definition extracted (d : list (string * json)) (h : headers) : json :=
  if truthy (field "rfqUrl" d) then field "rfqUrl" d
  else if truthy (field "rfq_url" d) then field "rfq_url" d
  else if truthy (field "url" d) then field "url" d
  else of_opt_str (ci_get "Location" h).

(** The scheme rewrite applied to the extracted URL. *)
Definition normalize_scheme (s : string) : string :=
  if startswith s "http://" then ("https://" ++ drop 7 s)%string else s.

(** The error raised when no RFQ URL is found. *)
Definition missing_rfq_url (rep : Reply) (data : json) : exn :=
  RuntimeError
    (PFmt [ PStr "Could not determine RFQ URL from response: status=";
            PInt (reply_status rep);
            PStr ", body="; PJson data;
            PStr ", headers="; PHeaders (reply_headers rep) ]).

(** The dict [d] without the key [k]. *)
Definition remove_key (k : string) (d : list (string * json)) : list (string * json) :=
  filter (fun kv => negb (String.eqb (fst kv) k)) d.

(** The two standards the specification names, written from their texts
    and independently of the functions above. *)
Module Standard.
Local Open Scope Z_scope.








End Standard.

(** Sample worlds: the clock starts at 1700000000 s and gains a quarter
    of a second at each reading; the k-th call gets [replies k], and no
    redirect is followed. *)
Module Samples.
Open Scope string_scope.

Definition world (replies : nat -> option Reply) : World :=
  mkWorld (fun k => (1700000000 # 1) + (Z.of_nat k # 4))%Q
          (fun k _ => replies k)
          (fun _ req => req)
          [("CHECKER_API_KEY", "key"); ("CHECKER_SECRET_KEY", "secret")]
          0 [] [] [].

Definition session : Session :=
  mkSession [ ("User-Agent", "python-requests"); ("Accept-Encoding", "gzip, deflate");
              ("Accept", "*/*"); ("Connection", "keep-alive") ].

Definition always (rep : Reply) : nat -> option Reply := fun _ => Some rep.

End Samples.

Import Url.

(** A request signed with [nonce] for [path]. *)
Definition signed (session : Session) (method url path api_key secret_key : string)
           (body : option json) (nonce : string) : Request :=
  mkRequest method url
    (merge_headers (sess_headers session)
       (auth_headers nonce path api_key secret_key))
    body.

(** The nonce made from the [k]-th clock reading. *)
Definition nonce_of_reading (w : World) (k : nat) : string :=
  str_of_int (nonce_ms (PyFloat.round_float (clock w k))).

(** The [k]-th request issued in [w] is answered, whatever it is, by a
    reply without error status whose JSON body is [quotes]. *)
Definition attempt_gets (w : World) (k : nat) (quotes : json) : Prop :=
  forall req, exists rep,
    transport w k req = Some rep
    /\ error_status (reply_status rep) = false
    /\ reply_json rep = Some quotes.

(** The world after a poll attempt that found no quotes. *)
Definition after_empty_attempt (session : Session)
           (quotes_url quotes_path api_key secret_key : string)
           (max_attempts : Z) (delay_seconds : Q) (attempt : Z) (w : World)
  : World :=
  set_slept (slept w ++ [delay_seconds])
    (set_stdout
       (stdout w ++ [[PFmt [ PStr "No quotes yet (attempt "; PInt attempt;
                             PStr "/"; PInt max_attempts;
                             PStr "), sleeping..." ]]])
       (set_sent (sent w ++ [signed session "GET" quotes_url quotes_path
                                    api_key secret_key None (next_nonce w)])
                 (set_ticks (S (ticks w)) w))).

(** The lines printed when the execute response has an error status. *)
Definition execute_diagnostic (execute_url execute_path : string)
           (resp : Response) : list (list pyobj) :=
  [ [PStr "---- EXECUTE ERROR ----"];
    [PStr "Status code:"; PInt (status_code resp)];
    [PStr "URL:"; PStr execute_url];
    [PStr "Method actually used:"; PStr (req_method (request resp))];
    [PStr "Path used for signature:"; PStr execute_path];
    [PStr "Request headers:";
     PHeaders (filter shown_header (req_headers (request resp)))];
    [PStr "Request body:"; PBody (req_body (request resp))];
    [PStr "Response headers:"; PHeaders (resp_headers resp)];
    [PStr "Response body:"; PStr (text resp)];
    [PStr "------------------------"] ]%string.

(** The response answers the request [req] of the call itself, no
    redirect having been followed: [resp.request] has its method and body,
    and what requests added to its headers on the way out (a
    Content-Length, cookies) is not among the headers the execute
    diagnostic shows. *)
Definition answers_the_call (answered req : Request) : Prop :=
  req_method answered = req_method req
  /\ req_body answered = req_body req
  /\ filter shown_header (req_headers answered)
     = filter shown_header (req_headers req).

(** [w'] continues [w] with signed requests only, each carrying the nonce
    of a clock reading of its own: the [i]-th new request has the nonce of
    reading [ticks w + i], and no other reading was taken. *)
Definition stamped (w w' : World) : Prop :=
  clock w' = clock w
  /\ transport w' = transport w
  /\ exists reqs : list Request,
       sent w' = (sent w ++ reqs)%list
       /\ ticks w' = (ticks w + List.length reqs)%nat
       /\ forall i r, nth_error reqs i = Some r ->
            ci_get "x-nonce" (req_headers r)
            = Some (nonce_of_reading w (ticks w + i)).

(** Two worlds that differ at most in what was printed or slept. *)
Definition same_net (w w' : World) : Prop :=
  clock w' = clock w /\ transport w' = transport w
  /\ ticks w' = ticks w /\ sent w' = sent w.

(** A run of [main] against a server that answers within a quarter of a
    millisecond: the clock advances strictly between the three calls, yet
    they carry one and the same nonce. *)
Definition fast_world : World :=
  mkWorld (fun k => (1700000000 # 1) + (Z.of_nat k # 4096))%Q
          (fun k _ =>
             match k with
             | 0%nat => Some (mkReply 201 [] "{...}"
                          (Some (JDict [("rfqUrl", JStr "https://x.test/rfq/1")])))
             | 1%nat => Some (mkReply 200 [] "[{...}]"
                          (Some (JList [JDict [("quoteId", JStr "q1")]])))
             | _ => Some (mkReply 200 [] "done" None)
             end)%string
          (fun _ req => req)
          [("CHECKER_API_KEY", "key"); ("CHECKER_SECRET_KEY", "secret")]%string
          0 [] [] [].

(** [s] is a trailing part of [v]. *)
Definition suffix_of (s v : string) : Prop := exists pre, v = pre ++ s.

(** The text [urlsplit] works on. *)
Definition sanitized (u : string) : string :=
  remove unsafe_byte (lstrip c0_or_space u).

(** Index of the first of [/ ? #] in [t], or its length. *)
Definition netloc_end (t : string) : nat :=
  let pos c d := match find c t with Some i => Nat.min d i | None => d end in
  pos "#"%char (pos "?"%char (pos "/"%char (String.length t))).

(** The network-location step of [urlsplit]. *)
Definition net_step (url : string) : string * string :=
  if startswith url "//" then splitnetloc url else ("", url).

(** The path [urlparse] reports for a split URL: a [;parameters] part is
    cut off the last segment when the scheme allows parameters. *)
Definition final_path (rs : ParseResult) : string :=
  if existsb (String.eqb (scheme rs)) uses_params && contains ";" (path rs)
  then fst (splitparams (path rs))
  else path rs.

(** The path both operations sign: the path component of the RFQ URL
    without trailing slashes, followed by the operation's suffix. *)
Definition derived_path (netloc_valid : string -> bool) (rfq_url suffix : string)
  : option string :=
  option_map (fun parsed => (rstrip "/" (path parsed) ++ suffix)%string)
             (urlparse netloc_valid rfq_url).

(** The request carries [nonce] and the signature of [path] under it. *)
Definition signed_over (path api_key secret_key : string) (r : Request) : Prop :=
  exists nonce,
    ci_get "x-nonce" (req_headers r) = Some nonce
    /\ ci_get "x-signature" (req_headers r)
       = Some (create_signature nonce path api_key secret_key).

(** ** Vocabulary of the further properties *)


(** A character of the base64 alphabet or its padding sign. *)
Definition b64_char (c : ascii) : bool :=
  is_upper c || is_lower c || is_digit c
  || Ascii.eqb c "+" || Ascii.eqb c "/" || Ascii.eqb c "=".

(** The lowered names of the headers [make_auth_headers] sets. *)
Definition auth_header_names : list string :=
  ["x-api-key"; "x-nonce"; "x-signature"; "content-type"; "accept"].

(** The two lines [poll_quotes] prints. *)
Definition no_quotes_line (attempt max_attempts : Z) : list pyobj :=
  [PFmt [ PStr "No quotes yet (attempt "; PInt attempt; PStr "/";
          PInt max_attempts; PStr "), sleeping..." ]].

Definition received_line (attempt : Z) (quote : json) : list pyobj :=
  [PFmt [ PStr "Received quote on attempt "; PInt attempt; PStr ": ";
          PJson quote ]].

(** The path and the URL [poll_quotes] derives from the parsed RFQ URL. *)
Definition quotes_path_of (parsed : ParseResult) : string :=
  rstrip "/" (path parsed) ++ "/quotes".

Definition quotes_url_of (parsed : ParseResult) : string :=
  scheme parsed ++ "://" ++ netloc parsed ++ quotes_path_of parsed.

(** The [i]-th GET of a polling that starts in world [w]. *)
Definition poll_request (session : Session)
           (quotes_url quotes_path api_key secret_key : string)
           (w : World) (i : nat) : Request :=
  signed session "GET" quotes_url quotes_path api_key secret_key None
         (nonce_of_reading w (ticks w + i)).

(** The world after [n] poll attempts in a row that found no quotes, the
    first of them numbered [first]. *)
Definition after_empty_attempts (session : Session)
           (quotes_url quotes_path api_key secret_key : string)
           (max_attempts : Z) (delay_seconds : Q) (first : Z) (n : nat)
           (w : World) : World :=
  mkWorld (clock w) (transport w) (last_hop w) (environ w) (ticks w + n)
    (sent w ++ map (poll_request session quotes_url quotes_path
                                 api_key secret_key w) (seq 0 n))%list
    (stdout w ++ map (fun i => no_quotes_line (first + Z.of_nat i) max_attempts)
                     (seq 0 n))%list
    (slept w ++ repeat delay_seconds n)%list.

(** The [k]-th request issued in [w] is answered, whatever it is, by a
    reply without error status whose JSON body is falsy: what the test
    [if quotes:] takes for no quotes. *)
Definition attempt_finds_nothing (w : World) (k : nat) : Prop :=
  forall req, exists rep quotes,
    transport w k req = Some rep
    /\ error_status (reply_status rep) = false
    /\ reply_json rep = Some quotes
    /\ truthy quotes = false.

(** Sample replies and the parse of the sample RFQ URL. *)
Module Scenarios.

Definition rfq1 : ParseResult := mkParseResult "https" "x.test" "/rfq/1" "" "" "".

Definition quote1 : json := JDict [("quoteId", JStr "q1")].

Definition no_quotes_yet : Reply := mkReply 200 [] "[]" (Some (JList [])).



(** The create request is answered with an RFQ URL, the requests after
    it by [rest]. *)
Definition created_then (rest : nat -> option Reply) (k : nat) : option Reply :=
  match k with
  | O => Some (mkReply 201 [] "{...}"
                 (Some (JDict [("rfqUrl", JStr "http://x.test/rfq/1")])))
  | S k' => rest k'
  end.

(** A whole run: created, one poll without quotes, one with a quote,
    executed. *)
Definition full_run : nat -> option Reply :=
  created_then (fun k =>
    match k with
    | O => Some no_quotes_yet
    | 1%nat => Some (mkReply 200 [] "[{...}]" (Some (JList [quote1])))
    | _ => Some (mkReply 200 [] "done" None)
    end).

End Scenarios.

(** The path and the URL [execute_quote] derives from the parsed RFQ URL,
    and the request it sends. *)
Definition execute_path_of (parsed : ParseResult) : string :=
  rstrip "/" (path parsed) ++ "/execute".

Definition execute_url_of (parsed : ParseResult) : string :=
  scheme parsed ++ "://" ++ netloc parsed ++ execute_path_of parsed.

Definition execute_request (session : Session) (parsed : ParseResult)
           (quote_id : json) (api_key secret_key nonce : string) : Request :=
  signed session "POST" (execute_url_of parsed) (execute_path_of parsed)
         api_key secret_key (Some (JDict [("winningQuoteId", quote_id)])) nonce.

(** The line [execute_quote] prints before it sends. *)
Definition sending_line (parsed : ParseResult) (quote_id : json) : list pyobj :=
  [PFmt [ PStr "sending payload "; PJson (JDict [("winningQuoteId", quote_id)]);
          PStr " to "; PStr (execute_path_of parsed) ]].

(** [w'] continues [w] with at most [n] requests and at most [m] sleeps,
    each of length [delay]. *)
Definition within (n m : nat) (delay : Q) (w w' : World) : Prop :=
  exists (reqs : list Request) (k : nat),
    sent w' = (sent w ++ reqs)%list /\ (List.length reqs <= n)%nat
    /\ slept w' = (slept w ++ repeat delay k)%list /\ (k <= m)%nat.

(** * Properties *)

Open Scope Z_scope.

(** ** Reference values *)

Example sha256_abc :
  hex_of (SHA256.sha256 (Bytes.encode_utf8 "abc"))
  = 0xba7816bf8f01cfea414140de5dae2223b00361a396177a9cb410ff61f20015ad.
Proof. vm_compute. reflexivity. Qed.

Example hmac_rfc4231_case2 :
  hex_of (HMAC.hmac_sha256 (Bytes.encode_utf8 "Jefe")
            (Bytes.encode_utf8 "what do ya want for nothing?"))
  = 0x5bdcc146bf60754e6a042426089575c75a003f089d2739839dec58b964ec3843.
Proof. vm_compute. reflexivity. Qed.

Example b64_foobar :
  Bytes.decode_utf8 (Base64.b64encode (Bytes.encode_utf8 "foobar")) = "Zm9vYmFy"%string
  /\ Bytes.decode_utf8 (Base64.b64encode (Bytes.encode_utf8 "fooba")) = "Zm9vYmE="%string
  /\ Bytes.decode_utf8 (Base64.b64encode (Bytes.encode_utf8 "f")) = "Zg=="%string.
Proof. vm_compute. repeat split. Qed.

Module UrlTests.
Import Url.
Open Scope string_scope.

Definition parts (u : string) :=
  option_map (fun r => (scheme r, netloc r, path r, params r, query r, fragment r))
             (urlparse (fun _ => true) u).

Example parse_plain :
  parts "https://x.test/rfq/123" = Some ("https", "x.test", "/rfq/123", "", "", "").
Proof. reflexivity. Qed.

Example parse_params :
  parts "https://x.test/rfq/1;a" = Some ("https", "x.test", "/rfq/1", "a", "", "")
  /\ parts "https://x.test/rfq/1;a/" = Some ("https", "x.test", "/rfq/1;a/", "", "", "")
  /\ parts "/rfq;x/1;y" = Some ("", "", "/rfq;x/1", "y", "", "").
Proof. repeat split. Qed.

Example parse_misc :
  parts "HTTP://h/a" = Some ("http", "h", "/a", "", "", "")
  /\ parts "x:/" = Some ("x", "", "/", "", "", "")
  /\ parts "x://" = Some ("x", "", "", "", "", "")
  /\ parts "//" = Some ("", "", "", "", "", "")
  /\ parts "a:1/" = Some ("a", "", "1/", "", "", "")
  /\ parts "https://h/a?b/#c" = Some ("https", "h", "/a", "", "b/", "c")
  /\ parts "http://[::1/x" = None.
Proof. repeat split. Qed.

End UrlTests.

(** ** Strings and encodings *)

Module StrFacts.
Import Bytes PyStr.
Open Scope string_scope.

Lemma append_assoc (a b c : string) : (a ++ b) ++ c = a ++ (b ++ c).
Proof. induction a as [|x a IH]; simpl; [reflexivity | now rewrite IH]. Qed.

Lemma append_nil_r (a : string) : a ++ "" = a.
Proof. induction a as [|x a IH]; simpl; [reflexivity | now rewrite IH]. Qed.

Lemma length_append (a b : string) :
  String.length (a ++ b) = (String.length a + String.length b)%nat.
Proof. induction a as [|x a IH]; simpl; [reflexivity | now rewrite IH]. Qed.

Lemma append_inv_head (a b c : string) : a ++ b = a ++ c -> b = c.
Proof. induction a as [|x a IH]; simpl; [easy | intros [= H]; auto]. Qed.

Lemma list_ascii_app (a b : string) :
  list_ascii_of_string (a ++ b)
  = (list_ascii_of_string a ++ list_ascii_of_string b)%list.
Proof. induction a as [|x a IH]; simpl; [reflexivity | now rewrite IH]. Qed.

Lemma encode_utf8_app (a b : string) :
  encode_utf8 (a ++ b) = (encode_utf8 a ++ encode_utf8 b)%list.
Proof. unfold encode_utf8. now rewrite list_ascii_app, map_app. Qed.



End StrFacts.

(** ** Digest and encoding sizes *)

Module CryptoFacts.
Import Bytes.







End CryptoFacts.

(** ** The standards behind the signer *)

Module StandardFacts.
Import Standard.
Local Open Scope Z_scope.
























End StandardFacts.

(** ** The signer *)


(** C9.  The message does not escape colons, so the signature does not
    determine the pair (nonce, path): nonce [n] with path ["x:" ++ p] and
    nonce [n ++ ":x"] with path [p] are different pairs with one message
    and one signature, whatever the keys. *)
Theorem create_signature_not_injective :
  forall api_key secret_key n p : string,
    (n, ("x:" ++ p)%string) <> ((n ++ ":x")%string, p)
    /\ signing_message n ("x:" ++ p) api_key
       = signing_message (n ++ ":x") p api_key
    /\ create_signature n ("x:" ++ p) api_key secret_key
       = create_signature (n ++ ":x") p api_key secret_key.
Proof.
  intros api_key secret_key n p.
  assert (Hmsg : signing_message n ("x:" ++ p) api_key
                 = signing_message (n ++ ":x") p api_key).
  { unfold signing_message. f_equal. f_equal.
    rewrite StrFacts.append_assoc. reflexivity. }
  split.
  { intros [= Hn _].
    apply (f_equal String.length) in Hn.
    rewrite StrFacts.length_append in Hn. simpl in Hn. lia. }
  split; [exact Hmsg|].
  unfold create_signature. rewrite Hmsg. reflexivity.
Qed.

Example create_signature_collision :
  create_signature "1700000000000" "x:/rfq/1" "key" "secret"
    = "SGj1Ihq5O5QE3ykJoKSFgssw7p0tvHJuHuDD/jksiM8="%string
  /\ create_signature "1700000000000:x" "/rfq/1" "key" "secret"
    = "SGj1Ihq5O5QE3ykJoKSFgssw7p0tvHJuHuDD/jksiM8="%string.
Proof. vm_compute. split; reflexivity. Qed.

Example create_signature_sample :
  create_signature "1700000000000" "/api/v1/request-for-quotes" "key" "secret"
    = "4g9JXRtE5nT+C/n4n9kbRdeSZLMt5NUvy4PHrGZWL9U="%string.
Proof. vm_compute. reflexivity. Qed.

(** ** Header sets *)

Module HeaderFacts.
Open Scope string_scope.

Lemma ci_get_set_same (k v : string) (h : headers) :
  ci_get k (ci_set k v h) = Some v.
Proof.
  induction h as [|[k' v'] h IH]; simpl.
  - now rewrite String.eqb_refl.
  - destruct (String.eqb (lower k') (lower k)) eqn:E; simpl.
    + now rewrite String.eqb_refl.
    + now rewrite E.
Qed.

Lemma ci_get_set_other (k k' v : string) (h : headers) :
  String.eqb (lower k') (lower k) = false ->
  ci_get k (ci_set k' v h) = ci_get k h.
Proof.
  intros Hk. induction h as [|[k0 v0] h IH]; simpl.
  - now rewrite Hk.
  - destruct (String.eqb (lower k0) (lower k')) eqn:E; simpl.
    + rewrite Hk. apply String.eqb_eq in E. rewrite E, Hk. reflexivity.
    + destruct (String.eqb (lower k0) (lower k)); [reflexivity | exact IH].
Qed.

(** Filtering a header set by a test on the lowered name keeps every
    header whose name passes the test. *)
Lemma ci_get_filter (p : string -> bool) (k : string) (h : headers) :
  p (lower k) = true ->
  ci_get k (filter (fun kv => p (lower (fst kv))) h) = ci_get k h.
Proof.
  intros Hp. induction h as [|[k' v'] h IH]; simpl; [reflexivity|].
  destruct (String.eqb (lower k') (lower k)) eqn:E.
  - apply String.eqb_eq in E. rewrite E, Hp. simpl.
    now rewrite E, String.eqb_refl.
  - destruct (p (lower k')); simpl; [now rewrite E | exact IH].
Qed.

End HeaderFacts.

(** ** Running the primitives *)

Lemma make_auth_headers_run (path api_key secret_key : string) (w : World) :
  make_auth_headers path api_key secret_key w
  = (Ok (auth_headers (next_nonce w) path api_key secret_key),
     set_ticks (S (ticks w)) w).
Proof. reflexivity. Qed.

Arguments create_signature : simpl never.
Arguments make_auth_headers : simpl never.
Arguments merge_headers : simpl never.

(** The headers of a signed request, as the server receives them. *)
Lemma merged_auth_headers (sh : headers) (nonce path api_key secret_key : string) :
  let h := merge_headers sh (auth_headers nonce path api_key secret_key) in
  ci_get "x-api-key" h = Some api_key
  /\ ci_get "x-nonce" h = Some nonce
  /\ ci_get "x-signature" h = Some (create_signature nonce path api_key secret_key)
  /\ ci_get "Content-Type" h = Some "application/json"%string
  /\ ci_get "Accept" h = Some "application/json"%string.
Proof.
  unfold merge_headers, auth_headers. cbn [fold_left fst snd].
  repeat split;
    repeat first
      [ apply HeaderFacts.ci_get_set_same
      | rewrite HeaderFacts.ci_get_set_other by reflexivity ].
Qed.

(** ** Creating the RFQ *)

Lemma or_chain_run (d : list (string * json)) (h : headers) (w : World) :
  py_or (py_get (JDict d) "rfqUrl")
    (py_or (py_get (JDict d) "rfq_url")
       (py_or (py_get (JDict d) "url")
          (ret (of_opt_str (ci_get "Location" h))))) w
  = (Ok (extracted d h), w).
Proof.
  unfold py_or, py_get, bind, ret, extracted. fold (field "rfqUrl" d).
  fold (field "rfq_url" d). fold (field "url" d).
  destruct (truthy (field "rfqUrl" d)); [reflexivity|].
  destruct (truthy (field "rfq_url" d)); [reflexivity|].
  destruct (truthy (field "url" d)); reflexivity.
Qed.

Lemma create_rfq_run (session : Session) (api_key secret_key : string)
      (w : World) (rep : Reply) :
  let req := create_request session api_key secret_key w in
  let resp := mkResponse rep (last_hop w (List.length (sent w)) req) in
  let w1 := set_sent (sent w ++ [req]) (set_ticks (S (ticks w)) w) in
  transport w (List.length (sent w)) req = Some rep ->
  create_rfq session api_key secret_key w
  = if error_status (reply_status rep) then (Raise (HTTPError resp), w1)
    else
      match body_data rep with
      | JDict d =>
          let v := extracted d (reply_headers rep) in
          if truthy v then
            match v with
            | JStr s =>
                (Ok (normalize_scheme s),
                 set_stdout
                   (stdout w ++ [[PFmt [ PStr "Created RFQ: ";
                                         PStr (normalize_scheme s) ]]]) w1)
            | _ => (Raise AttributeError, w1)
            end
          else (Raise (missing_rfq_url rep (JDict d)), w1)
      | _ => (Raise AttributeError, w1)
      end.
Proof.
  intros req resp w1 Hrep.
  unfold create_rfq, bind at 1. rewrite make_auth_headers_run.
  unfold bind at 1, session_post, session_request.
  cbn [sent set_ticks transport last_hop ticks clock environ stdout slept sess_headers].
  fold (create_request session api_key secret_key w). fold req.
  rewrite Hrep.
  unfold bind at 1, raise_for_status, ok, status_code. cbn [reply reply_status].
  fold w1.
  destruct (error_status (reply_status rep)); [reflexivity|].
  cbn [negb ret]. unfold bind at 1, try_except, response_json, body_data.
  cbn [reply].
  destruct (reply_json rep) as [j|]; cbn [ret raise].
  - destruct j as [| b | n | x | s | l | d]; try reflexivity.
    unfold bind at 1. rewrite or_chain_run.
    unfold resp_headers, missing_rfq_url. cbn [reply].
    destruct (extracted d (reply_headers rep)) as [| b | n | x | s | l | d'];
      cbn [truthy negb]; try reflexivity.
    + destruct b; reflexivity.
    + destruct (negb (n =? 0)); reflexivity.
    + destruct (negb (Qnum x =? 0)); reflexivity.
    + destruct (negb (String.eqb s "")); reflexivity.
    + destruct l; reflexivity.
    + destruct d'; reflexivity.
  - unfold bind at 1. rewrite or_chain_run.
    unfold resp_headers, missing_rfq_url. cbn [reply].
    destruct (extracted [] (reply_headers rep)) as [| b | n | x | s | l | d'];
      cbn [truthy negb]; try reflexivity.
    + destruct b; reflexivity.
    + destruct (negb (n =? 0)); reflexivity.
    + destruct (negb (Qnum x =? 0)); reflexivity.
    + destruct (negb (String.eqb s "")); reflexivity.
    + destruct l; reflexivity.
    + destruct d'; reflexivity.
Qed.


Lemma startswith_http (rest : string) :
  startswith ("http://" ++ rest) "http://" = true
  /\ drop 7 ("http://" ++ rest) = rest.
Proof. unfold startswith. cbn. destruct rest; split; reflexivity. Qed.

Lemma normalize_scheme_http (rest : string) :
  normalize_scheme ("http://" ++ rest) = ("https://" ++ rest)%string.
Proof.
  unfold normalize_scheme.
  destruct (startswith_http rest) as [-> ->]. reflexivity.
Qed.

Lemma normalize_scheme_other (u : string) :
  startswith u "http://" = false -> normalize_scheme u = u.
Proof. unfold normalize_scheme. now intros ->. Qed.

(** A truthy string is returned after the scheme rewrite. *)
Lemma create_rfq_returns (session : Session) (api_key secret_key : string)
      (w : World) (rep : Reply) (d : list (string * json)) (u : string) :
  transport w (List.length (sent w)) (create_request session api_key secret_key w)
    = Some rep ->
  error_status (reply_status rep) = false ->
  body_data rep = JDict d ->
  extracted d (reply_headers rep) = JStr u ->
  u <> ""%string ->
  fst (create_rfq session api_key secret_key w) = Ok (normalize_scheme u).
Proof.
  intros Hrep Hst Hd Hx Hu.
  rewrite (create_rfq_run _ _ _ _ _ Hrep), Hst, Hd. cbv zeta. rewrite Hx.
  cbn [truthy]. destruct (String.eqb_spec u ""); [contradiction|]. reflexivity.
Qed.

(** A falsy value ends in the error that reports the response. *)
Lemma create_rfq_missing (session : Session) (api_key secret_key : string)
      (w : World) (rep : Reply) (d : list (string * json)) :
  transport w (List.length (sent w)) (create_request session api_key secret_key w)
    = Some rep ->
  error_status (reply_status rep) = false ->
  body_data rep = JDict d ->
  truthy (extracted d (reply_headers rep)) = false ->
  fst (create_rfq session api_key secret_key w)
  = Raise (missing_rfq_url rep (JDict d)).
Proof.
  intros Hrep Hst Hd Hx.
  rewrite (create_rfq_run _ _ _ _ _ Hrep), Hst, Hd. cbv zeta. rewrite Hx.
  reflexivity.
Qed.

(** C6.  When the value extracted from a create response is the string
    [u]: if [u] begins with [http://] the function returns [u] with that
    prefix replaced by [https://]; otherwise it returns [u] unchanged. *)
Theorem create_rfq_rewrites_http_only :
  forall (session : Session) (api_key secret_key : string) (w : World)
         (rep : Reply) (d : list (string * json)) (u : string),
    transport w (List.length (sent w))
              (create_request session api_key secret_key w) = Some rep ->
    error_status (reply_status rep) = false ->
    body_data rep = JDict d ->
    extracted d (reply_headers rep) = JStr u ->
    u <> ""%string ->
    (forall rest, u = ("http://" ++ rest)%string ->
       fst (create_rfq session api_key secret_key w) = Ok ("https://" ++ rest)%string)
    /\ (startswith u "http://" = false ->
        fst (create_rfq session api_key secret_key w) = Ok u).
Proof.
  intros session api_key secret_key w rep d u Hrep Hst Hd Hx Hu.
  pose proof (create_rfq_returns _ _ _ _ _ _ _ Hrep Hst Hd Hx Hu) as Hres.
  split.
  - intros rest ->. now rewrite Hres, normalize_scheme_http.
  - intros Hp. now rewrite Hres, normalize_scheme_other.
Qed.

Lemma create_rfq_rewrites_http_only_witness :
  fst (create_rfq Samples.session "key" "secret"
         (Samples.world (Samples.always
            (mkReply 201 [] "{...}" (Some (JDict [("rfqUrl", JStr "http://x.test/rfq/1")]))))))
  = Ok "https://x.test/rfq/1"%string.
Proof.
  refine (proj1 (create_rfq_rewrites_http_only Samples.session "key" "secret" _ _
                   [("rfqUrl"%string, JStr "http://x.test/rfq/1")]
                   "http://x.test/rfq/1" _ _ _ _ _) "x.test/rfq/1"%string _);
    try reflexivity.
  discriminate.
Defined.

Lemma field_remove_same (k : string) (d : list (string * json)) :
  field k (remove_key k d) = JNull.
Proof.
  unfold field. induction d as [|[k' v] d IH]; simpl; [reflexivity|].
  destruct (String.eqb k' k) eqn:E; simpl; [exact IH | now rewrite E].
Qed.

Lemma field_remove_other (k k' : string) (d : list (string * json)) :
  String.eqb k' k = false -> field k' (remove_key k d) = field k' d.
Proof.
  intros Hk. unfold field. induction d as [|[k0 v] d IH]; simpl; [reflexivity|].
  destruct (String.eqb k0 k) eqn:E; simpl.
  - apply String.eqb_eq in E. subst k0.
    rewrite String.eqb_sym, Hk. exact IH.
  - destruct (String.eqb k0 k'); [reflexivity | exact IH].
Qed.

Lemma extracted_remove_falsy (k : string) (d : list (string * json)) (h : headers) :
  In k ["rfqUrl"; "rfq_url"; "url"]%string ->
  truthy (field k d) = false ->
  extracted d h = extracted (remove_key k d) h.
Proof.
  intros Hin Hf. unfold extracted.
  destruct Hin as [<- | [<- | [<- | []]]];
    rewrite field_remove_same, ?field_remove_other by reflexivity;
    rewrite Hf; reflexivity.
Qed.

Lemma truthy_str (s : string) : truthy (JStr s) = true <-> s <> ""%string.
Proof.
  cbn [truthy]. destruct (String.eqb_spec s ""); split; intro H;
    try reflexivity; try discriminate; try assumption; contradiction.
Qed.

(** C10.  In a create response with a dict body (the empty dict when the
    body is not JSON), a field that is present with a falsy value counts
    as absent: the extracted value is what the body without that field
    gives, so the next candidate is used; the call returns a URL exactly
    when the extracted value is a non-empty string, and raises the
    missing-URL error exactly when the extracted value is falsy, which
    includes a Location header that is present but empty. *)
Theorem create_rfq_falsy_field_is_absent :
  forall (session : Session) (api_key secret_key : string) (w : World)
         (rep : Reply) (d : list (string * json)),
    transport w (List.length (sent w))
              (create_request session api_key secret_key w) = Some rep ->
    error_status (reply_status rep) = false ->
    body_data rep = JDict d ->
    let h := reply_headers rep in
    let result := fst (create_rfq session api_key secret_key w) in
    (forall k, In k ["rfqUrl"; "rfq_url"; "url"]%string ->
       truthy (field k d) = false ->
       extracted d h = extracted (remove_key k d) h)
    /\ (truthy (field "rfqUrl" d) = false ->
        forall s, field "rfq_url" d = JStr s -> s <> ""%string ->
          result = Ok (normalize_scheme s))
    /\ (forall u, result = Ok u <->
          exists s, extracted d h = JStr s /\ s <> ""%string
                    /\ u = normalize_scheme s)
    /\ (result = Raise (missing_rfq_url rep (JDict d)) <->
          truthy (extracted d h) = false)
    /\ (truthy (field "rfqUrl" d) = false ->
        truthy (field "rfq_url" d) = false ->
        truthy (field "url" d) = false ->
        ci_get "Location" h = Some ""%string ->
        result = Raise (missing_rfq_url rep (JDict d))).
Proof.
  intros session api_key secret_key w rep d Hrep Hst Hd h result.
  assert (Hrun : result
    = fst (if truthy (extracted d h) then
             match extracted d h with
             | JStr s =>
                 (Ok (normalize_scheme s),
                  set_stdout
                    (stdout w ++ [[PFmt [ PStr "Created RFQ: ";
                                          PStr (normalize_scheme s) ]]])
                    (set_sent (sent w ++ [create_request session api_key secret_key w])
                              (set_ticks (S (ticks w)) w)))
             | _ => (Raise AttributeError,
                     set_sent (sent w ++ [create_request session api_key secret_key w])
                              (set_ticks (S (ticks w)) w))
             end
           else (Raise (missing_rfq_url rep (JDict d)),
                 set_sent (sent w ++ [create_request session api_key secret_key w])
                          (set_ticks (S (ticks w)) w)))).
  { unfold result. rewrite (create_rfq_run _ _ _ _ _ Hrep), Hst, Hd. reflexivity. }
  split; [intros k Hk Hf; now apply extracted_remove_falsy|].
  split.
  { intros H1 s H2 Hs. unfold result.
    apply (create_rfq_returns _ _ _ _ _ d s Hrep Hst Hd); [|exact Hs].
    unfold extracted. rewrite H1, H2.
    apply truthy_str in Hs. now rewrite Hs. }
  split.
  { intros u. rewrite Hrun. split.
    - destruct (truthy (extracted d h)) eqn:Ht; [|discriminate].
      destruct (extracted d h) as [| | | |s| |] eqn:Hx; try discriminate.
      cbn [fst]. intros [= <-]. exists s. apply truthy_str in Ht. auto.
    - intros (s & Hx & Hs & ->). rewrite Hx.
      apply truthy_str in Hs. now rewrite Hs. }
  split.
  { rewrite Hrun. split.
    - destruct (truthy (extracted d h)); [|reflexivity].
      destruct (extracted d h); discriminate.
    - now intros ->. }
  intros H1 H2 H3 HL. unfold result.
  apply (create_rfq_missing _ _ _ _ _ d Hrep Hst Hd).
  unfold extracted. fold h. now rewrite H1, H2, H3, HL.
Qed.

Lemma create_rfq_falsy_field_is_absent_witness :
  fst (create_rfq Samples.session "key" "secret"
         (Samples.world (Samples.always
            (mkReply 200 [("Location", "")] "{...}"
               (Some (JDict [ ("rfqUrl", JStr "");
                              ("rfq_url", JStr "https://x.test/rfq/9") ]))))))
  = Ok "https://x.test/rfq/9"%string.
Proof.
  refine (proj1 (proj2 (create_rfq_falsy_field_is_absent
            Samples.session "key" "secret" _ _
            [ ("rfqUrl"%string, JStr ""); ("rfq_url"%string, JStr "https://x.test/rfq/9") ]
            _ _ _)) _ "https://x.test/rfq/9"%string _ _);
    try reflexivity.
  discriminate.
Defined.






(** C4 at a body that is JSON but not an object: the Location header is
    never consulted, the call ends in [AttributeError]. *)
Lemma create_rfq_null_body_with_location :
  let rep := mkReply 201 [("Location", "https://x.test/rfq/1")]%string
                     "null" (Some JNull) in
  fst (create_rfq Samples.session "key" "secret"
         (Samples.world (Samples.always rep)))
  = Raise AttributeError.
Proof. cbv zeta. erewrite create_rfq_run by reflexivity. reflexivity. Qed.

(** X1.  The priority order of [create_rfq] on a dict body (the empty dict when
    the body is not JSON) with a status from 200 to 299: the first truthy
    value among the fields [rfqUrl], [rfq_url], [url] is used; when the body
    has none of the three the Location header is used; when that is absent
    too the error raised shows the status, the body as decoded and the
    response headers. *)
Theorem create_rfq_priority_order :
  forall (session : Session) (api_key secret_key : string) (w : World)
         (rep : Reply) (d : list (string * json)),
    transport w (List.length (sent w))
              (create_request session api_key secret_key w) = Some rep ->
    200 <= reply_status rep < 300 ->
    body_data rep = JDict d ->
    let result := fst (create_rfq session api_key secret_key w) in
    let uses (v : json) :=
      match v with
      | JStr s => result = Ok (normalize_scheme s)
      | _ => result = Raise AttributeError
      end in
    (truthy (field "rfqUrl" d) = true -> uses (field "rfqUrl" d))
    /\ (truthy (field "rfqUrl" d) = false ->
        truthy (field "rfq_url" d) = true -> uses (field "rfq_url" d))
    /\ (truthy (field "rfqUrl" d) = false ->
        truthy (field "rfq_url" d) = false ->
        truthy (field "url" d) = true -> uses (field "url" d))
    /\ (assoc "rfqUrl" d = None -> assoc "rfq_url" d = None ->
        assoc "url" d = None ->
        match ci_get "Location" (reply_headers rep) with
        | Some (String c s) => result = Ok (normalize_scheme (String c s))
        | Some EmptyString => True
        | None =>
            result
            = Raise (RuntimeError
                (PFmt [ PStr "Could not determine RFQ URL from response: status=";
                        PInt (reply_status rep);
                        PStr ", body="; PJson (JDict d);
                        PStr ", headers="; PHeaders (reply_headers rep) ]))
        end).
Proof.
  intros session api_key secret_key w rep d Hrep Hst Hd result uses.
  assert (Hok : error_status (reply_status rep) = false).
  { unfold error_status. destruct (400 <=? reply_status rep) eqn:E; [|reflexivity].
    apply Z.leb_le in E. lia. }
  assert (Huse : forall v, extracted d (reply_headers rep) = v ->
                           truthy v = true -> uses v).
  { intros v Hx Hv. unfold uses, result.
    rewrite (create_rfq_run _ _ _ _ _ Hrep), Hok, Hd. cbv zeta.
    rewrite Hx, Hv. destruct v; reflexivity. }
  split; [|split; [|split]].
  - intros H1. apply Huse; [|exact H1]. unfold extracted. now rewrite H1.
  - intros H1 H2. apply Huse; [|exact H2]. unfold extracted. now rewrite H1, H2.
  - intros H1 H2 H3. apply Huse; [|exact H3].
    unfold extracted. now rewrite H1, H2, H3.
  - intros H1 H2 H3.
    assert (Hx : extracted d (reply_headers rep)
                 = of_opt_str (ci_get "Location" (reply_headers rep))).
    { unfold extracted, field. now rewrite H1, H2, H3. }
    destruct (ci_get "Location" (reply_headers rep)) as [[|c s]|] eqn:HL.
    + exact I.
    + apply (create_rfq_returns _ _ _ _ _ d _ Hrep Hok Hd Hx). discriminate.
    + apply (create_rfq_missing _ _ _ _ _ d Hrep Hok Hd). now rewrite Hx.
Qed.

Lemma create_rfq_priority_order_witness :
  fst (create_rfq Samples.session "key" "secret"
         (Samples.world (Samples.always
            (mkReply 200 [("Location", "https://x.test/rfq/3")]%string "{...}"
               (Some (JDict [ ("url", JStr "https://x.test/rfq/2");
                              ("rfqUrl", JStr "https://x.test/rfq/1") ]))))))
  = Ok "https://x.test/rfq/1"%string.
Proof.
  refine (proj1 (create_rfq_priority_order Samples.session "key" "secret" _ _
            [ ("url"%string, JStr "https://x.test/rfq/2");
              ("rfqUrl"%string, JStr "https://x.test/rfq/1") ] _ _ _) _);
    try reflexivity.
  cbn. lia.
Defined.

(** ** Polling *)

Open Scope string_scope.

Section PollLoop.

Variable session : Session.
Variables quotes_url quotes_path api_key secret_key : string.
Variable max_attempts : Z.
Variable delay_seconds : Q.

Let loop := poll_loop session quotes_url quotes_path api_key secret_key
                      max_attempts delay_seconds.
Let get_request (nonce : string) : Request :=
  signed session "GET" quotes_url quotes_path api_key secret_key None nonce.

Let after_empty :=
  after_empty_attempt session quotes_url quotes_path api_key secret_key
                      max_attempts delay_seconds.

(** One turn of the loop, case by case. *)
Lemma poll_loop_step (attempt : Z) (rest : list Z) (w : World) :
  loop (attempt :: rest) w
  = let req := get_request (next_nonce w) in
    let w1 := set_sent (sent w ++ [req]) (set_ticks (S (ticks w)) w) in
    match transport w (List.length (sent w)) req with
    | None => (Raise RequestException, w1)
    | Some rep =>
        if error_status (reply_status rep)
        then (Raise (HTTPError (mkResponse rep (last_hop w (List.length (sent w)) req))), w1)
        else
          match reply_json rep with
          | None => (Raise (ValueError "JSONDecodeError"), w1)
          | Some quotes =>
              if truthy quotes then
                match fst (index0 quotes w1) with
                | Ok q =>
                    (Ok q,
                     set_stdout
                       (stdout w ++ [[PFmt [ PStr "Received quote on attempt ";
                                             PInt attempt; PStr ": "; PJson q ]]])
                       w1)
                | Raise e => (Raise e, w1)
                end
              else if Qle_bool 0 delay_seconds
                   then loop rest (after_empty attempt w)
                   else
                     (Raise (ValueError "sleep length must be non-negative"),
                      set_stdout
                        (stdout w ++ [[PFmt [ PStr "No quotes yet (attempt ";
                                              PInt attempt; PStr "/";
                                              PInt max_attempts;
                                              PStr "), sleeping..." ]]])
                        w1)
          end
    end.
Proof.
  cbv zeta. unfold loop at 1. cbn [poll_loop].
  unfold bind at 1. rewrite make_auth_headers_run.
  unfold bind at 1, session_get, session_request.
  cbn [sent set_ticks transport last_hop].
  change (mkRequest "GET" quotes_url
            (merge_headers (sess_headers session)
               (auth_headers (next_nonce w) quotes_path api_key secret_key)) None)
    with (get_request (next_nonce w)).
  destruct (transport w (List.length (sent w)) (get_request (next_nonce w)))
    as [rep|]; [|reflexivity].
  unfold bind at 1, raise_for_status, ok, status_code. cbn [reply].
  destruct (error_status (reply_status rep)); [reflexivity|].
  cbn [negb ret]. unfold bind at 1, response_json. cbn [reply].
  destruct (reply_json rep) as [quotes|]; [|reflexivity].
  cbn [ret]. destruct (truthy quotes).
  - destruct quotes as [| b | n | x | s | [|q l] | d]; try reflexivity.
    destruct s; reflexivity.
  - unfold bind at 1, print. unfold bind at 1, time_sleep. cbn [slept set_stdout].
    destruct (Qle_bool 0 delay_seconds); reflexivity.
Qed.


Lemma poll_loop_found (attempt : Z) (rest : list Z) (w : World) (q : json)
      (qs : list json) :
  attempt_gets w (List.length (sent w)) (JList (q :: qs)) ->
  loop (attempt :: rest) w
  = (Ok q,
     set_stdout
       (stdout w ++ [[PFmt [ PStr "Received quote on attempt "; PInt attempt;
                             PStr ": "; PJson q ]]])
       (set_sent (sent w ++ [get_request (next_nonce w)])
                 (set_ticks (S (ticks w)) w))).
Proof.
  intros Hget.
  destruct (Hget (get_request (next_nonce w))) as (rep & Hrep & Hst & Hj).
  rewrite poll_loop_step. cbv zeta. rewrite Hrep, Hst, Hj. reflexivity.
Qed.

(** Whatever the network does, the loop issues at most one request per
    attempt, each a GET signed for [quotes_path] with the nonce of the
    clock reading taken for it, and touches neither clock nor network. *)
Lemma poll_loop_calls (attempts : list Z) :
  forall w : World,
    exists n : nat,
      (n <= List.length attempts)%nat
      /\ sent (snd (loop attempts w))
         = (sent w ++ map (fun i => get_request (nonce_of_reading w (ticks w + i)))
                          (seq 0 n))%list
      /\ ticks (snd (loop attempts w)) = (ticks w + n)%nat
      /\ clock (snd (loop attempts w)) = clock w
      /\ transport (snd (loop attempts w)) = transport w.
Proof.
  induction attempts as [|attempt rest IH]; intros w.
  - exists 0%nat. cbn. rewrite app_nil_r, Nat.add_0_r. auto.
  - assert (Hone : forall r w',
              sent w' = (sent w ++ [get_request (next_nonce w)])%list ->
              ticks w' = S (ticks w) -> clock w' = clock w ->
              transport w' = transport w ->
              loop (attempt :: rest) w = (r, w') ->
              exists n : nat,
                (n <= List.length (attempt :: rest))%nat
                /\ sent (snd (loop (attempt :: rest) w))
                   = (sent w ++ map (fun i => get_request
                                      (nonce_of_reading w (ticks w + i))) (seq 0 n))%list
                /\ ticks (snd (loop (attempt :: rest) w)) = (ticks w + n)%nat
                /\ clock (snd (loop (attempt :: rest) w)) = clock w
                /\ transport (snd (loop (attempt :: rest) w)) = transport w).
    { intros r w' Hs Ht Hc Htr ->. exists 1%nat. cbn [snd seq map List.length].
      rewrite Hs, Ht, Hc, Htr, Nat.add_0_r.
      repeat split; try reflexivity; lia. }
    pose proof (poll_loop_step attempt rest w) as Hstep. cbv zeta in Hstep.
    destruct (transport w (List.length (sent w)) (get_request (next_nonce w)))
      as [rep|]; [|refine (Hone _ _ _ _ _ _ Hstep); reflexivity].
    destruct (error_status (reply_status rep));
      [refine (Hone _ _ _ _ _ _ Hstep); reflexivity|].
    destruct (reply_json rep) as [quotes|];
      [|refine (Hone _ _ _ _ _ _ Hstep); reflexivity].
    destruct (truthy quotes).
    { destruct (fst (index0 quotes _));
        refine (Hone _ _ _ _ _ _ Hstep); reflexivity. }
    destruct (Qle_bool 0 delay_seconds);
      [|refine (Hone _ _ _ _ _ _ Hstep); reflexivity].
    rewrite Hstep.
    destruct (IH (after_empty attempt w)) as (n & Hn & Hs & Ht & Hc & Htr).
    exists (S n). rewrite Hs, Ht, Hc, Htr.
    unfold after_empty, after_empty_attempt.
    cbn [sent set_slept set_stdout set_sent set_ticks
         ticks clock transport List.length].
    split; [lia|]. split; [|split; [lia|split; reflexivity]].
    rewrite <- app_assoc. f_equal. cbn [seq map app]. f_equal.
    + unfold next_nonce, nonce_of_reading. now rewrite Nat.add_0_r.
    + rewrite <- seq_shift, map_map. apply map_ext. intros i.
      unfold nonce_of_reading. cbn [clock]. now rewrite Nat.add_succ_r.
Qed.




End PollLoop.

Lemma py_range_length (lo hi : Z) :
  List.length (py_range lo hi) = Z.to_nat (hi - lo).
Proof. unfold py_range. now rewrite length_map, length_seq. Qed.

(** [poll_quotes] is the loop over [range(1, max_attempts + 1)] on the
    derived URL and path, once the RFQ URL is parsed. *)
Lemma poll_quotes_run (netloc_valid : string -> bool) (session : Session)
      (rfq_url api_key secret_key : string) (max_attempts : Z)
      (delay_seconds : Q) (w : World) :
  poll_quotes netloc_valid session rfq_url api_key secret_key
              max_attempts delay_seconds w
  = match urlparse netloc_valid rfq_url with
    | Some parsed =>
        let quotes_path := (rstrip "/" (Url.path parsed) ++ "/quotes")%string in
        poll_loop session
          (Url.scheme parsed ++ "://" ++ Url.netloc parsed ++ quotes_path)%string
          quotes_path api_key secret_key max_attempts delay_seconds
          (py_range 1 (max_attempts + 1)) w
    | None => (Raise (ValueError "invalid URL"), w)
    end.
Proof.
  unfold poll_quotes, bind, urlparse_or_raise.
  destruct (urlparse netloc_valid rfq_url); reflexivity.
Qed.




(** ** Executing a quote *)

(** Equations for running the primitives in sequence. *)
Lemma bind_assoc {A B C} (c : M A) (k1 : A -> M B) (k2 : B -> M C) (w : World) :
  bind (bind c k1) k2 w = bind c (fun a => bind (k1 a) k2) w.
Proof. unfold bind. destruct (c w) as [[a|e] w']; reflexivity. Qed.

Lemma bind_ret {A B} (a : A) (k : A -> M B) (w : World) :
  bind (ret a) k w = k a w.
Proof. reflexivity. Qed.

Lemma bind_raise {A B} (e : exn) (k : A -> M B) (w : World) :
  bind (raise e) k w = (Raise e, w).
Proof. reflexivity. Qed.

Lemma bind_print {B} (args : list pyobj) (k : unit -> M B) (w : World) :
  bind (print args) k w = k tt (set_stdout (stdout w ++ [args]) w).
Proof. reflexivity. Qed.

Lemma bind_make_auth_headers {B} (path api_key secret_key : string)
      (k : headers -> M B) (w : World) :
  bind (make_auth_headers path api_key secret_key) k w
  = k (auth_headers (next_nonce w) path api_key secret_key)
      (set_ticks (S (ticks w)) w).
Proof. reflexivity. Qed.

Lemma bind_session_request {B} (session : Session) (method url : string)
      (body : option json) (hdrs : headers) (k : Response -> M B) (w : World) :
  bind (session_request session method url body hdrs) k w
  = let req := mkRequest method url (merge_headers (sess_headers session) hdrs) body in
    match transport w (List.length (sent w)) req with
    | Some rep => k (mkResponse rep (last_hop w (List.length (sent w)) req)) (set_sent (sent w ++ [req]) w)
    | None => (Raise RequestException, set_sent (sent w ++ [req]) w)
    end.
Proof.
  unfold bind, session_request. cbv zeta.
  destruct (transport w (List.length (sent w)) _); reflexivity.
Qed.

(** Reduction of the world to its record form. *)
Ltac flat_world :=
  cbn [set_stdout set_sent set_ticks set_slept
       stdout clock transport last_hop environ ticks sent slept].

Lemma world_eq (w : World) (k : nat) (s : list Request) (o : list (list pyobj)) :
  set_stdout o (set_sent s (set_ticks k w))
  = mkWorld (clock w) (transport w) (last_hop w) (environ w) k s o (slept w).
Proof. reflexivity. Qed.

Lemma execute_quote_run (netloc_valid : string -> bool) (session : Session)
      (rfq_url : string) (quote_id : json) (api_key secret_key : string)
      (w : World) :
  execute_quote netloc_valid session rfq_url quote_id api_key secret_key w
  = match urlparse netloc_valid rfq_url with
    | None => (Raise (ValueError "invalid URL"), w)
    | Some parsed =>
        let execute_path := (rstrip "/" (path parsed) ++ "/execute")%string in
        let execute_url :=
          (scheme parsed ++ "://" ++ netloc parsed ++ execute_path)%string in
        let payload := JDict [("winningQuoteId"%string, quote_id)] in
        let req := signed session "POST" execute_url execute_path
                          api_key secret_key (Some payload) (next_nonce w) in
        let announce :=
          [PFmt [ PStr "sending payload "; PJson payload; PStr " to ";
                  PStr execute_path ]] in
        let world_with (lines : list (list pyobj)) :=
          mkWorld (clock w) (transport w) (last_hop w) (environ w) (S (ticks w))
                  (sent w ++ [req]) (stdout w ++ announce :: lines) (slept w) in
        match transport w (List.length (sent w)) req with
        | None => (Raise RequestException, world_with [])
        | Some rep =>
            let resp := mkResponse rep (last_hop w (List.length (sent w)) req) in
            if error_status (reply_status rep)
            then (Raise (HTTPError resp),
                  world_with (execute_diagnostic execute_url execute_path resp))
            else (Ok (reply_text rep),
                  world_with [[PFmt [ PStr "Execution response: ";
                                      PStr (reply_text rep) ]]])
        end
    end.
Proof.
  destruct w as [c t hop e n s o sl].
  unfold execute_quote, urlparse_or_raise.
  destruct (urlparse netloc_valid rfq_url) as [parsed|];
    [rewrite bind_ret | reflexivity].
  cbv zeta.
  set (execute_path := (rstrip "/" (path parsed) ++ "/execute")%string).
  set (execute_url := (scheme parsed ++ "://" ++ netloc parsed ++ execute_path)%string).
  set (payload := JDict [("winningQuoteId"%string, quote_id)]).
  rewrite bind_print. flat_world.
  rewrite bind_make_auth_headers. unfold next_nonce. flat_world.
  unfold session_post. rewrite bind_session_request. cbv zeta. flat_world.
  unfold signed.
  set (req := mkRequest "POST" execute_url _ (Some payload)).
  destruct (t (List.length s) req) as [rep|]; [|reflexivity].
  set (resp := mkResponse rep (hop (List.length s) req)).
  assert (Hok : ok resp = negb (error_status (reply_status rep))) by reflexivity.
  rewrite Hok.
  destruct (error_status (reply_status rep)) eqn:Hst; cbn [negb].
  - repeat (rewrite ?bind_assoc; rewrite bind_print; flat_world).
    unfold raise_for_status. rewrite Hok. cbn [negb].
    rewrite ?bind_assoc, bind_raise. f_equal. f_equal.
    unfold execute_diagnostic. repeat rewrite <- app_assoc. reflexivity.
  - rewrite bind_ret, bind_print. unfold ret. flat_world. f_equal. f_equal.
    repeat rewrite <- app_assoc. reflexivity.
Qed.

Lemma shown_auth_headers (sh : headers) (nonce path api_key secret_key : string) :
  let shown :=
    filter shown_header
      (merge_headers sh (auth_headers nonce path api_key secret_key)) in
  ci_get "x-api-key" shown = Some api_key
  /\ ci_get "x-nonce" shown = Some nonce
  /\ ci_get "x-signature" shown
     = Some (create_signature nonce path api_key secret_key)
  /\ ci_get "Content-Type" shown = Some "application/json"%string
  /\ ci_get "Accept" shown = Some "application/json"%string.
Proof.
  cbv zeta.
  pose proof (merged_auth_headers sh nonce path api_key secret_key) as H.
  cbv zeta in H. destruct H as (H1 & H2 & H3 & H4 & H5).
  pose (p := fun l : string =>
               startswith l "x-"
               || existsb (String.eqb l) ["content-type"; "accept"]%string).
  change shown_header with (fun kv : string * string => p (lower (fst kv))).
  rewrite !(HeaderFacts.ci_get_filter p) by reflexivity.
  auto.
Qed.




(** ** Rounding to a float keeps the order *)

Module FloatFacts.
Import PyFloat.
Open Scope Q_scope.

Local Abbreviation two := (2 # 1).

Lemma two_pos (k : Z) : 0 < two ^ k.
Proof. apply Qpower_0_lt. reflexivity. Qed.

Lemma two_succ (k : Z) : two ^ (k + 1) == two * two ^ k.
Proof. rewrite Qpower_plus by discriminate. rewrite Qpower_1_r. ring. Qed.

Lemma two_le (a b : Z) : (a <= b)%Z -> two ^ a <= two ^ b.
Proof. intros H. apply Qpower_le_compat_l; [exact H | discriminate]. Qed.

Lemma two_inject (k : Z) : (0 <= k)%Z -> inject_Z (2 ^ k) == two ^ k.
Proof. intros H. now rewrite Zpower_Qpower. Qed.

Lemma floor_spec (x : Q) : inject_Z (Qfloor x) <= x < inject_Z (Qfloor x) + 1.
Proof.
  split; [apply Qfloor_le|].
  pose proof (Qlt_floor x) as H. rewrite inject_Z_plus in H. exact H.
Qed.

Lemma round_half_even_bounds (x : Q) :
  (Qfloor x <= round_half_even x <= Qfloor x + 1)%Z.
Proof.
  unfold round_half_even.
  destruct (x - inject_Z (Qfloor x) ?= 1 # 2); [destruct (Z.even _)| |]; lia.
Qed.

Lemma round_half_even_mono (x y : Q) :
  x <= y -> (round_half_even x <= round_half_even y)%Z.
Proof.
  intros H. pose proof (Qfloor_resp_le _ _ H) as Hf.
  pose proof (round_half_even_bounds x) as Bx.
  pose proof (round_half_even_bounds y) as By.
  destruct (Z.eq_dec (Qfloor x) (Qfloor y)) as [E|N]; [|lia].
  unfold round_half_even. rewrite <- E.
  destruct (Qcompare_spec (x - inject_Z (Qfloor x)) (1 # 2)) as [Cx|Cx|Cx];
    destruct (Qcompare_spec (y - inject_Z (Qfloor x)) (1 # 2)) as [Cy|Cy|Cy];
    try (destruct (Z.even (Qfloor x))); try lia; exfalso; lra.
Qed.

Lemma round_half_even_ge (x : Q) (a : Z) :
  inject_Z a <= x -> (a <= round_half_even x)%Z.
Proof.
  intros H. pose proof (round_half_even_bounds x).
  pose proof (Qfloor_resp_le _ _ H) as Hf. rewrite Qfloor_Z in Hf. lia.
Qed.

Lemma round_half_even_le (x : Q) (b : Z) :
  x <= inject_Z b -> (round_half_even x <= b)%Z.
Proof.
  intros H. pose proof (round_half_even_bounds x) as B.
  pose proof (Qfloor_resp_le _ _ H) as Hf. rewrite Qfloor_Z in Hf.
  destruct (Z.eq_dec (Qfloor x) b) as [E|N]; [|lia].
  unfold round_half_even. rewrite E.
  destruct (Qcompare_spec (x - inject_Z b) (1 # 2)) as [C|C|C];
    [exfalso; lra | lia | exfalso; lra].
Qed.

Lemma exponent_spec (x : Q) :
  0 < x -> two ^ exponent x <= x < two ^ (exponent x + 1).
Proof.
  intros Hx. destruct x as [n d].
  assert (Hn : (0 < n)%Z) by (unfold Qlt in Hx; cbn in Hx; lia).
  unfold exponent. cbn [Qnum Qden].
  set (a := Z.log2 n). set (b := Z.log2 (Z.pos d)).
  destruct (Z.log2_spec n Hn) as [Ha1 Ha2]. fold a in Ha1, Ha2.
  destruct (Z.log2_spec (Z.pos d) eq_refl) as [Hb1 Hb2]. fold b in Hb1, Hb2.
  assert (Ha0 : (0 <= a)%Z) by apply Z.log2_nonneg.
  assert (Hb0 : (0 <= b)%Z) by apply Z.log2_nonneg.
  assert (Qa1 : two ^ a <= inject_Z n).
  { rewrite <- two_inject by exact Ha0. now rewrite <- Zle_Qle. }
  assert (Qa2 : inject_Z n < two * two ^ a).
  { rewrite <- two_succ, <- two_inject by lia.
    rewrite <- Zlt_Qlt. replace (a + 1)%Z with (Z.succ a) by lia. exact Ha2. }
  assert (Qb1 : two ^ b <= inject_Z (Z.pos d)).
  { rewrite <- two_inject by exact Hb0. now rewrite <- Zle_Qle. }
  assert (Qb2 : inject_Z (Z.pos d) < two * two ^ b).
  { rewrite <- two_succ, <- two_inject by lia.
    rewrite <- Zlt_Qlt. replace (b + 1)%Z with (Z.succ b) by lia. exact Hb2. }
  assert (Hx' : (n # d) * inject_Z (Z.pos d) == inject_Z n).
  { unfold Qeq, Qmult, inject_Z. cbn. lia. }
  assert (Hab : two ^ a == two ^ (a - b) * two ^ b).
  { rewrite <- Qpower_plus by discriminate. now replace (a - b + b)%Z with a by lia. }
  pose proof (two_pos a) as Pa. pose proof (two_pos b) as Pb.
  pose proof (two_pos (a - b)) as Pab.
  set (x := n # d) in *. set (D := inject_Z (Z.pos d)) in *.
  set (N := inject_Z n) in *.
  set (A := two ^ a) in *. set (B := two ^ b) in *. set (C := two ^ (a - b)) in *.
  destruct (Qle_bool C x) eqn:T.
  - apply Qle_bool_iff in T. split; [exact T|].
    rewrite two_succ. fold C.
    apply Qnot_le_lt. intros Hc.
    assert (two * C * D <= x * D) by (apply Qmult_le_compat_r; [exact Hc | lra]).
    assert (two * C * B <= two * C * D).
    { apply Qmult_le_l; [lra | exact Qb1]. }
    lra.
  - assert (T' : x < C).
    { apply Qnot_le_lt. intros Hc. apply Qle_bool_iff in Hc. congruence. }
    replace (a - b - 1 + 1)%Z with (a - b)%Z by lia. fold C.
    split; [|exact T'].
    assert (Hc1 : two * two ^ (a - b - 1) == C).
    { rewrite <- two_succ. unfold C. now replace (a - b - 1 + 1)%Z with (a - b)%Z by lia. }
    pose proof (two_pos (a - b - 1)) as Pc.
    set (C' := two ^ (a - b - 1)) in *.
    apply Qnot_lt_le. intros Hc.
    assert (x * D < C' * D) by (apply Qmult_lt_compat_r; [lra | exact Hc]).
    assert (C' * D < C' * (two * B)).
    { apply Qmult_lt_l; [exact Pc | exact Qb2]. }
    assert (C' * (two * B) == C * B) by (rewrite <- Hc1; ring).
    lra.
Qed.

Lemma exponent_mono (x y : Q) : 0 < x -> x <= y -> (exponent x <= exponent y)%Z.
Proof.
  intros Hx Hxy.
  destruct (exponent_spec x Hx) as [Lx _].
  destruct (exponent_spec y) as [_ Uy]; [lra|].
  destruct (Z_le_gt_dec (exponent x) (exponent y)) as [H|H]; [exact H|].
  pose proof (two_le (exponent y + 1) (exponent x) ltac:(lia)). lra.
Qed.

Lemma scaled_bounds (x : Q) :
  0 < x ->
  inject_Z (2 ^ 52) <= x / two ^ (exponent x - 52)
  /\ x / two ^ (exponent x - 52) <= inject_Z (2 ^ 53).
Proof.
  intros Hx. destruct (exponent_spec x Hx) as [L U].
  pose proof (two_pos (exponent x - 52)) as P.
  assert (E : two ^ exponent x == two ^ (exponent x - 52) * inject_Z (2 ^ 52)).
  { rewrite two_inject by lia. rewrite <- Qpower_plus by discriminate.
    now replace (exponent x - 52 + 52)%Z with (exponent x) by lia. }
  rewrite two_succ in U.
  set (c := two ^ (exponent x - 52)) in *.
  split.
  - apply Qle_shift_div_l; [exact P|]. lra.
  - apply Qle_shift_div_r; [exact P|].
    change (inject_Z (2 ^ 53)) with (two * inject_Z (2 ^ 52)). lra.
Qed.

Lemma round_positive_bounds (x : Q) :
  0 < x ->
  two ^ exponent x <= round_positive x <= two ^ (exponent x + 1).
Proof.
  intros Hx. destruct (scaled_bounds x Hx) as [L U].
  unfold round_positive.
  pose proof (two_pos (exponent x - 52)) as P.
  assert (E : two ^ exponent x == two ^ (exponent x - 52) * inject_Z (2 ^ 52)).
  { rewrite two_inject by lia. rewrite <- Qpower_plus by discriminate.
    now replace (exponent x - 52 + 52)%Z with (exponent x) by lia. }
  rewrite two_succ, E.
  set (c := two ^ (exponent x - 52)) in *.
  set (m := round_half_even (x / c)).
  assert (Hm : (2 ^ 52 <= m <= 2 ^ 53)%Z).
  { split; [apply round_half_even_ge, L | apply round_half_even_le, U]. }
  destruct Hm as [Hm1 Hm2].
  rewrite Zle_Qle in Hm1, Hm2.
  change (inject_Z (2 ^ 53)) with (two * inject_Z (2 ^ 52)) in Hm2.
  set (M := inject_Z m) in *. set (K := inject_Z (2 ^ 52)) in *.
  split.
  - rewrite (Qmult_comm c K). apply Qmult_le_compat_r; lra.
  - assert (M * c <= two * K * c) by (apply Qmult_le_compat_r; lra). lra.
Qed.

Lemma round_positive_mono (x y : Q) :
  0 < x -> x <= y -> round_positive x <= round_positive y.
Proof.
  intros Hx Hxy. assert (Hy : 0 < y) by lra.
  pose proof (exponent_mono x y Hx Hxy) as He.
  destruct (Z.eq_dec (exponent x) (exponent y)) as [E|N].
  - unfold round_positive. rewrite E.
    pose proof (two_pos (exponent y - 52)) as P.
    apply Qmult_le_compat_r; [|lra].
    rewrite <- Zle_Qle. apply round_half_even_mono.
    unfold Qdiv. apply Qmult_le_compat_r; [exact Hxy|].
    apply Qinv_le_0_compat. lra.
  - destruct (round_positive_bounds x Hx) as [_ U].
    destruct (round_positive_bounds y Hy) as [L _].
    pose proof (two_le (exponent x + 1) (exponent y) ltac:(lia)). lra.
Qed.

Lemma round_positive_pos (x : Q) : 0 < x -> 0 < round_positive x.
Proof.
  intros Hx. destruct (round_positive_bounds x Hx) as [L _].
  pose proof (two_pos (exponent x)). lra.
Qed.

(** Rounding to the nearest float keeps the order. *)
Lemma round_float_mono (x y : Q) : x <= y -> round_float x <= round_float y.
Proof.
  intros H. unfold round_float.
  destruct (Qcompare_spec x 0) as [Cx|Cx|Cx];
    destruct (Qcompare_spec y 0) as [Cy|Cy|Cy]; try (exfalso; lra); try lra.
  - pose proof (round_positive_pos y Cy). lra.
  - pose proof (round_positive_pos (- x) ltac:(lra)). lra.
  - pose proof (round_positive_mono (- y) (- x) ltac:(lra) ltac:(lra)). lra.
  - pose proof (round_positive_pos (- x) ltac:(lra)).
    pose proof (round_positive_pos y Cy). lra.
  - now apply round_positive_mono.
Qed.

Lemma round_float_nonneg (x : Q) : 0 <= x -> 0 <= round_float x.
Proof. intros H. apply (round_float_mono 0 x H). Qed.

End FloatFacts.

(** ** Nonces *)

Module NonceFacts.

Lemma str_of_int_inj (a b : Z) : str_of_int a = str_of_int b -> a = b.
Proof.
  unfold str_of_int. intros H.
  assert (Hnorm : forall z, Z.to_int z <> Decimal.Pos Decimal.Nil
                            /\ Z.to_int z <> Decimal.Neg Decimal.Nil).
  { intros z. split; intros E; pose proof (f_equal Z.of_int E) as E';
      rewrite DecimalZ.of_to in E'; cbn in E'; subst z; discriminate E. }
  apply DecimalZ.to_int_inj.
  assert (E : Some (Z.to_int a) = Some (Z.to_int b)).
  { rewrite <- (NilZero.isi (Z.to_int a)) by apply Hnorm.
    rewrite <- (NilZero.isi (Z.to_int b)) by apply Hnorm.
    now rewrite H. }
  now injection E.
Qed.

(** Truncation is monotone. *)
Lemma int_of_float_mono (x y : Q) : (x <= y)%Q -> int_of_float x <= int_of_float y.
Proof.
  unfold Qle, int_of_float. destruct x as [a b], y as [c d]. cbn [Qnum Qden].
  intros H.
  rewrite <- (Z.quot_mul_cancel_r a (Zpos b) (Zpos d)) by discriminate.
  rewrite <- (Z.quot_mul_cancel_r c (Zpos d) (Zpos b)) by discriminate.
  rewrite (Z.mul_comm (Zpos d) (Zpos b)).
  apply Z.quot_le_mono; lia.
Qed.

Lemma nonce_ms_mono (t1 t2 : Q) : (t1 <= t2)%Q -> nonce_ms t1 <= nonce_ms t2.
Proof.
  intros H. apply int_of_float_mono, FloatFacts.round_float_mono.
  apply Qmult_le_compat_r; [exact H | discriminate].
Qed.

(** The nonce of a later value of the clock is not smaller. *)
Lemma reading_nonce_mono (t1 t2 : Q) :
  (t1 <= t2)%Q ->
  nonce_ms (PyFloat.round_float t1) <= nonce_ms (PyFloat.round_float t2).
Proof. intros H. now apply nonce_ms_mono, FloatFacts.round_float_mono. Qed.

End NonceFacts.

Lemma stamped_refl (w w' : World) : same_net w w' -> stamped w w'.
Proof.
  intros (Hc & Ht & Hk & Hs). repeat split; try assumption.
  exists []. rewrite app_nil_r. cbn. repeat split; try assumption; [lia|].
  intros [|i] r; discriminate.
Qed.

Lemma stamped_trans (w1 w2 w3 : World) :
  stamped w1 w2 -> stamped w2 w3 -> stamped w1 w3.
Proof.
  intros (Hc1 & Ht1 & r1 & Hs1 & Hk1 & Hn1) (Hc2 & Ht2 & r2 & Hs2 & Hk2 & Hn2).
  split; [congruence|]. split; [congruence|].
  exists (r1 ++ r2)%list. rewrite Hs2, Hs1, Hk2, Hk1, length_app, app_assoc.
  split; [reflexivity|]. split; [lia|].
  intros i r Hi.
  destruct (Nat.lt_ge_cases i (List.length r1)) as [Hlt|Hge].
  - rewrite nth_error_app1 in Hi by exact Hlt. now apply Hn1.
  - rewrite nth_error_app2 in Hi by exact Hge.
    rewrite (Hn2 _ _ Hi). unfold nonce_of_reading. rewrite Hc1, Hk1.
    replace (ticks w1 + List.length r1 + (i - List.length r1))%nat
      with (ticks w1 + i)%nat by lia.
    reflexivity.
Qed.

Lemma stamped_signed (session : Session) (method url path api_key secret_key : string)
      (body : option json) (w w' : World) :
  clock w' = clock w -> transport w' = transport w ->
  ticks w' = S (ticks w) ->
  sent w' = (sent w ++ [signed session method url path api_key secret_key body
                               (next_nonce w)])%list ->
  stamped w w'.
Proof.
  intros Hc Ht Hk Hs. split; [exact Hc|]. split; [exact Ht|].
  eexists. split; [exact Hs|]. cbn [List.length]. split; [lia|].
  intros [|[|i]] r; cbn; try discriminate. intros [= <-].
  rewrite Nat.add_0_r. unfold signed. cbn [req_headers].
  apply merged_auth_headers.
Qed.

Lemma create_rfq_stamped (session : Session) (api_key secret_key : string)
      (w : World) :
  stamped w (snd (create_rfq session api_key secret_key w)).
Proof.
  assert (Hone : forall w', clock w' = clock w -> transport w' = transport w ->
                   ticks w' = S (ticks w) ->
                   sent w' = (sent w ++ [create_request session api_key secret_key w])%list ->
                   stamped w w').
  { intros w' Hc Ht Hk Hs.
    now apply (stamped_signed session "POST" (BASE_URL ++ RFQ_PATH) RFQ_PATH
                 api_key secret_key (Some rfq_payload)). }
  destruct (transport w (List.length (sent w))
              (create_request session api_key secret_key w)) as [rep|] eqn:Hrep.
  - rewrite (create_rfq_run _ _ _ _ _ Hrep).
    destruct (error_status (reply_status rep)); [now apply Hone|].
    destruct (body_data rep); try now apply Hone.
    cbv zeta. destruct (truthy (extracted d (reply_headers rep)));
      [destruct (extracted d (reply_headers rep))|]; now apply Hone.
  - unfold create_rfq, bind at 1. rewrite make_auth_headers_run.
    unfold bind at 1, session_post, session_request.
    cbn [sent set_ticks transport last_hop sess_headers].
    change (mkRequest "POST" (BASE_URL ++ RFQ_PATH)
              (merge_headers (sess_headers session)
                 (auth_headers (next_nonce w) RFQ_PATH api_key secret_key))
              (Some rfq_payload))
      with (create_request session api_key secret_key w).
    rewrite Hrep. now apply Hone.
Qed.

Lemma poll_quotes_stamped (netloc_valid : string -> bool) (session : Session)
      (rfq_url api_key secret_key : string) (max_attempts : Z)
      (delay_seconds : Q) (w : World) :
  stamped w (snd (poll_quotes netloc_valid session rfq_url api_key secret_key
                              max_attempts delay_seconds w)).
Proof.
  rewrite poll_quotes_run.
  destruct (urlparse netloc_valid rfq_url) as [parsed|];
    [|apply stamped_refl; repeat split].
  cbv zeta.
  match goal with
  | |- stamped w (snd (poll_loop ?s ?u ?p ?a ?k ?m ?d ?l w)) =>
      destruct (poll_loop_calls s u p a k m d l w) as (n & _ & Hs & Hk & Hc & Ht)
  end.
  split; [exact Hc|]. split; [exact Ht|].
  eexists. split; [exact Hs|]. rewrite length_map, length_seq.
  split; [exact Hk|].
  intros i r Hi. rewrite nth_error_map in Hi.
  destruct (nth_error (seq 0 n) i) as [j|] eqn:Hj; [|discriminate].
  cbn in Hi. injection Hi as <-.
  assert (j = i) as ->.
  { pose proof (nth_error_nth _ _ 0%nat Hj) as E.
    assert (Hlt : (i < List.length (seq 0 n))%nat)
      by (apply nth_error_Some; congruence).
    rewrite length_seq in Hlt. rewrite seq_nth in E by exact Hlt. lia. }
  unfold signed. cbn [req_headers]. apply merged_auth_headers.
Qed.

Lemma execute_quote_stamped (netloc_valid : string -> bool) (session : Session)
      (rfq_url : string) (quote_id : json) (api_key secret_key : string)
      (w : World) :
  stamped w (snd (execute_quote netloc_valid session rfq_url quote_id
                                api_key secret_key w)).
Proof.
  rewrite execute_quote_run.
  destruct (urlparse netloc_valid rfq_url) as [parsed|];
    [|apply stamped_refl; repeat split].
  cbv zeta.
  match goal with
  | |- context [signed ?s ?m ?u ?p ?a ?k ?b (next_nonce w)] =>
      assert (Hone : forall w', clock w' = clock w -> transport w' = transport w ->
                       ticks w' = S (ticks w) ->
                       sent w' = (sent w ++ [signed s m u p a k b (next_nonce w)])%list ->
                       stamped w w')
        by (intros; now apply (stamped_signed s m u p a k b))
  end.
  destruct (transport w _ _) as [rep|]; [|now apply Hone].
  destruct (error_status (reply_status rep)); now apply Hone.
Qed.

Lemma main_stamped (netloc_valid : string -> bool) (default_headers : headers)
      (w : World) :
  stamped w (snd (main netloc_valid default_headers w)).
Proof.
  unfold main. unfold bind at 1, environ_get. unfold bind at 1.
  destruct (assoc "CHECKER_API_KEY" (environ w)) as [[|c1 k1]|];
    try solve [apply stamped_refl; repeat split].
  destruct (assoc "CHECKER_SECRET_KEY" (environ w)) as [[|c2 k2]|];
    try solve [apply stamped_refl; repeat split].
  unfold bind at 1.
  pose proof (create_rfq_stamped (mkSession default_headers)
                (String c1 k1) (String c2 k2) w) as Hc.
  destruct (create_rfq (mkSession default_headers) (String c1 k1) (String c2 k2) w)
    as [[rfq_url|e] wc]; cbn [snd] in Hc; [|exact Hc].
  unfold bind at 1.
  pose proof (poll_quotes_stamped netloc_valid (mkSession default_headers) rfq_url
                (String c1 k1) (String c2 k2) 10 (1 # 1) wc) as Hp.
  destruct (poll_quotes netloc_valid (mkSession default_headers) rfq_url
              (String c1 k1) (String c2 k2) 10 (1 # 1) wc)
    as [[quote|e] wp]; cbn [snd] in Hp;
    [|exact (stamped_trans _ _ _ Hc Hp)].
  pose proof (stamped_trans _ _ _ Hc Hp) as Hcp.
  unfold bind at 1.
  assert (Hg : snd (getitem quote "quoteId" wp) = wp).
  { destruct quote as [| | | | | |d]; try reflexivity.
    cbn. destruct (assoc "quoteId" d); reflexivity. }
  destruct (getitem quote "quoteId" wp) as [[quote_id|e] wg]; cbn [snd] in Hg;
    subst wg; [|exact Hcp].
  unfold try_except, bind.
  pose proof (execute_quote_stamped netloc_valid (mkSession default_headers) rfq_url
                quote_id (String c1 k1) (String c2 k2) wp) as He.
  destruct (execute_quote netloc_valid (mkSession default_headers) rfq_url
              quote_id (String c1 k1) (String c2 k2) wp)
    as [[data|e] we]; cbn [snd] in He.
  - exact (stamped_trans _ _ _ Hcp He).
  - destruct e; exact (stamped_trans _ _ _ Hcp He).
Qed.

(** C8, as the code has it.  Every call of [make_auth_headers] takes one
    new value of the clock and makes the nonce from it alone: the float
    [time.time()], times 1000 in float arithmetic, truncated.  In a run of
    [main] the request of every call of the session is signed with the nonce
    of a reading of its own, the [i]-th with the [i]-th reading.  The nonces
    are therefore non-decreasing when the clock is, and pairwise distinct
    when the millisecond values of the readings taken increase strictly;
    nothing else separates them. *)
Theorem nonces_follow_the_clock :
  forall (netloc_valid : string -> bool) (default_headers : headers) (w : World),
    let ms (k : nat) := nonce_ms (PyFloat.round_float (clock w k)) in
    (forall (path api_key secret_key : string) (w0 : World),
        make_auth_headers path api_key secret_key w0
        = (Ok (auth_headers
                 (str_of_int (nonce_ms (PyFloat.round_float (clock w0 (ticks w0)))))
                 path api_key secret_key),
           set_ticks (S (ticks w0)) w0))
    /\ exists reqs : list Request,
         sent (snd (main netloc_valid default_headers w)) = (sent w ++ reqs)%list
         /\ ticks (snd (main netloc_valid default_headers w))
            = (ticks w + List.length reqs)%nat
         /\ (forall i r, nth_error reqs i = Some r ->
               ci_get "x-nonce" (req_headers r)
               = Some (str_of_int (ms (ticks w + i)%nat)))
         /\ ((forall a b, (a <= b)%nat -> (clock w a <= clock w b)%Q) ->
             forall i j, (i <= j)%nat ->
               ms (ticks w + i)%nat <= ms (ticks w + j)%nat)
         /\ ((forall i j, (i < j < List.length reqs)%nat ->
                ms (ticks w + i)%nat < ms (ticks w + j)%nat) ->
             NoDup (map (fun r => ci_get "x-nonce" (req_headers r)) reqs)).
Proof.
  intros netloc_valid default_headers w ms. split; [reflexivity|].
  destruct (main_stamped netloc_valid default_headers w)
    as (_ & _ & reqs & Hs & Hk & Hn).
  exists reqs. split; [exact Hs|]. split; [exact Hk|]. split; [exact Hn|].
  split.
  - intros Hmono i j Hij. apply NonceFacts.reading_nonce_mono, Hmono. lia.
  - intros Hstrict. apply (proj2 (NoDup_nth_error _)).
    intros i j Hi E. rewrite length_map in Hi.
    rewrite !nth_error_map in E.
    destruct (nth_error reqs i) as [ri|] eqn:Eri;
      [|apply nth_error_None in Eri; lia].
    destruct (nth_error reqs j) as [rj|] eqn:Erj; [|discriminate].
    assert (Hj : (j < List.length reqs)%nat)
      by (apply nth_error_Some; rewrite Erj; discriminate).
    cbn in E. rewrite (Hn _ _ Eri), (Hn _ _ Erj) in E.
    injection E as E. apply NonceFacts.str_of_int_inj in E.
    fold (ms (ticks w + i)%nat) in E. fold (ms (ticks w + j)%nat) in E.
    destruct (Nat.lt_trichotomy i j) as [Hlt|[Heq|Hgt]]; [|exact Heq|].
    + pose proof (Hstrict i j ltac:(lia)). lia.
    + pose proof (Hstrict j i ltac:(lia)). lia.
Qed.

(** C8 as the specification states it fails. *)
Lemma main_repeats_nonce_within_a_millisecond :
  let run := main (fun _ => true) (sess_headers Samples.session) fast_world in
  (forall a b, (a < b)%nat -> (clock fast_world a < clock fast_world b)%Q)
  /\ fst run = Ok tt
  /\ map (fun r => (req_method r, req_url r, ci_get "x-nonce" (req_headers r)))
         (sent (snd run))
     = [ ("POST", "https://api-staging.checker.finance/api/v1/request-for-quotes",
          Some "1700000000000");
         ("GET", "https://x.test/rfq/1/quotes", Some "1700000000000");
         ("POST", "https://x.test/rfq/1/execute", Some "1700000000000") ]%string.
Proof.
  cbv zeta. split.
  - intros a b Hab. cbn [clock fast_world]. unfold Qlt, Qplus.
    cbn [Qnum Qden Pos.mul]. lia.
  - vm_compute. split; reflexivity.
Qed.

(** The end-to-end scenario of the specification: the create response
    names an [http://] URL, the first poll finds no quote, the second finds
    [q1], which is then executed. *)
Example end_to_end_scenario :
  let replies (k : nat) :=
    match k with
    | 0%nat => Some (mkReply 201 [] "{...}"
                 (Some (JDict [("rfqUrl", JStr "http://x.test/rfq/1")])))
    | 1%nat => Some (mkReply 200 [] "[]" (Some (JList [])))
    | 2%nat => Some (mkReply 200 [] "[{...}]"
                 (Some (JList [JDict [("quoteId", JStr "q1")]])))
    | _ => Some (mkReply 200 [] "done" None)
    end%string in
  let run := main (fun _ => true) (sess_headers Samples.session)
                  (Samples.world replies) in
  fst run = Ok tt
  /\ map (fun r => (req_method r, req_url r, req_body r,
                    ci_get "x-nonce" (req_headers r)))
         (sent (snd run))
     = [ ("POST", "https://api-staging.checker.finance/api/v1/request-for-quotes",
          Some rfq_payload, Some "1700000000000");
         ("GET", "https://x.test/rfq/1/quotes", None, Some "1700000000250");
         ("GET", "https://x.test/rfq/1/quotes", None, Some "1700000000500");
         ("POST", "https://x.test/rfq/1/execute",
          Some (JDict [("winningQuoteId", JStr "q1")]), Some "1700000000750") ]%string
  /\ slept (snd run) = [1 # 1]%Q.
Proof. vm_compute. repeat split. Qed.

(** ** Path derivation *)

Module SliceFacts.
Open Scope string_scope.

Lemma take_app_le (n : nat) (a b : string) :
  (n <= String.length a)%nat -> take n (a ++ b) = take n a.
Proof.
  revert a. induction n as [|n IH]; intros a H.
  - destruct a, b; reflexivity.
  - destruct a as [|x a]; [cbn in H; lia|].
    cbn in *. rewrite IH by lia. reflexivity.
Qed.

Lemma drop_app_le (n : nat) (a b : string) :
  (n <= String.length a)%nat -> drop n (a ++ b) = drop n a ++ b.
Proof.
  revert a. induction n as [|n IH]; intros a H.
  - destruct a, b; reflexivity.
  - destruct a as [|x a]; [cbn in H; lia|].
    cbn in *. apply IH. lia.
Qed.

Lemma take_drop (n : nat) (s : string) : take n s ++ drop n s = s.
Proof.
  revert s. induction n as [|n IH]; intros s.
  - destruct s; reflexivity.
  - destruct s as [|x s]; [reflexivity|]. cbn. now rewrite IH.
Qed.

Lemma drop_length (n : nat) (s : string) :
  String.length (drop n s) = (String.length s - n)%nat.
Proof.
  revert s. induction n as [|n IH]; intros s.
  - destruct s; cbn; lia.
  - destruct s as [|x s]; [reflexivity|]. cbn. apply IH.
Qed.

Lemma drop_all (a b : string) : drop (String.length a) (a ++ b) = b.
Proof. induction a as [|x a IH]; cbn; [now destruct b | exact IH]. Qed.

Lemma find_lt (c : ascii) (s : string) (i : nat) :
  find c s = Some i -> (i < String.length s)%nat.
Proof.
  revert i. induction s as [|x s IH]; intros i; cbn; [discriminate|].
  destruct (Ascii.eqb x c).
  - intros [= <-]. lia.
  - destruct (find c s) as [j|]; cbn; [|discriminate].
    intros [= <-]. specialize (IH j eq_refl). lia.
Qed.

Lemma find_app (c : ascii) (a b : string) :
  find c (a ++ b)
  = match find c a with
    | Some i => Some i
    | None => option_map (Nat.add (String.length a)) (find c b)
    end.
Proof.
  induction a as [|x a IH]; cbn.
  - destruct (find c b); reflexivity.
  - destruct (Ascii.eqb x c); [reflexivity|].
    rewrite IH. destruct (find c a); cbn; [reflexivity|].
    destruct (find c b); reflexivity.
Qed.

Lemma contains_app (c : ascii) (a b : string) :
  contains c (a ++ b) = contains c a || contains c b.
Proof.
  unfold contains. rewrite find_app.
  destruct (find c a); [reflexivity|]. destruct (find c b); reflexivity.
Qed.

Lemma rfind_app_last (c : ascii) (a : string) :
  rfind c (a ++ String c "") = Some (String.length a).
Proof.
  induction a as [|x a IH]; cbn.
  - now rewrite Ascii.eqb_refl.
  - now rewrite IH.
Qed.

Lemma rfind_lt (c : ascii) (s : string) (i : nat) :
  rfind c s = Some i -> (i < String.length s)%nat.
Proof.
  revert i. induction s as [|x s IH]; intros i; cbn; [discriminate|].
  destruct (rfind c s) as [j|].
  - intros [= <-]. specialize (IH j eq_refl). lia.
  - destruct (Ascii.eqb x c); [|discriminate]. intros [= <-]. lia.
Qed.

Lemma rstrip_app_last (c : ascii) (a : string) :
  rstrip c (a ++ String c "") = rstrip c a.
Proof.
  induction a as [|x a IH]; cbn.
  - now rewrite Ascii.eqb_refl.
  - now rewrite IH.
Qed.

Lemma lstrip_app_keep (p : ascii -> bool) (a : string) (c : ascii) :
  p c = false -> lstrip p (a ++ String c "") = lstrip p a ++ String c "".
Proof.
  intros Hc. induction a as [|x a IH]; cbn.
  - now rewrite Hc.
  - destruct (p x); [exact IH | reflexivity].
Qed.

Lemma remove_app (p : ascii -> bool) (a b : string) :
  remove p (a ++ b) = remove p a ++ remove p b.
Proof.
  induction a as [|x a IH]; cbn; [reflexivity|].
  destruct (p x); [exact IH | now rewrite IH].
Qed.

Lemma str_forallb_take (p : ascii -> bool) (n : nat) (a b : string) :
  (n <= String.length a)%nat ->
  str_forallb p (take n (a ++ b)) = str_forallb p (take n a).
Proof. intros H. now rewrite take_app_le. Qed.

End SliceFacts.

Module UrlFacts.
Import SliceFacts.
Open Scope string_scope.

Lemma suffix_refl (v : string) : suffix_of v v.
Proof. now exists "". Qed.

Lemma suffix_drop (n : nat) (v : string) : suffix_of (drop n v) v.
Proof. exists (take n v). now rewrite take_drop. Qed.

Lemma suffix_trans (a b c : string) : suffix_of a b -> suffix_of b c -> suffix_of a c.
Proof.
  intros [p ->] [q ->]. exists (q ++ p). now rewrite StrFacts.append_assoc.
Qed.

Lemma sanitized_slash (u : string) : sanitized (u ++ "/") = sanitized u ++ "/".
Proof.
  unfold sanitized. rewrite lstrip_app_keep by reflexivity.
  now rewrite remove_app.
Qed.

Lemma split_scheme_slash (v : string) :
  split_scheme (v ++ "/")
  = (fst (split_scheme v), snd (split_scheme v) ++ "/").
Proof.
  unfold split_scheme. rewrite find_app.
  destruct (find ":" v) as [[|i]|] eqn:E; cbn [option_map find Ascii.eqb].
  - reflexivity.
  - apply find_lt in E. destruct v as [|c0 v]; [cbn in E; lia|].
    rewrite (take_app_le (S i) (String c0 v) "/") by lia.
    rewrite (drop_app_le (S (S i)) (String c0 v) "/") by lia.
    cbn [append].
    destruct ((is_lower c0 || is_upper c0)
              && str_forallb scheme_char (take (S i) (String c0 v))); reflexivity.
  - reflexivity.
Qed.

Lemma split_scheme_suffix (v : string) : suffix_of (snd (split_scheme v)) v.
Proof.
  unfold split_scheme.
  destruct (find ":" v) as [[|i]|]; try apply suffix_refl.
  destruct v as [|c0 v]; [apply suffix_refl|].
  destruct ((is_lower c0 || is_upper c0)
            && str_forallb scheme_char (take (S i) (String c0 v)));
    [apply suffix_drop | apply suffix_refl].
Qed.

Lemma splitnetloc_slashes (t : string) :
  splitnetloc ("//" ++ t) = (take (netloc_end t) t, drop (netloc_end t) t).
Proof.
  unfold splitnetloc, netloc_end, find_from. cbn [fold_left drop append String.length].
  assert (E : forall c d,
             match option_map (Nat.add 2) (find c t) with
             | Some w => Nat.min (S (S d)) w
             | None => S (S d)
             end
             = S (S (match find c t with Some i => Nat.min d i | None => d end))).
  { intros c d. destruct (find c t); reflexivity. }
  rewrite !E. cbn [Nat.sub drop]. now rewrite Nat.sub_0_r.
Qed.

Lemma netloc_end_le (t : string) : (netloc_end t <= String.length t)%nat.
Proof.
  unfold netloc_end.
  destruct (find "/" t), (find "?" t), (find "#" t); lia.
Qed.

Lemma netloc_end_slash (t : string) : netloc_end (t ++ "/") = netloc_end t.
Proof.
  unfold netloc_end. rewrite !find_app, StrFacts.length_append.
  change (find "/" "/") with (Some 0%nat).
  change (find "?" "/") with (@None nat).
  change (find "#" "/") with (@None nat).
  cbn [option_map String.length].
  destruct (find "/" t) as [a|] eqn:Ea; [apply find_lt in Ea|];
    (destruct (find "?" t) as [b|] eqn:Eb; [apply find_lt in Eb|]);
    (destruct (find "#" t) as [c|] eqn:Ec; [apply find_lt in Ec|]);
    lia.
Qed.

Lemma net_step_slash (url : string) :
  (net_step (url ++ "/") = (fst (net_step url), snd (net_step url) ++ "/"))
  \/ (url = "/" /\ net_step url = ("", "/") /\ net_step (url ++ "/") = ("", "")).
Proof.
  unfold net_step.
  destruct url as [|a [|b t]].
  - left. reflexivity.
  - destruct (Ascii.eqb_spec a "/") as [->|Ha].
    + right. repeat split.
    + left. unfold startswith. cbn [append String.prefix].
      destruct (ascii_dec "/" a) as [E|_]; [now subst a|]. reflexivity.
  - left. unfold startswith. cbn [append String.prefix].
    destruct (ascii_dec "/" a) as [<-|_]; [|reflexivity].
    destruct (ascii_dec "/" b) as [<-|_]; [|reflexivity].
    assert (Hp : forall s, String.prefix "" s = true) by (intros []; reflexivity).
    rewrite !Hp.
    change (String "/" (String "/" (t ++ "/"))) with ("//" ++ (t ++ "/")).
    change (String "/" (String "/" t)) with ("//" ++ t).
    rewrite !splitnetloc_slashes, netloc_end_slash. cbn [fst snd].
    rewrite take_app_le, drop_app_le by apply netloc_end_le. reflexivity.
Qed.

Lemma net_step_suffix (url : string) : suffix_of (snd (net_step url)) url.
Proof.
  unfold net_step. destruct (startswith url "//") eqn:E; [|apply suffix_refl].
  unfold startswith in E.
  destruct url as [|a [|b t]]; cbn [String.prefix] in E; try discriminate.
  - destruct (ascii_dec "/" a); discriminate.
  - destruct (ascii_dec "/" a) as [<-|]; [|discriminate].
    destruct (ascii_dec "/" b) as [<-|]; [|discriminate].
    change (String "/" (String "/" t)) with ("//" ++ t).
    rewrite splitnetloc_slashes. cbn [snd].
    apply (suffix_trans _ t); [apply suffix_drop | now exists "//"].
Qed.

Lemma split_at_slash (c : ascii) (r : string) :
  Ascii.eqb "/" c = false ->
  split_at c (r ++ "/")
  = match find c r with
    | Some i => (fst (split_at c r), snd (split_at c r) ++ "/")
    | None => (r ++ "/", "")
    end.
Proof.
  intros Hc. unfold split_at. rewrite find_app. cbn [find]. rewrite Hc.
  destruct (find c r) as [i|] eqn:E; [|reflexivity].
  apply find_lt in E. cbn [fst snd].
  rewrite take_app_le, drop_app_le by lia. reflexivity.
Qed.

End UrlFacts.

Module SlashFacts.
Import SliceFacts UrlFacts.
Open Scope string_scope.

Lemma urlsplit_steps (nv : string -> bool) (u : string) :
  urlsplit nv u
  = let '(sch, url1) := split_scheme (sanitized u) in
    let '(nl, url2) := net_step url1 in
    let '(url3, frag) := split_at "#" url2 in
    let '(url4, qry) := split_at "?" url3 in
    if netloc_ok nv nl then Some (mkParseResult sch nl url4 "" qry frag)
    else None.
Proof. reflexivity. Qed.

(** What a slash appended to the URL does to the split: scheme and
    network location stay; the slash ends up in the fragment or the
    query, leaving the path as it was, or at the end of the path, or it
    turns a path ["/"] after an omitted network location into an empty
    network location. *)
Lemma urlsplit_slash (nv : string -> bool) (u : string) (rs : ParseResult) :
  urlsplit nv u = Some rs ->
  exists rs',
    urlsplit nv (u ++ "/") = Some rs'
    /\ scheme rs' = scheme rs
    /\ netloc rs' = netloc rs
    /\ (path rs' = path rs
        \/ (path rs' = path rs ++ "/" /\ suffix_of (path rs) (sanitized u))
        \/ (path rs = "/" /\ path rs' = "")).
Proof.
  rewrite !urlsplit_steps, sanitized_slash, split_scheme_slash.
  pose proof (split_scheme_suffix (sanitized u)) as Hs1.
  destruct (split_scheme (sanitized u)) as [sch url1]. cbn [fst snd] in *.
  destruct (net_step_slash url1) as [E | (-> & E1 & E2)].
  - rewrite E. pose proof (net_step_suffix url1) as Hs2.
    destruct (net_step url1) as [nl url2]. cbn [fst snd] in *.
    rewrite (split_at_slash "#") by reflexivity.
    destruct (find "#" url2) as [i|] eqn:F.
    + destruct (split_at "#" url2) as [url3 frag]. cbn [fst snd].
      destruct (split_at "?" url3) as [url4 qry].
      destruct (netloc_ok nv nl); [|discriminate].
      intros [= <-]. eexists. split; [reflexivity|]. cbn.
      split; [reflexivity|]. split; [reflexivity|]. left. reflexivity.
    + assert (E3 : split_at "#" url2 = (url2, ""))
        by (unfold split_at; now rewrite F).
      rewrite E3.
      rewrite (split_at_slash "?") by reflexivity.
      destruct (find "?" url2) as [j|] eqn:G.
      * destruct (split_at "?" url2) as [url4 qry]. cbn [fst snd].
        destruct (netloc_ok nv nl); [|discriminate].
        intros [= <-]. eexists. split; [reflexivity|]. cbn.
        split; [reflexivity|]. split; [reflexivity|]. left. reflexivity.
      * assert (E4 : split_at "?" url2 = (url2, ""))
          by (unfold split_at; now rewrite G).
        rewrite E4.
        destruct (netloc_ok nv nl); [|discriminate].
        intros [= <-]. eexists. split; [reflexivity|]. cbn.
        split; [reflexivity|]. split; [reflexivity|]. right. left.
        split; [reflexivity|].
        exact (suffix_trans _ _ _ Hs2 Hs1).
  - rewrite E1, E2. cbn.
    intros [= <-]. eexists. split; [reflexivity|]. cbn.
    split; [reflexivity|]. split; [reflexivity|]. right. right. split; reflexivity.
Qed.


Lemma urlsplit_slash_none (nv : string -> bool) (u : string) :
  urlsplit nv u = None -> urlsplit nv (u ++ "/") = None.
Proof.
  rewrite !urlsplit_steps, sanitized_slash, split_scheme_slash.
  destruct (split_scheme (sanitized u)) as [sch url1]. cbn [fst snd].
  destruct (net_step_slash url1) as [E | (-> & E1 & E2)].
  - rewrite E. destruct (net_step url1) as [nl url2]. cbn [fst snd].
    destruct (split_at "#" (url2 ++ "/")) as [a b], (split_at "#" url2) as [c d].
    destruct (split_at "?" a), (split_at "?" c).
    destruct (netloc_ok nv nl); [discriminate | reflexivity].
  - rewrite E1, E2. cbn. discriminate.
Qed.

Lemma urlparse_path (nv : string -> bool) (u : string) :
  option_map path (urlparse nv u) = option_map final_path (urlsplit nv u).
Proof.
  unfold urlparse. destruct (urlsplit nv u) as [rs|]; [|reflexivity].
  cbn [option_map]. unfold final_path.
  destruct (existsb (String.eqb (scheme rs)) uses_params && contains ";" (path rs));
    [|reflexivity].
  destruct (splitparams (path rs)); reflexivity.
Qed.

Lemma splitparams_slash (p : string) : splitparams (p ++ "/") = (p ++ "/", "").
Proof.
  unfold splitparams, find_from.
  rewrite contains_app, orb_true_r, rfind_app_last, drop_all. reflexivity.
Qed.

Lemma final_path_slash (rs' : ParseResult) (p : string) :
  path rs' = p ++ "/" -> final_path rs' = p ++ "/".
Proof.
  intros H. unfold final_path. rewrite H, splitparams_slash.
  destruct (_ && _); reflexivity.
Qed.

Lemma final_path_plain (rs : ParseResult) :
  contains ";" (path rs) = false -> final_path rs = path rs.
Proof. intros H. unfold final_path. now rewrite H, andb_false_r. Qed.

(** The path derived from a URL with one more slash at its end. *)
Lemma derived_slash (nv : string -> bool) (u : string) (rs : ParseResult) :
  urlsplit nv u = Some rs ->
  exists rs',
    urlsplit nv (u ++ "/") = Some rs'
    /\ (rstrip "/" (final_path rs') = rstrip "/" (final_path rs)
        \/ (rstrip "/" (final_path rs') = rstrip "/" (path rs)
            /\ suffix_of (path rs) (sanitized u))).
Proof.
  intros H. destruct (urlsplit_slash nv u rs H) as (rs' & H' & Hs & _ & Hp).
  exists rs'. split; [exact H'|].
  destruct Hp as [Hp | [[Hp Hsuf] | [Hp1 Hp2]]].
  - left. unfold final_path. now rewrite Hs, Hp.
  - right. split; [|exact Hsuf].
    rewrite (final_path_slash rs' (path rs) Hp). apply rstrip_app_last.
  - left. rewrite (final_path_plain rs'), (final_path_plain rs);
      rewrite ?Hp1, ?Hp2; reflexivity.
Qed.

Lemma rfind_app_found (c : ascii) (a b : string) (i : nat) :
  rfind c b = Some i -> rfind c (a ++ b) = Some (String.length a + i)%nat.
Proof.
  intros H. induction a as [|x a IH]; cbn; [exact H|]. now rewrite IH.
Qed.

Lemma drop_app_ge (a b : string) (k : nat) :
  drop (String.length a + k) (a ++ b) = drop k b.
Proof. induction a as [|x a IH]; cbn; [now destruct k, b | exact IH]. Qed.

(** Nothing is cut off a path whose last segment is [123]. *)
Lemma final_path_rfq_123 (rs : ParseResult) :
  suffix_of "/rfq/123" (path rs) -> final_path rs = path rs.
Proof.
  intros [z Hz]. unfold final_path, splitparams, find_from. rewrite Hz.
  assert (Hc : contains "/" (z ++ "/rfq/123") = true).
  { rewrite contains_app. change (contains "/" "/rfq/123") with true.
    apply orb_true_r. }
  rewrite Hc, (rfind_app_found "/" z "/rfq/123" 4) by reflexivity.
  rewrite drop_app_ge.
  change (find ";" (drop 4 "/rfq/123")) with (@None nat).
  cbn [option_map fst].
  destruct (_ && _); reflexivity.
Qed.

Lemma suffix_cases (pre s P t : string) :
  pre ++ s = P ++ t -> suffix_of t s \/ suffix_of s t.
Proof.
  revert P. induction pre as [|a pre IH]; intros P H.
  - left. exists P. exact H.
  - destruct P as [|b P].
    + right. exists (String a pre). symmetry. exact H.
    + cbn in H. injection H as _ H. exact (IH P H).
Qed.

Lemma lstrip_app_tail (p : ascii -> bool) (a : string) (c : ascii) (b : string) :
  p c = false -> lstrip p (a ++ String c b) = lstrip p a ++ String c b.
Proof.
  intros Hc. induction a as [|x a IH]; cbn.
  - now rewrite Hc.
  - destruct (p x); [exact IH | reflexivity].
Qed.

Lemma contains_suffix (c : ascii) (a b : string) :
  suffix_of a b -> contains c b = false -> contains c a = false.
Proof.
  intros [pre ->]. rewrite contains_app. now intros [_ H]%orb_false_elim.
Qed.

Lemma contains_take (c : ascii) (n : nat) (s : string) :
  contains c s = false -> contains c (take n s) = false.
Proof.
  rewrite <- (take_drop n s) at 1. rewrite contains_app.
  now intros [H _]%orb_false_elim.
Qed.

Lemma contains_remove (c : ascii) (p : ascii -> bool) (s : string) :
  contains c s = false -> contains c (remove p s) = false.
Proof.
  unfold contains. induction s as [|x s IH]; cbn; [reflexivity|].
  destruct (Ascii.eqb x c) eqn:E; [discriminate|].
  intros H. destruct (find c s); [discriminate|].
  specialize (IH eq_refl).
  destruct (p x); [exact IH|]. cbn. rewrite E.
  destruct (find c (remove p s)); [discriminate | reflexivity].
Qed.

Lemma contains_lstrip (c : ascii) (p : ascii -> bool) (s : string) :
  contains c s = false -> contains c (lstrip p s) = false.
Proof.
  induction s as [|x s IH]; cbn; [reflexivity|].
  intros H. destruct (p x); [|exact H]. apply IH.
  unfold contains in *. cbn in H.
  destruct (Ascii.eqb x c); [discriminate|].
  destruct (find c s); [discriminate | reflexivity].
Qed.

(** The path is made of characters of the URL. *)
Lemma path_chars (nv : string -> bool) (u : string) (rs : ParseResult) (c : ascii) :
  urlsplit nv u = Some rs -> contains c u = false -> contains c (path rs) = false.
Proof.
  rewrite urlsplit_steps. intros H Hu.
  assert (Hv : contains c (sanitized u) = false)
    by (apply contains_remove, contains_lstrip, Hu).
  pose proof (split_scheme_suffix (sanitized u)) as Hs1.
  destruct (split_scheme (sanitized u)) as [sch url1]. cbn [snd] in Hs1.
  pose proof (net_step_suffix url1) as Hs2.
  destruct (net_step url1) as [nl url2]. cbn [snd] in Hs2.
  assert (H2 : contains c url2 = false).
  { apply (contains_suffix c url2 (sanitized u)); [|exact Hv].
    exact (suffix_trans _ _ _ Hs2 Hs1). }
  assert (H3 : contains c (fst (split_at "#" url2)) = false).
  { unfold split_at. destruct (find "#" url2); [apply contains_take|]; exact H2. }
  destruct (split_at "#" url2) as [url3 frag]. cbn [fst] in H3.
  assert (H4 : contains c (fst (split_at "?" url3)) = false).
  { unfold split_at. destruct (find "?" url3); [apply contains_take|]; exact H3. }
  destruct (split_at "?" url3) as [url4 qry]. cbn [fst] in H4.
  destruct (netloc_ok nv nl); [|discriminate].
  injection H as <-. exact H4.
Qed.

End SlashFacts.

Module DerivedFacts.
Import SliceFacts UrlFacts SlashFacts.
Open Scope string_scope.

Lemma derived_path_split (nv : string -> bool) (u sfx : string) :
  derived_path nv u sfx
  = option_map (fun rs => rstrip "/" (final_path rs) ++ sfx) (urlsplit nv u).
Proof.
  unfold derived_path. pose proof (urlparse_path nv u) as H.
  destruct (urlparse nv u) as [r|], (urlsplit nv u) as [rs|];
    cbn in *; congruence.
Qed.

(** A slash appended to the URL leaves the derived path alone as soon as
    cutting the parameters off the path of the URL changes nothing but
    trailing slashes. *)
Lemma derived_path_slash (nv : string -> bool) (u sfx : string) :
  (forall rs, urlsplit nv u = Some rs ->
     suffix_of (path rs) (sanitized u) ->
     rstrip "/" (final_path rs) = rstrip "/" (path rs)) ->
  derived_path nv (u ++ "/") sfx = derived_path nv u sfx.
Proof.
  intros Hkeep. rewrite !derived_path_split.
  destruct (urlsplit nv u) as [rs|] eqn:E.
  - destruct (derived_slash nv u rs E) as (rs' & E' & [H | [H Hsuf]]);
      rewrite E'; cbn [option_map]; rewrite H; [reflexivity|].
    now rewrite (Hkeep rs eq_refl Hsuf).
  - now rewrite (urlsplit_slash_none nv u E).
Qed.

Lemma sanitized_rfq_123 (prefix : string) :
  suffix_of "/rfq/123" (sanitized (prefix ++ "/rfq/123")).
Proof.
  unfold sanitized. rewrite lstrip_app_tail by reflexivity.
  rewrite remove_app. eexists. reflexivity.
Qed.

End DerivedFacts.

Lemma signed_is_signed_over (session : Session)
      (method url path api_key secret_key : string) (body : option json)
      (nonce : string) :
  signed_over path api_key secret_key
    (signed session method url path api_key secret_key body nonce).
Proof.
  exists nonce. unfold signed. cbn [req_headers].
  pose proof (merged_auth_headers (sess_headers session) nonce path
                                  api_key secret_key) as H.
  cbv zeta in H. tauto.
Qed.

(** C3, as the code has it.  For a parseable RFQ URL, every request of
    [poll_quotes] is a GET, and the request of [execute_quote] a POST, to
    scheme, network location and derived path, signed over the derived
    path: the path component without trailing slashes followed by
    [/quotes], respectively [/execute].  A slash appended to the RFQ URL
    does not change the derived path when [urlparse] cuts no parameters
    off the path, in particular when the URL holds no semicolon, and for
    every URL ending in [/rfq/123]. *)
Theorem derived_path_is_signed_and_slash_invariant :
  forall (netloc_valid : string -> bool) (session : Session)
         (api_key secret_key : string),
    (forall (rfq_url : string) (max_attempts : Z) (delay_seconds : Q)
            (w : World) (parsed : ParseResult) (derived : string),
        urlparse netloc_valid rfq_url = Some parsed ->
        derived = (rstrip "/" (path parsed) ++ "/quotes")%string ->
        derived_path netloc_valid rfq_url "/quotes" = Some derived
        /\ exists reqs,
             sent (snd (poll_quotes netloc_valid session rfq_url api_key
                                    secret_key max_attempts delay_seconds w))
             = (sent w ++ reqs)%list
             /\ Forall (fun r =>
                          req_method r = "GET"%string
                          /\ req_url r
                             = (scheme parsed ++ "://" ++ netloc parsed
                                ++ derived)%string
                          /\ signed_over derived api_key secret_key r) reqs)
    /\ (forall (rfq_url : string) (quote_id : json) (w : World)
               (parsed : ParseResult) (derived : string),
          urlparse netloc_valid rfq_url = Some parsed ->
          derived = (rstrip "/" (path parsed) ++ "/execute")%string ->
          derived_path netloc_valid rfq_url "/execute" = Some derived
          /\ exists r,
               sent (snd (execute_quote netloc_valid session rfq_url quote_id
                                        api_key secret_key w))
               = (sent w ++ [r])%list
               /\ req_method r = "POST"%string
               /\ req_url r
                  = (scheme parsed ++ "://" ++ netloc parsed ++ derived)%string
               /\ signed_over derived api_key secret_key r)
    /\ (forall rfq_url suffix : string,
          option_map path (urlparse netloc_valid rfq_url)
          = option_map path (urlsplit netloc_valid rfq_url) ->
          derived_path netloc_valid (rfq_url ++ "/") suffix
          = derived_path netloc_valid rfq_url suffix)
    /\ (forall rfq_url suffix : string,
          contains ";" rfq_url = false ->
          derived_path netloc_valid (rfq_url ++ "/") suffix
          = derived_path netloc_valid rfq_url suffix)
    /\ (forall prefix suffix : string,
          derived_path netloc_valid (prefix ++ "/rfq/123/") suffix
          = derived_path netloc_valid (prefix ++ "/rfq/123") suffix).
Proof.
  intros nv session api_key secret_key.
  split; [|split; [|split; [|split]]].
  - intros rfq_url max_attempts delay_seconds w parsed derived Hparse ->.
    split; [unfold derived_path; now rewrite Hparse|].
    rewrite poll_quotes_run, Hparse. cbv zeta.
    match goal with
    | |- context [poll_loop ?s ?u ?p ?a ?k ?m ?d ?l w] =>
        destruct (poll_loop_calls s u p a k m d l w) as (n & _ & Hs & _)
    end.
    eexists. split; [exact Hs|].
    apply Forall_forall. intros r Hr. apply in_map_iff in Hr.
    destruct Hr as (i & <- & _).
    split; [reflexivity|]. split; [reflexivity|].
    apply signed_is_signed_over.
  - intros rfq_url quote_id w parsed derived Hparse ->.
    split; [unfold derived_path; now rewrite Hparse|].
    rewrite execute_quote_run, Hparse. cbv zeta.
    eexists (signed session "POST" _ _ api_key secret_key _ (next_nonce w)).
    split.
    + destruct (transport w _ _) as [rep|];
        [destruct (error_status (reply_status rep))|]; reflexivity.
    + split; [reflexivity|]. split; [reflexivity|].
      apply signed_is_signed_over.
  - intros rfq_url suffix Hkeep. apply DerivedFacts.derived_path_slash.
    intros rs Hrs _. rewrite SlashFacts.urlparse_path, Hrs in Hkeep.
    cbn in Hkeep. now injection Hkeep as ->.
  - intros rfq_url suffix Hsemi. apply DerivedFacts.derived_path_slash.
    intros rs Hrs _. rewrite SlashFacts.final_path_plain; [reflexivity|].
    exact (SlashFacts.path_chars nv rfq_url rs ";" Hrs Hsemi).
  - intros prefix suffix.
    replace (prefix ++ "/rfq/123/")%string
      with ((prefix ++ "/rfq/123") ++ "/")%string
      by (now rewrite StrFacts.append_assoc).
    apply DerivedFacts.derived_path_slash.
    intros rs Hrs [pre Hpre].
    destruct (DerivedFacts.sanitized_rfq_123 prefix) as [P HP].
    rewrite HP in Hpre. symmetry in Hpre.
    destruct (SlashFacts.suffix_cases _ _ _ _ Hpre) as [Hlong | Hshort].
    + now rewrite SlashFacts.final_path_rfq_123.
    + rewrite SlashFacts.final_path_plain; [reflexivity|].
      now apply (SlashFacts.contains_suffix ";" (path rs) "/rfq/123").
Qed.

(** C3 as the specification states it fails: [urlparse] cuts [;a] off the
    last segment of the path, but not once a slash follows it; the two
    URLs are polled and executed at different paths. *)
Lemma trailing_slash_after_params_changes_path :
  let nv := fun _ : string => true in
  let replies := Samples.always (mkReply 200 [] "[{...}]"
                   (Some (JList [JDict [("quoteId"%string, JStr "q1")]]))) in
  let polled u :=
    map req_url
        (sent (snd (poll_quotes nv Samples.session u "key" "secret" 3 (1 # 1)
                                (Samples.world replies)))) in
  let executed u :=
    map req_url
        (sent (snd (execute_quote nv Samples.session u (JStr "q1") "key" "secret"
                                  (Samples.world replies)))) in
  derived_path nv "https://x.test/rfq/1;a" "/quotes" = Some "/rfq/1/quotes"%string
  /\ derived_path nv "https://x.test/rfq/1;a/" "/quotes"
     = Some "/rfq/1;a/quotes"%string
  /\ polled "https://x.test/rfq/1;a"%string = ["https://x.test/rfq/1/quotes"%string]
  /\ polled "https://x.test/rfq/1;a/"%string = ["https://x.test/rfq/1;a/quotes"%string]
  /\ executed "https://x.test/rfq/1;a"%string = ["https://x.test/rfq/1/execute"%string]
  /\ executed "https://x.test/rfq/1;a/"%string
     = ["https://x.test/rfq/1;a/execute"%string].
Proof. vm_compute. repeat split. Qed.

Example derived_path_rfq_123 :
  derived_path (fun _ => true) "https://x.test/rfq/123" "/quotes"
    = Some "/rfq/123/quotes"%string
  /\ derived_path (fun _ => true) "https://x.test/rfq/123/" "/quotes"
    = Some "/rfq/123/quotes"%string
  /\ derived_path (fun _ => true) "https://x.test/rfq/123//" "/execute"
    = Some "/rfq/123/execute"%string.
Proof. repeat split. Qed.

Lemma derived_path_is_signed_and_slash_invariant_witness :
  derived_path (fun _ => true) "https://x.test/rfq/123/" "/quotes"
  = derived_path (fun _ => true) "https://x.test/rfq/123" "/quotes".
Proof.
  exact (proj2 (proj2 (proj2 (proj2
           (derived_path_is_signed_and_slash_invariant
              (fun _ => true) Samples.session "key" "secret"))))
           "https://x.test"%string "/quotes"%string).
Defined.

(** ** Further properties *)

Lemma nonces_follow_the_clock_witness :
  NoDup (map (fun r => ci_get "x-nonce" (req_headers r))
             (sent (snd (main (fun _ => true) (sess_headers Samples.session)
                              (Samples.world Scenarios.full_run))))).
Proof.
  destruct (proj2 (nonces_follow_the_clock (fun _ => true)
                     (sess_headers Samples.session)
                     (Samples.world Scenarios.full_run)))
    as (reqs & Hs & Hk & _ & _ & Hnodup).
  assert (Hl : List.length reqs = 4%nat).
  { apply (f_equal (@List.length Request)) in Hs. vm_compute in Hs.
    now symmetry. }
  change (sent (Samples.world Scenarios.full_run) ++ reqs)%list with reqs in Hs.
  rewrite Hs. apply Hnodup. rewrite Hl.
  intros [|[|[|[|i]]]] [|[|[|[|j]]]] Hij; try lia; vm_compute; reflexivity.
Defined.

(** [make_auth_headers] returns exactly the five headers every call
    must carry: the API key, the nonce made of the clock reading in
    milliseconds, the signature of the path under that nonce, and the two
    JSON content headers. *)
Theorem make_auth_headers_header_set :
  forall (path api_key secret_key : string) (w : World),
    let nonce := str_of_int (nonce_ms (PyFloat.round_float (clock w (ticks w)))) in
    fst (make_auth_headers path api_key secret_key w)
    = Ok [ ("x-api-key", api_key);
           ("x-nonce", nonce);
           ("x-signature", create_signature nonce path api_key secret_key);
           ("Content-Type", "application/json");
           ("Accept", "application/json") ].
Proof. reflexivity. Qed.

(** X4.  Without both credentials in the environment (absent or empty),
    [main] exits at once: no clock reading, no request, nothing printed. *)
Theorem main_requires_credentials :
  forall (netloc_valid : string -> bool) (default_headers : headers) (w : World),
    assoc "CHECKER_API_KEY" (environ w) = None
    \/ assoc "CHECKER_API_KEY" (environ w) = Some ""
    \/ assoc "CHECKER_SECRET_KEY" (environ w) = None
    \/ assoc "CHECKER_SECRET_KEY" (environ w) = Some "" ->
    main netloc_valid default_headers w
    = (Raise (SystemExit
         "Please set CHECKER_API_KEY and CHECKER_SECRET_KEY environment variables."),
       w).
Proof.
  intros nv dh w H.
  unfold main, bind, environ_get.
  destruct H as [E | [E | [E | E]]]; rewrite E;
    try reflexivity;
    destruct (assoc "CHECKER_API_KEY" (environ w)) as [[|c s]|]; reflexivity.
Qed.

Lemma main_requires_credentials_witness :
  main (fun _ => true) []
       (mkWorld (fun _ => 0%Q) (fun _ _ => None) (fun _ req => req)
                [("CHECKER_API_KEY", "key")] 0 [] [] [])
  = (Raise (SystemExit
       "Please set CHECKER_API_KEY and CHECKER_SECRET_KEY environment variables."),
     mkWorld (fun _ => 0%Q) (fun _ _ => None) (fun _ req => req)
             [("CHECKER_API_KEY", "key")] 0 [] [] []).
Proof.
  apply main_requires_credentials.
  right. right. left. reflexivity.
Defined.


(** * Further properties of the script *)

(** ** The signer and its nonces *)

Module SignerFacts.

Lemma sextet_char (i : Z) : b64_char (ascii_of_byte (Base64.sextet i)) = true.
Proof.
  unfold Base64.sextet. destruct (Z.to_nat i) as [|n]; [reflexivity|].
  do 63 (destruct n as [|n]; [reflexivity|]). reflexivity.
Qed.

Lemma b64encode_chars_upto (n : nat) :
  forall l, (List.length l < n)%nat ->
    str_forallb b64_char (decode_utf8 (Base64.b64encode l)) = true.
Proof.
  induction n as [|n IH]; intros l Hl; [lia|].
  destruct l as [|a [|b [|c rest]]].
  - reflexivity.
  - unfold decode_utf8. cbn [Base64.b64encode map string_of_list_ascii str_forallb].
    rewrite !sextet_char. reflexivity.
  - unfold decode_utf8. cbn [Base64.b64encode map string_of_list_ascii str_forallb].
    rewrite !sextet_char. reflexivity.
  - unfold decode_utf8 in *.
    cbn [Base64.b64encode map string_of_list_ascii str_forallb].
    rewrite !sextet_char. cbn [andb]. apply IH. cbn [List.length] in Hl. lia.
Qed.

Lemma b64encode_chars (l : list Z) :
  str_forallb b64_char (decode_utf8 (Base64.b64encode l)) = true.
Proof. apply (b64encode_chars_upto (S (List.length l))). lia. Qed.

Lemma contains_cons (c a : ascii) (s : string) :
  contains c (String a s) = Ascii.eqb a c || contains c s.
Proof.
  unfold contains. cbn [find]. destruct (Ascii.eqb a c); [reflexivity|].
  destruct (find c s); reflexivity.
Qed.

Lemma uint_no_colon (d : Decimal.uint) :
  contains ":" (NilEmpty.string_of_uint d) = false.
Proof.
  induction d; cbn [NilEmpty.string_of_uint]; [reflexivity|..];
    rewrite contains_cons, IHd; reflexivity.
Qed.

Lemma str_of_int_no_colon (n : Z) : contains ":" (str_of_int n) = false.
Proof.
  unfold str_of_int, NilZero.string_of_int, NilZero.string_of_uint.
  destruct (Z.to_int n) as [d|d]; destruct d;
    rewrite ?contains_cons; try reflexivity;
    cbn [NilEmpty.string_of_uint]; rewrite contains_cons, uint_no_colon;
    reflexivity.
Qed.

Lemma uint_digits (d : Decimal.uint) :
  str_forallb is_digit (NilEmpty.string_of_uint d) = true.
Proof.
  induction d; cbn [NilEmpty.string_of_uint str_forallb]; [reflexivity|..];
    rewrite IHd; reflexivity.
Qed.

Lemma str_of_int_digits (n : Z) :
  0 <= n -> str_of_int n <> "" /\ str_forallb is_digit (str_of_int n) = true.
Proof.
  intros Hn. unfold str_of_int, Z.to_int.
  destruct n as [|p|p]; [split; [discriminate | reflexivity] | | lia].
  unfold NilZero.string_of_int, NilZero.string_of_uint.
  pose proof (uint_digits (Pos.to_uint p)) as Hd.
  destruct (Pos.to_uint p); (split; [discriminate | exact Hd || reflexivity]).
Qed.

Lemma nonce_ms_nonneg (t : Q) : (0 <= t)%Q -> 0 <= nonce_ms t.
Proof.
  intros H. change 0 with (int_of_float 0).
  apply NonceFacts.int_of_float_mono, FloatFacts.round_float_nonneg.
  apply Qmult_le_0_compat; [exact H | discriminate].
Qed.

(** Two texts without a colon, each followed by a colon and more, are
    equal only part by part. *)
Lemma colon_split (n n' p p' : string) :
  contains ":" n = false -> contains ":" n' = false ->
  n ++ ":" ++ p = n' ++ ":" ++ p' -> n = n' /\ p = p'.
Proof.
  revert n'. induction n as [|a n IH]; intros [|a' n'] Hn Hn' E.
  - cbn in E. injection E as ->. auto.
  - cbn in E. injection E as <- _. rewrite contains_cons in Hn'. discriminate.
  - cbn in E. injection E as -> _. rewrite contains_cons in Hn. discriminate.
  - cbn in E. injection E as -> E.
    rewrite contains_cons in Hn, Hn'.
    apply orb_false_iff in Hn, Hn'.
    destruct (IH n' (proj2 Hn) (proj2 Hn') E) as [-> ->]. auto.
Qed.

Lemma encode_utf8_length (s : string) :
  List.length (encode_utf8 s) = String.length s.
Proof.
  unfold encode_utf8. rewrite length_map.
  induction s as [|a s IH]; cbn; [reflexivity | now rewrite IH].
Qed.

Lemma block_key_zero (key : list Z) :
  (List.length key < HMAC.block_size)%nat ->
  HMAC.block_key (key ++ [0])%list = HMAC.block_key key.
Proof.
  unfold HMAC.block_key, HMAC.block_size. intros H. cbv zeta.
  rewrite length_app. cbn [List.length].
  destruct (Nat.ltb_spec 64 (List.length key + 1)); [lia|].
  destruct (Nat.ltb_spec 64 (List.length key)); [lia|].
  rewrite length_app, <- app_assoc. cbn [List.length]. f_equal.
  replace (64 - List.length key)%nat with (S (64 - (List.length key + 1)))%nat by lia.
  reflexivity.
Qed.

End SignerFacts.

(** X7.  The signature is made of characters of the base64 alphabet and its
    padding sign only. *)
Theorem create_signature_charset :
  forall nonce path api_key secret_key : string,
    str_forallb b64_char (create_signature nonce path api_key secret_key) = true.
Proof.
  intros. unfold create_signature. apply SignerFacts.b64encode_chars.
Qed.

(** X8.  With the nonces [make_auth_headers] generates, and one API key, the
    signed message determines the nonce and the path. *)
Theorem generated_nonce_message_is_unambiguous :
  forall (api_key path path' : string) (t t' : Q),
    signing_message (str_of_int (nonce_ms t)) path api_key
    = signing_message (str_of_int (nonce_ms t')) path' api_key ->
    nonce_ms t = nonce_ms t' /\ path = path'.
Proof.
  intros api_key path path' t t' E. unfold signing_message in E.
  apply StrFacts.append_inv_head in E.
  injection E as E.
  apply SignerFacts.colon_split in E; try apply SignerFacts.str_of_int_no_colon.
  destruct E as [En Ep]. split; [|exact Ep].
  now apply NonceFacts.str_of_int_inj.
Qed.

Lemma generated_nonce_message_is_unambiguous_witness :
  nonce_ms (3 # 2) = nonce_ms (15001 # 10000)
  /\ "/rfq/1/quotes" = "/rfq/1/quotes".
Proof.
  apply (generated_nonce_message_is_unambiguous "key" "/rfq/1/quotes"
           "/rfq/1/quotes" (3 # 2) (15001 # 10000)).
  vm_compute. reflexivity.
Defined.

(** X26.  For a clock that is not before the epoch the nonce is a
    non-empty string of decimal digits. *)
Theorem nonce_is_decimal :
  forall t : Q,
    (0 <= t)%Q ->
    str_of_int (nonce_ms t) <> ""
    /\ str_forallb is_digit (str_of_int (nonce_ms t)) = true.
Proof.
  intros t Ht. apply SignerFacts.str_of_int_digits.
  now apply SignerFacts.nonce_ms_nonneg.
Qed.

Lemma nonce_is_decimal_witness :
  str_of_int (nonce_ms (17 # 10)) <> ""
  /\ str_forallb is_digit (str_of_int (nonce_ms (17 # 10))) = true.
Proof. apply nonce_is_decimal. discriminate. Defined.

(** X9.  A zero byte appended to a secret shorter than the HMAC block changes
    no signature: the key is padded with zero bytes to the block size. *)
Theorem create_signature_zero_padded_secret :
  forall nonce path api_key secret_key : string,
    (String.length secret_key < 64)%nat ->
    create_signature nonce path api_key (secret_key ++ String Ascii.zero "")
    = create_signature nonce path api_key secret_key.
Proof.
  intros nonce path api_key secret_key H.
  unfold create_signature, HMAC.hmac_sha256.
  rewrite StrFacts.encode_utf8_app.
  change (encode_utf8 (String zero "")) with [0].
  rewrite SignerFacts.block_key_zero; [reflexivity|].
  now rewrite SignerFacts.encode_utf8_length.
Qed.

Lemma create_signature_zero_padded_secret_witness :
  create_signature "1700000000000" "/rfq/1/quotes" "key"
                   ("secret" ++ String Ascii.zero "")
  = create_signature "1700000000000" "/rfq/1/quotes" "key" "secret".
Proof.
  apply create_signature_zero_padded_secret. cbn. lia.
Defined.

(** ** Headers of a call *)

Lemma lower_in_names (k name : string) :
  In (lower k) auth_header_names -> ~ In (lower name) auth_header_names ->
  String.eqb (lower k) (lower name) = false.
Proof.
  intros Hk Hn. apply String.eqb_neq. intros E. apply Hn. now rewrite <- E.
Qed.

Lemma create_rfq_run_failure (session : Session) (api_key secret_key : string)
      (w : World) :
  let req := create_request session api_key secret_key w in
  transport w (List.length (sent w)) req = None ->
  create_rfq session api_key secret_key w
  = (Raise RequestException,
     set_sent (sent w ++ [req]) (set_ticks (S (ticks w)) w)).
Proof.
  intros req Hrep.
  unfold create_rfq, bind at 1. rewrite make_auth_headers_run.
  unfold bind at 1, session_post, session_request.
  cbn [sent set_ticks transport last_hop sess_headers].
  fold (create_request session api_key secret_key w). fold req.
  now rewrite Hrep.
Qed.

Lemma signed_headers (session : Session) (method url path api_key secret_key : string)
      (body : option json) (nonce : string) :
  let h := req_headers (signed session method url path api_key secret_key
                               body nonce) in
  ci_get "x-api-key" h = Some api_key
  /\ ci_get "x-nonce" h = Some nonce
  /\ ci_get "x-signature" h = Some (create_signature nonce path api_key secret_key)
  /\ ci_get "Content-Type" h = Some "application/json"
  /\ ci_get "Accept" h = Some "application/json"
  /\ (forall name, ~ In (lower name) auth_header_names ->
        ci_get name h = ci_get name (sess_headers session)).
Proof.
  intros h.
  pose proof (merged_auth_headers (sess_headers session) nonce path
                                  api_key secret_key) as H.
  cbv zeta in H. destruct H as (H1 & H2 & H3 & H4 & H5).
  repeat (split; [assumption|]).
  intros name Hn. unfold h, signed, merge_headers, auth_headers.
  cbn [req_headers fold_left fst snd].
  rewrite !HeaderFacts.ci_get_set_other; [reflexivity|..];
    apply lower_in_names; try exact Hn; cbn; auto 10.
Qed.

(** X3.  The headers [create_rfq] and [execute_quote] hand to [session.post],
    as the session merges them with its own: the request of the call carries
    the five headers of [make_auth_headers], made with the nonce of the
    reading just taken and signing the path of the call, which replace
    session headers of the same name whatever their case; every other
    session header is as it was. *)
Theorem signed_request_headers :
  forall (netloc_valid : string -> bool) (session : Session)
         (api_key secret_key rfq_url : string) (quote_id : json) (w : World)
         (parsed : ParseResult),
    urlparse netloc_valid rfq_url = Some parsed ->
    let carries (path : string) (w' : World) :=
      exists req,
        sent w' = (sent w ++ [req])%list
        /\ ci_get "x-api-key" (req_headers req) = Some api_key
        /\ ci_get "x-nonce" (req_headers req) = Some (next_nonce w)
        /\ ci_get "x-signature" (req_headers req)
           = Some (create_signature (next_nonce w) path api_key secret_key)
        /\ ci_get "Content-Type" (req_headers req) = Some "application/json"
        /\ ci_get "Accept" (req_headers req) = Some "application/json"
        /\ (forall name, ~ In (lower name) auth_header_names ->
              ci_get name (req_headers req) = ci_get name (sess_headers session)) in
    carries RFQ_PATH (snd (create_rfq session api_key secret_key w))
    /\ carries (rstrip "/" (path parsed) ++ "/execute")
               (snd (execute_quote netloc_valid session rfq_url quote_id
                                   api_key secret_key w)).
Proof.
  intros netloc_valid session api_key secret_key rfq_url quote_id w parsed
         Hparse carries.
  split.
  - exists (create_request session api_key secret_key w). split.
    + destruct (transport w (List.length (sent w))
                  (create_request session api_key secret_key w)) as [rep|] eqn:Hrep.
      * rewrite (create_rfq_run _ _ _ _ _ Hrep).
        destruct (error_status (reply_status rep)); [reflexivity|].
        destruct (body_data rep); try reflexivity.
        cbv zeta. destruct (truthy (extracted d (reply_headers rep)));
          [destruct (extracted d (reply_headers rep))|]; reflexivity.
      * rewrite (create_rfq_run_failure _ _ _ _ Hrep). reflexivity.
    + apply (signed_headers session "POST" (BASE_URL ++ RFQ_PATH) RFQ_PATH
               api_key secret_key (Some rfq_payload) (next_nonce w)).
  - rewrite execute_quote_run, Hparse. cbv zeta.
    match goal with
    | |- carries _ (snd (match transport w _ ?r with _ => _ end)) =>
        exists r; split;
        [ destruct (transport w (List.length (sent w)) r) as [rep|];
          [destruct (error_status (reply_status rep))|]; reflexivity
        | apply signed_headers ]
    end.
Qed.

Lemma signed_request_headers_witness :
  exists req,
    sent (snd (execute_quote (fun _ => true) Samples.session "https://x.test/rfq/1/"
                 (JStr "q1") "key" "secret" (Samples.world Scenarios.full_run)))
    = [req]
    /\ ci_get "x-nonce" (req_headers req) = Some "1700000000000"
    /\ ci_get "x-signature" (req_headers req)
       = Some (create_signature "1700000000000" "/rfq/1/execute" "key" "secret")
    /\ ci_get "User-Agent" (req_headers req) = Some "python-requests".
Proof.
  destruct (proj2 (signed_request_headers (fun _ => true) Samples.session
                     "key" "secret" "https://x.test/rfq/1/" (JStr "q1")
                     (Samples.world Scenarios.full_run)
                     (mkParseResult "https" "x.test" "/rfq/1/" "" "" "")
                     eq_refl))
    as (req & Hs & _ & Hn & Hg & _ & _ & Hrest).
  exists req. split; [exact Hs|]. split; [exact Hn|]. split; [exact Hg|].
  rewrite Hrest; [reflexivity|]. cbn. intuition discriminate.
Defined.

(** ** Creating the RFQ: effects and outcomes *)

Lemma normalize_scheme_not_http (s : string) :
  startswith (normalize_scheme s) "http://" = false.
Proof.
  unfold normalize_scheme. destruct (startswith s "http://") eqn:E; [|exact E].
  reflexivity.
Qed.

Lemma normalize_scheme_nonempty (s : string) :
  s <> "" -> normalize_scheme s <> "".
Proof.
  unfold normalize_scheme. destruct (startswith s "http://"); [discriminate|auto].
Qed.

(** X5.  Whatever the call returns, [create_rfq] reads the clock once and
    calls [session.post] once, with the signed POST of the fixed payload to
    the fixed URL; it prints one line, the URL it returns, exactly when it
    returns one, and never sleeps.  What the library puts on the wire for
    that one call is not the script's doing. *)
Theorem create_rfq_single_request :
  forall (session : Session) (api_key secret_key : string) (w : World),
    let run := create_rfq session api_key secret_key w in
    let req := create_request session api_key secret_key w in
    req_method req = "POST"
    /\ req_url req = "https://api-staging.checker.finance/api/v1/request-for-quotes"
    /\ req_body req = Some rfq_payload
    /\ ci_get "x-nonce" (req_headers req) = Some (next_nonce w)
    /\ signed_over RFQ_PATH api_key secret_key req
    /\ snd run
       = mkWorld (clock w) (transport w) (last_hop w) (environ w) (S (ticks w))
                 (sent w ++ [req])
                 (match fst run with
                  | Ok u => stdout w ++ [[PFmt [PStr "Created RFQ: "; PStr u]]]
                  | Raise _ => stdout w
                  end)
                 (slept w).
Proof.
  intros session api_key secret_key w run req.
  split; [reflexivity|]. split; [reflexivity|]. split; [reflexivity|].
  split; [apply merged_auth_headers|].
  split; [apply signed_is_signed_over|].
  unfold run.
  destruct (transport w (List.length (sent w)) req) as [rep|] eqn:Hrep.
  - rewrite (create_rfq_run _ _ _ _ _ Hrep).
    destruct (error_status (reply_status rep)); [reflexivity|].
    destruct (body_data rep); try reflexivity.
    cbv zeta. destruct (truthy (extracted d (reply_headers rep)));
      [destruct (extracted d (reply_headers rep))|]; reflexivity.
  - rewrite (create_rfq_run_failure _ _ _ _ Hrep). reflexivity.
Qed.

(** X6.  What [create_rfq] returns and when it raises [HTTPError]: a URL
    it returns is not empty and does not begin with [http://], and the call
    of [session.post] returned a reply without error status; [HTTPError] is
    raised exactly when that call returned a reply with an error status
    (400 to 599), and carries that response; when the call itself raises,
    its exception goes through. *)
Theorem create_rfq_outcomes :
  forall (session : Session) (api_key secret_key : string) (w : World),
    let req := create_request session api_key secret_key w in
    let fate := transport w (List.length (sent w)) req in
    let result := fst (create_rfq session api_key secret_key w) in
    (forall u, result = Ok u ->
       u <> "" /\ startswith u "http://" = false
       /\ exists rep, fate = Some rep /\ error_status (reply_status rep) = false)
    /\ (forall r, result = Raise (HTTPError r) <->
          exists rep, fate = Some rep
                      /\ r = mkResponse rep (last_hop w (List.length (sent w)) req)
                      /\ error_status (reply_status rep) = true)
    /\ (fate = None <-> result = Raise RequestException).
Proof.
  intros session api_key secret_key w req fate result. unfold result, fate.
  destruct (transport w (List.length (sent w)) req) as [rep|] eqn:Hrep.
  - rewrite (create_rfq_run _ _ _ _ _ Hrep).
    destruct (error_status (reply_status rep)) eqn:Hst.
    { cbn [fst]. split; [discriminate|]. split; [|split; discriminate].
      intros r. split.
      - intros [= <-]. exists rep. auto.
      - intros (rep0 & [= <-] & -> & _). reflexivity. }
    assert (Hex : exists rep0, Some rep = Some rep0
                               /\ error_status (reply_status rep0) = false)
      by (exists rep; auto).
    assert (Hno : forall (e : exn) (r : Response),
               (forall r', e <> HTTPError r') ->
               Raise (A:=string) e = Raise (HTTPError r) <->
               exists rep0, Some rep = Some rep0
                 /\ r = mkResponse rep0 (last_hop w (List.length (sent w)) req)
                 /\ error_status (reply_status rep0) = true).
    { intros e r He. split.
      - intros [= ->]. now destruct (He r).
      - intros (rep0 & [= <-] & _ & H). congruence. }
    destruct (body_data rep).
    7: { cbv zeta. destruct (truthy (extracted d (reply_headers rep))) eqn:Ht.
         - destruct (extracted d (reply_headers rep)) as [| | | |s| |];
             cbn [fst];
             try (split; [discriminate|];
                  split; [intros r; apply Hno; discriminate|];
                  split; discriminate).
           apply truthy_str in Ht. split.
           + intros u [= <-].
             split; [now apply normalize_scheme_nonempty|].
             split; [apply normalize_scheme_not_http | exact Hex].
           + split; [|split; discriminate].
             intros r. split; [discriminate|].
             intros (rep0 & [= <-] & _ & H). congruence.
         - cbn [fst]. split; [discriminate|].
           split; [intros r; apply Hno; discriminate|]. split; discriminate. }
    all: cbn [fst]; split; [discriminate|];
      split; [intros r; apply Hno; discriminate|]; split; discriminate.
  - rewrite (create_rfq_run_failure _ _ _ _ Hrep). cbn [fst].
    split; [discriminate|]. split; [|split; reflexivity].
    intros r. split; [discriminate|]. intros (rep0 & H & _). discriminate.
Qed.

(** ** Polling: the trace of a run *)

Section PollTrace.

Variable session : Session.
Variables quotes_url quotes_path api_key secret_key : string.
Variable max_attempts : Z.
Variable delay_seconds : Q.

Let turns := poll_loop session quotes_url quotes_path api_key secret_key
                      max_attempts delay_seconds.
Let empties := after_empty_attempts session quotes_url quotes_path
                 api_key secret_key max_attempts delay_seconds.

Lemma map_seq_shift {A} (f : nat -> A) (k n : nat) :
  map f (seq k n) = map (fun i => f (k + i)%nat) (seq 0 n).
Proof.
  revert f k. induction n as [|n IH]; intros f k; [reflexivity|].
  cbn [seq map]. rewrite Nat.add_0_r. f_equal.
  rewrite (IH f (S k)), (IH (fun i => f (k + i)%nat) 1%nat).
  apply map_ext. intros i. f_equal. lia.
Qed.

Lemma empties_zero (first : Z) (w : World) : empties first 0%nat w = w.
Proof.
  destruct w. unfold empties, after_empty_attempts. cbn.
  now rewrite Nat.add_0_r, !app_nil_r.
Qed.

Lemma empties_succ (first : Z) (n : nat) (w : World) :
  empties (first + 1) n
    (after_empty_attempt session quotes_url quotes_path api_key secret_key
                         max_attempts delay_seconds first w)
  = empties first (S n) w.
Proof.
  unfold empties, after_empty_attempts, after_empty_attempt.
  cbn [clock transport last_hop environ ticks sent stdout slept
       set_slept set_stdout set_sent set_ticks].
  f_equal.
  - lia.
  - rewrite <- app_assoc. f_equal. cbn [seq map app]. f_equal.
    + unfold poll_request, next_nonce, nonce_of_reading.
      now rewrite Nat.add_0_r.
    + rewrite (map_seq_shift _ 1). apply map_ext. intros i.
      unfold poll_request, nonce_of_reading.
      cbn [clock ticks set_slept set_stdout set_sent set_ticks].
      replace (S (ticks w) + i)%nat with (ticks w + (1 + i))%nat by lia.
      reflexivity.
  - rewrite <- app_assoc. f_equal. cbn [seq map app]. f_equal.
    + unfold no_quotes_line. now rewrite Z.add_0_r.
    + rewrite (map_seq_shift _ 1). apply map_ext. intros i.
      unfold no_quotes_line.
      replace (first + 1 + Z.of_nat i) with (first + Z.of_nat (1 + i)) by lia.
      reflexivity.
  - rewrite <- app_assoc. reflexivity.
Qed.

Lemma poll_loop_falsy (attempt : Z) (rest : list Z) (w : World) :
  attempt_finds_nothing w (List.length (sent w)) ->
  Qle_bool 0 delay_seconds = true ->
  turns (attempt :: rest) w
  = turns rest (after_empty_attempt session quotes_url quotes_path api_key
                 secret_key max_attempts delay_seconds attempt w).
Proof.
  intros Hget Hd. unfold turns. rewrite poll_loop_step. cbv zeta.
  destruct (Hget (signed session "GET" quotes_url quotes_path api_key secret_key
                         None (next_nonce w)))
    as (rep & quotes & Hrep & Hst & Hj & Hq).
  now rewrite Hrep, Hst, Hj, Hq, Hd.
Qed.

(** [n] attempts in a row that find nothing are [n] turns of the loop. *)
Lemma poll_loop_skip (n : nat) :
  forall (first : Z) (rest : list Z) (w : World),
    Qle_bool 0 delay_seconds = true ->
    (forall i, (i < n)%nat ->
       attempt_finds_nothing w (List.length (sent w) + i)) ->
    turns (map (fun i => first + Z.of_nat i) (seq 0 n) ++ rest)%list w
    = turns rest (empties first n w).
Proof.
  induction n as [|n IH]; intros first rest w Hd Hempty.
  - cbn [seq map app]. now rewrite empties_zero.
  - cbn [seq map app]. rewrite Z.add_0_r.
    assert (H0 : attempt_finds_nothing w (List.length (sent w))).
    { rewrite <- (Nat.add_0_r (List.length (sent w))). apply Hempty. lia. }
    rewrite (poll_loop_falsy first _ w H0 Hd).
    rewrite (map_seq_shift _ 1).
    rewrite (map_ext (fun i => first + Z.of_nat (1 + i))
                     (fun i => first + 1 + Z.of_nat i)) by (intros; lia).
    rewrite IH; [now rewrite empties_succ | exact Hd |].
    intros i Hi. unfold after_empty_attempt.
    cbn [sent set_slept set_stdout set_sent]. rewrite length_app.
    cbn [List.length].
    replace (List.length (sent w) + 1 + i)%nat
      with (List.length (sent w) + S i)%nat by lia.
    apply (Hempty (S i)). lia.
Qed.

Lemma py_range_split (k : nat) :
  (k <= Z.to_nat max_attempts)%nat ->
  py_range 1 (max_attempts + 1)
  = (map (fun i => 1 + Z.of_nat i) (seq 0 k)
     ++ map (fun i => (1 + Z.of_nat k) + Z.of_nat i)
            (seq 0 (Z.to_nat max_attempts - k)))%list.
Proof.
  intros Hk. unfold py_range.
  replace (Z.to_nat (max_attempts + 1 - 1)) with (k + (Z.to_nat max_attempts - k))%nat
    by (replace (max_attempts + 1 - 1) with max_attempts by lia; lia).
  rewrite seq_app, map_app. f_equal.
  rewrite (map_seq_shift _ (0 + k)). apply map_ext. intros i. lia.
Qed.

(** After [k] empty attempts the loop stands at attempt [k + 1], in the
    world those attempts leave. *)
Lemma poll_range_skip (k : nat) (w : World) :
  (k <= Z.to_nat max_attempts)%nat ->
  Qle_bool 0 delay_seconds = true ->
  (forall i, (i < k)%nat ->
     attempt_finds_nothing w (List.length (sent w) + i)) ->
  turns (py_range 1 (max_attempts + 1)) w
  = turns (map (fun i => (1 + Z.of_nat k) + Z.of_nat i)
              (seq 0 (Z.to_nat max_attempts - k)))
         (empties 1 k w).
Proof.
  intros Hk Hd Hempty. rewrite (py_range_split k Hk).
  now apply poll_loop_skip.
Qed.


End PollTrace.

Section PollQuotesTrace.

Variable netloc_valid : string -> bool.
Variable session : Session.
Variables rfq_url api_key secret_key : string.
Variable max_attempts : Z.
Variable delay_seconds : Q.
Variable parsed : ParseResult.
Hypothesis parse_ok : urlparse netloc_valid rfq_url = Some parsed.

Let poll := poll_quotes netloc_valid session rfq_url api_key secret_key
                        max_attempts delay_seconds.

(** The state of a polling after [k] attempts that found nothing. *)
Lemma poll_quotes_at (k : nat) (w : World) :
  Z.of_nat k <= max_attempts \/ (k = 0)%nat ->
  (0 <= delay_seconds)%Q \/ (k = 0)%nat ->
  (forall i, (i < k)%nat ->
     attempt_finds_nothing w (List.length (sent w) + i)) ->
  poll w
  = poll_loop session (quotes_url_of parsed) (quotes_path_of parsed)
              api_key secret_key max_attempts delay_seconds
              (map (fun i => (1 + Z.of_nat k) + Z.of_nat i)
                   (seq 0 (Z.to_nat max_attempts - k)))
              (after_empty_attempts session (quotes_url_of parsed)
                 (quotes_path_of parsed) api_key secret_key
                 max_attempts delay_seconds 1 k w).
Proof.
  intros Hk Hd Hempty. unfold poll. rewrite poll_quotes_run, parse_ok. cbv zeta.
  fold (quotes_path_of parsed). fold (quotes_url_of parsed).
  destruct k as [|k].
  - rewrite (py_range_split max_attempts 0) by lia.
    cbn [seq map app]. now rewrite empties_zero, Nat.sub_0_r.
  - apply poll_range_skip; [lia | | exact Hempty].
    apply Qle_bool_iff. destruct Hd; [assumption | discriminate].
Qed.

Lemma attempt_gets_at (k : nat) (w : World) (first : Z) (quotes : json) :
  attempt_gets w (List.length (sent w) + k) quotes ->
  let w' := after_empty_attempts session (quotes_url_of parsed)
              (quotes_path_of parsed) api_key secret_key
              max_attempts delay_seconds first k w in
  attempt_gets w' (List.length (sent w')) quotes.
Proof.
  intros H. cbv zeta. unfold attempt_gets, after_empty_attempts.
  cbn [transport last_hop sent]. now rewrite length_app, length_map, length_seq.
Qed.



(** X12.  With a budget of zero or less attempts [poll_quotes] raises
    [TimeoutError] at once: nothing is read, sent, printed or slept. *)
Theorem poll_quotes_nonpositive_budget :
  forall w : World,
    max_attempts <= 0 ->
    poll w = (Raise (TimeoutError "No quotes received within polling limit"), w).
Proof.
  intros w Hmax.
  rewrite (poll_quotes_at 0 w); [| auto | auto | intros; lia].
  replace (Z.to_nat max_attempts - 0)%nat with 0%nat by lia.
  now rewrite empties_zero.
Qed.




End PollQuotesTrace.



Lemma poll_quotes_nonpositive_budget_witness :
  let w := Samples.world (fun _ => None) in
  poll_quotes (fun _ => true) Samples.session "https://x.test/rfq/1"
              "key" "secret" 0 (1 # 1) w
  = (Raise (TimeoutError "No quotes received within polling limit"), w).
Proof.
  cbv zeta.
  apply (poll_quotes_nonpositive_budget (fun _ => true) Samples.session
           "https://x.test/rfq/1" "key" "secret" 0 (1 # 1)
           Scenarios.rfq1 eq_refl).
  lia.
Defined.




(** ** Executing a quote: effects and outcomes *)

(** X16.  For a parseable RFQ URL [execute_quote] announces the payload,
    reads the clock once and calls [session.post] once, with the signed
    POST of [{"winningQuoteId": quote_id}] to the execute URL, and never
    sleeps.  When the call returns a reply without error status the body
    text is returned; when it returns a reply with an error status
    [HTTPError] is raised with that response; when the call itself raises,
    its exception goes through and only the announcement was printed. *)
Theorem execute_quote_outcomes :
  forall (netloc_valid : string -> bool) (session : Session) (rfq_url : string)
         (quote_id : json) (api_key secret_key : string) (w : World)
         (parsed : ParseResult),
    urlparse netloc_valid rfq_url = Some parsed ->
    let run := execute_quote netloc_valid session rfq_url quote_id
                             api_key secret_key w in
    let req := execute_request session parsed quote_id api_key secret_key
                               (next_nonce w) in
    let fate := transport w (List.length (sent w)) req in
    let answered := last_hop w (List.length (sent w)) req in
    sent (snd run) = (sent w ++ [req])%list
    /\ ticks (snd run) = S (ticks w)
    /\ slept (snd run) = slept w
    /\ (exists lines,
          stdout (snd run) = (stdout w ++ sending_line parsed quote_id :: lines)%list)
    /\ (forall rep, fate = Some rep -> error_status (reply_status rep) = false ->
          fst run = Ok (reply_text rep))
    /\ (forall rep, fate = Some rep -> error_status (reply_status rep) = true ->
          fst run = Raise (HTTPError (mkResponse rep answered)))
    /\ (fate = None ->
          fst run = Raise RequestException
          /\ stdout (snd run) = (stdout w ++ [sending_line parsed quote_id])%list).
Proof.
  intros nv session rfq_url quote_id api_key secret_key w parsed Hparse
         run req fate answered.
  unfold run. rewrite execute_quote_run, Hparse. cbv zeta.
  fold (execute_path_of parsed). fold (execute_url_of parsed).
  fold (execute_request session parsed quote_id api_key secret_key (next_nonce w)).
  fold req. fold fate. fold answered.
  destruct fate as [rep|] eqn:Hfate.
  - destruct (error_status (reply_status rep)) eqn:Hst;
      cbn [fst snd sent ticks slept stdout];
      repeat (split; [reflexivity|]);
      (split; [eexists; reflexivity|]);
      (split; [intros rep0 [= <-] H; try reflexivity; congruence|]);
      (split; [intros rep0 [= <-] H; try reflexivity; congruence|]);
      discriminate.
  - cbn [fst snd sent ticks slept stdout].
    repeat (split; [reflexivity|]).
    split; [eexists; reflexivity|].
    split; [discriminate|]. split; [discriminate|]. split; reflexivity.
Qed.

Lemma execute_quote_outcomes_witness :
  let run := execute_quote (fun _ => true) Samples.session "https://x.test/rfq/1/"
               (JStr "q1") "key" "secret" (Samples.world (fun _ => None)) in
  fst run = Raise RequestException
  /\ map req_url (sent (snd run)) = ["https://x.test/rfq/1/execute"]
  /\ List.length (stdout (snd run)) = 1%nat.
Proof.
  cbv zeta.
  pose proof (execute_quote_outcomes (fun _ => true) Samples.session
                "https://x.test/rfq/1/" (JStr "q1") "key" "secret"
                (Samples.world (fun _ => None))
                (mkParseResult "https" "x.test" "/rfq/1/" "" "" "") eq_refl)
    as H.
  cbv zeta in H. destruct H as (Hs & _ & _ & _ & _ & _ & Hr).
  destruct (Hr eq_refl) as [Hres Hout].
  rewrite Hs, Hres, Hout. repeat split.
Defined.

(** X17.  An RFQ URL that [urlparse] rejects ends both operations in its
    [ValueError], before anything is read, sent or printed. *)
Theorem unparseable_url_sends_nothing :
  forall (netloc_valid : string -> bool) (session : Session) (rfq_url : string)
         (api_key secret_key : string),
    urlparse netloc_valid rfq_url = None ->
    (forall (max_attempts : Z) (delay_seconds : Q) (w : World),
        exists msg,
          poll_quotes netloc_valid session rfq_url api_key secret_key
                      max_attempts delay_seconds w
          = (Raise (ValueError msg), w))
    /\ (forall (quote_id : json) (w : World),
          exists msg,
            execute_quote netloc_valid session rfq_url quote_id
                          api_key secret_key w
            = (Raise (ValueError msg), w)).
Proof.
  intros nv session rfq_url api_key secret_key Hparse. split.
  - intros max_attempts delay_seconds w. eexists.
    rewrite poll_quotes_run, Hparse. reflexivity.
  - intros quote_id w. eexists.
    rewrite execute_quote_run, Hparse. reflexivity.
Qed.

Lemma unparseable_url_sends_nothing_witness :
  exists msg,
    poll_quotes (fun _ => true) Samples.session "https://[::1/rfq/1" "key" "secret"
                10 (1 # 1) (Samples.world (fun _ => None))
    = (Raise (ValueError msg), Samples.world (fun _ => None)).
Proof.
  apply (unparseable_url_sends_nothing (fun _ => true) Samples.session
           "https://[::1/rfq/1" "key" "secret" eq_refl).
Defined.

(** ** What of the RFQ URL is used *)

(** X18.  Only scheme, network location and path of the RFQ URL are used:
    two URLs that agree on the three are polled and executed alike, so
    parameters, query and fragment are dropped. *)
Theorem only_scheme_netloc_path_are_used :
  forall (netloc_valid : string -> bool) (session : Session)
         (api_key secret_key url1 url2 : string) (p1 p2 : ParseResult),
    urlparse netloc_valid url1 = Some p1 ->
    urlparse netloc_valid url2 = Some p2 ->
    scheme p1 = scheme p2 -> netloc p1 = netloc p2 -> path p1 = path p2 ->
    (forall (max_attempts : Z) (delay_seconds : Q) (w : World),
        poll_quotes netloc_valid session url1 api_key secret_key
                    max_attempts delay_seconds w
        = poll_quotes netloc_valid session url2 api_key secret_key
                      max_attempts delay_seconds w)
    /\ (forall (quote_id : json) (w : World),
          execute_quote netloc_valid session url1 quote_id api_key secret_key w
          = execute_quote netloc_valid session url2 quote_id api_key secret_key w).
Proof.
  intros nv session api_key secret_key url1 url2 p1 p2 H1 H2 Hs Hn Hp. split.
  - intros max_attempts delay_seconds w.
    rewrite !poll_quotes_run, H1, H2. cbv zeta. now rewrite Hs, Hn, Hp.
  - intros quote_id w.
    rewrite !execute_quote_run, H1, H2. cbv zeta. now rewrite Hs, Hn, Hp.
Qed.

Lemma only_scheme_netloc_path_are_used_witness :
  execute_quote (fun _ => true) Samples.session
                "https://x.test/rfq/1;v=2?token=abc#top" (JStr "q1") "key" "secret"
                (Samples.world (fun _ => None))
  = execute_quote (fun _ => true) Samples.session
                  "https://x.test/rfq/1" (JStr "q1") "key" "secret"
                  (Samples.world (fun _ => None)).
Proof.
  apply (only_scheme_netloc_path_are_used (fun _ => true) Samples.session
           "key" "secret" "https://x.test/rfq/1;v=2?token=abc#top"
           "https://x.test/rfq/1"
           (mkParseResult "https" "x.test" "/rfq/1" "v=2" "token=abc" "top")
           (mkParseResult "https" "x.test" "/rfq/1" "" "" "")
           eq_refl eq_refl eq_refl eq_refl eq_refl).
Defined.

Module PathFacts.
Import SliceFacts.

Lemma rstrip_idempotent (c : ascii) (s : string) :
  rstrip c (rstrip c s) = rstrip c s.
Proof.
  induction s as [|a s IH]; [reflexivity|].
  cbn [rstrip]. destruct (rstrip c s) as [|b r] eqn:E.
  - destruct (Ascii.eqb a c) eqn:Ea; [reflexivity|].
    cbn [rstrip]. now rewrite Ea.
  - cbn [rstrip]. cbn [rstrip] in IH. now rewrite IH.
Qed.

Lemma rstrip_length (c : ascii) (s : string) :
  (String.length (rstrip c s) <= String.length s)%nat.
Proof.
  induction s as [|a s IH]; [cbn; lia|].
  cbn [rstrip]. destruct (rstrip c s) as [|b r].
  - destruct (Ascii.eqb a c); cbn; lia.
  - cbn [String.length] in *. lia.
Qed.

(** What [rstrip] returns does not end with the stripped character. *)
Lemma rstrip_no_tail (c : ascii) (s pre : string) :
  rstrip c s <> pre ++ String c "".
Proof.
  intros E. pose proof (rstrip_idempotent c s) as H.
  rewrite E, rstrip_app_last in H.
  pose proof (rstrip_length c pre) as Hl. rewrite H in Hl.
  rewrite StrFacts.length_append in Hl. cbn in Hl. lia.
Qed.

End PathFacts.

(** X19.  However many slashes end the path of the RFQ URL, no doubled
    slash is requested or signed at the joint: the URL of every request of
    [poll_quotes] and [execute_quote] is scheme, network location and a
    base path that does not end with a slash, followed by [/quotes] or
    [/execute], and the request is signed over that base path and
    suffix. *)
Theorem derived_path_has_no_doubled_slash :
  forall (netloc_valid : string -> bool) (session : Session)
         (rfq_url api_key secret_key : string) (parsed : ParseResult),
    urlparse netloc_valid rfq_url = Some parsed ->
    exists base,
      rstrip "/" base = base
      /\ (forall pre, base <> pre ++ "/")
      /\ (forall (quote_id : json) (w : World),
            exists req,
              sent (snd (execute_quote netloc_valid session rfq_url quote_id
                                       api_key secret_key w))
              = (sent w ++ [req])%list
              /\ req_url req
                 = scheme parsed ++ "://" ++ netloc parsed ++ base ++ "/execute"
              /\ signed_over (base ++ "/execute") api_key secret_key req)
      /\ (forall (max_attempts : Z) (delay_seconds : Q) (w : World),
            exists reqs,
              sent (snd (poll_quotes netloc_valid session rfq_url api_key
                                     secret_key max_attempts delay_seconds w))
              = (sent w ++ reqs)%list
              /\ Forall (fun req =>
                           req_url req
                           = scheme parsed ++ "://" ++ netloc parsed
                             ++ base ++ "/quotes"
                           /\ signed_over (base ++ "/quotes") api_key secret_key req)
                        reqs).
Proof.
  intros nv session rfq_url api_key secret_key parsed Hparse.
  exists (rstrip "/" (path parsed)).
  split; [apply PathFacts.rstrip_idempotent|].
  split; [intros pre; apply PathFacts.rstrip_no_tail|].
  split.
  - intros quote_id w. rewrite execute_quote_run, Hparse. cbv zeta.
    eexists (signed session "POST" _ _ api_key secret_key _ (next_nonce w)).
    split; [|split; [reflexivity | apply signed_is_signed_over]].
    destruct (transport w _ _) as [rep|];
      [destruct (error_status (reply_status rep))|]; reflexivity.
  - intros max_attempts delay_seconds w. rewrite poll_quotes_run, Hparse.
    cbv zeta.
    match goal with
    | |- context [poll_loop ?s ?u ?p ?a ?k ?m ?d ?l w] =>
        destruct (poll_loop_calls s u p a k m d l w) as (n & _ & Hsent & _)
    end.
    eexists. split; [exact Hsent|].
    apply Forall_forall. intros r Hr. apply in_map_iff in Hr.
    destruct Hr as (i & <- & _).
    split; [reflexivity | apply signed_is_signed_over].
Qed.

Lemma derived_path_has_no_doubled_slash_witness :
  exists base,
    rstrip "/" base = base
    /\ (forall pre, base <> pre ++ "/")
    /\ (forall (quote_id : json) (w : World),
          exists req,
            sent (snd (execute_quote (fun _ => true) Samples.session
                         "https://x.test/rfq/1///" quote_id "key" "secret" w))
            = (sent w ++ [req])%list
            /\ req_url req = "https" ++ "://" ++ "x.test" ++ base ++ "/execute"
            /\ signed_over (base ++ "/execute") "key" "secret" req)
    /\ (forall (max_attempts : Z) (delay_seconds : Q) (w : World),
          exists reqs,
            sent (snd (poll_quotes (fun _ => true) Samples.session
                         "https://x.test/rfq/1///" "key" "secret"
                         max_attempts delay_seconds w))
            = (sent w ++ reqs)%list
            /\ Forall (fun req =>
                         req_url req
                         = "https" ++ "://" ++ "x.test" ++ base ++ "/quotes"
                         /\ signed_over (base ++ "/quotes") "key" "secret" req)
                      reqs).
Proof.
  exact (derived_path_has_no_doubled_slash (fun _ => true) Samples.session
           "https://x.test/rfq/1///" "key" "secret"
           (mkParseResult "https" "x.test" "/rfq/1///" "" "" "") eq_refl).
Defined.

Module RelativeFacts.
Import SlashFacts.

Lemma starts_with_slash (t : string) :
  startswith t "/" = true -> exists rest, t = String "/" rest.
Proof.
  unfold startswith. destruct t as [|a rest]; [discriminate|].
  cbn [String.prefix]. destruct (ascii_dec "/" a) as [<-|]; intros H;
    [|discriminate H].
  now exists rest.
Qed.

Lemma startswith_app (p s : string) : startswith (p ++ s) p = true.
Proof.
  unfold startswith. induction p as [|a p IH]; [now destruct s|].
  cbn. destruct (ascii_dec a a); [exact IH | contradiction].
Qed.

(** A text that begins with one slash, not two, is split into an empty
    scheme, an empty network location and the rest. *)
Lemma urlsplit_relative (nv : string -> bool) (u : string) :
  startswith (sanitized u) "/" = true ->
  startswith (sanitized u) "//" = false ->
  exists rs, urlsplit nv u = Some rs /\ scheme rs = "" /\ netloc rs = "".
Proof.
  intros H1 H2. rewrite urlsplit_steps.
  destruct (starts_with_slash _ H1) as [rest Ht].
  assert (Hs : split_scheme (sanitized u) = ("", sanitized u)).
  { rewrite Ht. unfold split_scheme.
    destruct (find ":" (String "/" rest)) as [[|i]|]; reflexivity. }
  rewrite Hs. unfold net_step. rewrite H2.
  destruct (split_at "#" (sanitized u)) as [url3 frag].
  destruct (split_at "?" url3) as [url4 qry].
  eexists. split; [reflexivity|]. split; reflexivity.
Qed.

Lemma urlparse_relative (nv : string -> bool) (u : string) :
  startswith (sanitized u) "/" = true ->
  startswith (sanitized u) "//" = false ->
  exists parsed, urlparse nv u = Some parsed
                 /\ scheme parsed = "" /\ netloc parsed = "".
Proof.
  intros H1 H2. destruct (urlsplit_relative nv u H1 H2) as (rs & Hrs & Hs & Hn).
  unfold urlparse. rewrite Hrs.
  destruct (existsb (String.eqb (scheme rs)) uses_params && contains ";" (path rs)).
  - destruct (splitparams (path rs)) as [p prm].
    eexists. split; [reflexivity|]. split; assumption.
  - eexists. split; [reflexivity|]. split; assumption.
Qed.

End RelativeFacts.

(** X20.  A relative RFQ URL is not made absolute: when its text, once
    [urlsplit] has stripped it, begins with one slash, both operations
    send to a URL that begins with [://], without scheme and host. *)
Theorem relative_rfq_url_is_not_resolved :
  forall (netloc_valid : string -> bool) (session : Session)
         (rfq_url api_key secret_key : string),
    startswith (sanitized rfq_url) "/" = true ->
    startswith (sanitized rfq_url) "//" = false ->
    (forall (max_attempts : Z) (delay_seconds : Q) (w : World),
        exists reqs,
          sent (snd (poll_quotes netloc_valid session rfq_url api_key secret_key
                                 max_attempts delay_seconds w))
          = (sent w ++ reqs)%list
          /\ Forall (fun r => startswith (req_url r) "://" = true) reqs)
    /\ (forall (quote_id : json) (w : World),
          exists r,
            sent (snd (execute_quote netloc_valid session rfq_url quote_id
                                     api_key secret_key w))
            = (sent w ++ [r])%list
            /\ startswith (req_url r) "://" = true).
Proof.
  intros nv session rfq_url api_key secret_key H1 H2.
  destruct (RelativeFacts.urlparse_relative nv rfq_url H1 H2)
    as (parsed & Hparse & Hs & Hn).
  split.
  - intros max_attempts delay_seconds w.
    rewrite poll_quotes_run, Hparse. cbv zeta.
    match goal with
    | |- context [poll_loop ?s ?u ?p ?a ?k ?m ?d ?l w] =>
        destruct (poll_loop_calls s u p a k m d l w) as (n & _ & Hsent & _)
    end.
    eexists. split; [exact Hsent|].
    apply Forall_forall. intros r Hr. apply in_map_iff in Hr.
    destruct Hr as (i & <- & _). cbn [req_url signed]. rewrite Hs, Hn.
    apply (RelativeFacts.startswith_app "://").
  - intros quote_id w.
    rewrite execute_quote_run, Hparse. cbv zeta.
    eexists (signed session "POST" _ _ api_key secret_key _ (next_nonce w)).
    split.
    + destruct (transport w _ _) as [rep|];
        [destruct (error_status (reply_status rep))|]; reflexivity.
    + cbn [req_url signed]. rewrite Hs, Hn.
      apply (RelativeFacts.startswith_app "://").
Qed.

Lemma relative_rfq_url_is_not_resolved_witness :
  exists r,
    sent (snd (execute_quote (fun _ => true) Samples.session "/rfq/1" (JStr "q1")
                             "key" "secret" (Samples.world (fun _ => None))))
    = ([] ++ [r])%list
    /\ startswith (req_url r) "://" = true.
Proof.
  apply (relative_rfq_url_is_not_resolved (fun _ => true) Samples.session
           "/rfq/1" "key" "secret" eq_refl eq_refl).
Defined.

(** ** The whole run *)

Lemma pair_eta {A B} (p : A * B) : p = (fst p, snd p).
Proof. now destruct p. Qed.

(** [main] with both credentials set: the three operations in sequence. *)
Lemma main_with_credentials (netloc_valid : string -> bool)
      (default_headers : headers) (w : World) (api_key secret_key : string) :
  assoc "CHECKER_API_KEY" (environ w) = Some api_key -> api_key <> "" ->
  assoc "CHECKER_SECRET_KEY" (environ w) = Some secret_key -> secret_key <> "" ->
  let session := mkSession default_headers in
  main netloc_valid default_headers w
  = bind (create_rfq session api_key secret_key) (fun rfq_url =>
    bind (poll_quotes netloc_valid session rfq_url api_key secret_key 10 (1 # 1))
         (fun quote =>
    bind (getitem quote "quoteId") (fun winning_quote_id =>
    try_except
      (bind (execute_quote netloc_valid session rfq_url winning_quote_id
                           api_key secret_key) (fun _ => ret tt))
      (fun e => match e with
                | HTTPError r =>
                    Some (bind (print [PStr "HTTPError during execute:"; PError r])
                               (fun _ => raise (HTTPError r)))
                | _ => None
                end)))) w.
Proof.
  intros Ha Hane Hs Hsne. cbv zeta.
  unfold main. unfold bind at 1, environ_get. unfold bind at 1.
  rewrite Ha, Hs.
  destruct api_key; [contradiction|]. destruct secret_key; [contradiction|].
  reflexivity.
Qed.

(** X21.  [main] stops at the first operation that fails, in the world
    that operation leaves: when [create_rfq] raises nothing is polled,
    when [poll_quotes] raises nothing is executed, and neither is
    anything executed when the quote returned has no [quoteId]: that is
    a [KeyError] for a JSON object, a [TypeError] for any other value. *)
Theorem main_stops_at_first_failure :
  forall (netloc_valid : string -> bool) (default_headers : headers) (w : World)
         (api_key secret_key : string),
    assoc "CHECKER_API_KEY" (environ w) = Some api_key -> api_key <> "" ->
    assoc "CHECKER_SECRET_KEY" (environ w) = Some secret_key -> secret_key <> "" ->
    let session := mkSession default_headers in
    let created := create_rfq session api_key secret_key w in
    (forall e, fst created = Raise e ->
       main netloc_valid default_headers w = (Raise e, snd created))
    /\ (forall rfq_url, fst created = Ok rfq_url ->
        let polled := poll_quotes netloc_valid session rfq_url api_key secret_key
                                  10 (1 # 1) (snd created) in
        (forall e, fst polled = Raise e ->
           main netloc_valid default_headers w = (Raise e, snd polled))
        /\ (forall quote, fst polled = Ok quote ->
            match quote with
            | JDict d =>
                assoc "quoteId" d = None ->
                main netloc_valid default_headers w = (Raise KeyError, snd polled)
            | _ =>
                main netloc_valid default_headers w = (Raise TypeError, snd polled)
            end)).
Proof.
  intros nv dh w api_key secret_key Ha Hane Hs Hsne session created.
  pose proof (main_with_credentials nv dh w api_key secret_key Ha Hane Hs Hsne)
    as Hmain.
  cbv zeta in Hmain. fold session in Hmain. subst created.
  destruct (create_rfq session api_key secret_key w) as [[u|e0] w1] eqn:Hc;
    cbn [fst snd]; (split; [intros e [= <-] | intros rfq_url [= <-]]).
  2: { rewrite Hmain. unfold bind at 1. now rewrite Hc. }
  cbv zeta.
  destruct (poll_quotes nv session u api_key secret_key 10 (1 # 1) w1)
    as [[q|e1] w2] eqn:Hp; cbn [fst snd];
    (split; [intros e [= <-] | intros quote [= <-]]).
  2: { rewrite Hmain. unfold bind at 1. rewrite Hc. unfold bind at 1.
       now rewrite Hp. }
  assert (Hq : main nv dh w
               = bind (getitem q "quoteId") (fun winning_quote_id =>
                   try_except
                     (bind (execute_quote nv session u winning_quote_id
                                          api_key secret_key) (fun _ => ret tt))
                     (fun e => match e with
                               | HTTPError r =>
                                   Some (bind (print [PStr "HTTPError during execute:";
                                                      PError r])
                                              (fun _ => raise (HTTPError r)))
                               | _ => None
                               end)) w2).
  { rewrite Hmain. unfold bind at 1. rewrite Hc. unfold bind at 1.
    now rewrite Hp. }
  destruct q as [| | | | | |d]; try (rewrite Hq; reflexivity).
  intros Hd. rewrite Hq. unfold bind at 1. cbn [getitem]. now rewrite Hd.
Qed.

Lemma main_stops_at_first_failure_witness :
  let w := Samples.world (Scenarios.created_then (Samples.always
             (mkReply 200 [] "[1]" (Some (JList [JInt 1]))))) in
  fst (main (fun _ => true) [] w) = Raise TypeError
  /\ List.length (sent (snd (main (fun _ => true) [] w))) = 2%nat.
Proof.
  cbv zeta.
  rewrite (proj2 (proj2 (main_stops_at_first_failure (fun _ => true) []
             (Samples.world (Scenarios.created_then (Samples.always
                (mkReply 200 [] "[1]" (Some (JList [JInt 1]))))))
             "key" "secret" eq_refl ltac:(discriminate)
             eq_refl ltac:(discriminate)) "https://x.test/rfq/1" eq_refl)
           (JInt 1) eq_refl).
  cbn [fst snd]. split; [reflexivity|]. vm_compute. reflexivity.
Defined.

(** X22.  The last step of [main]: the quote polled is executed under its
    [quoteId], at the RFQ URL that was polled.  The text [execute_quote]
    returns is dropped; its [HTTPError] is raised again after one more
    line is printed; any other exception passes as it is. *)
Theorem main_executes_the_polled_quote :
  forall (netloc_valid : string -> bool) (default_headers : headers) (w : World)
         (api_key secret_key rfq_url : string) (d : list (string * json))
         (quote_id : json),
    assoc "CHECKER_API_KEY" (environ w) = Some api_key -> api_key <> "" ->
    assoc "CHECKER_SECRET_KEY" (environ w) = Some secret_key -> secret_key <> "" ->
    let session := mkSession default_headers in
    let created := create_rfq session api_key secret_key w in
    fst created = Ok rfq_url ->
    let polled := poll_quotes netloc_valid session rfq_url api_key secret_key
                              10 (1 # 1) (snd created) in
    fst polled = Ok (JDict d) ->
    assoc "quoteId" d = Some quote_id ->
    let executed := execute_quote netloc_valid session rfq_url quote_id
                                  api_key secret_key (snd polled) in
    main netloc_valid default_headers w
    = match fst executed with
      | Ok _ => (Ok tt, snd executed)
      | Raise (HTTPError r) =>
          (Raise (HTTPError r),
           set_stdout (stdout (snd executed)
                       ++ [[PStr "HTTPError during execute:"; PError r]])%list
                      (snd executed))
      | Raise e => (Raise e, snd executed)
      end.
Proof.
  intros nv dh w api_key secret_key rfq_url d quote_id Ha Hane Hs Hsne
         session created Hc polled Hp Hid executed.
  rewrite (main_with_credentials nv dh w api_key secret_key Ha Hane Hs Hsne).
  cbv zeta. fold session. unfold bind at 1. fold created.
  rewrite (pair_eta created), Hc. unfold bind at 1. fold polled.
  rewrite (pair_eta polled), Hp. unfold bind at 1. cbn [getitem]. rewrite Hid.
  cbn [ret]. unfold try_except, bind at 1. fold executed.
  destruct executed as [[data|e] w3]; [reflexivity|].
  destruct e; reflexivity.
Qed.

Lemma main_executes_the_polled_quote_witness :
  let w := Samples.world (Scenarios.created_then (fun k =>
             match k with
             | O => Some (mkReply 200 [] "[{...}]" (Some (JList [Scenarios.quote1])))
             | _ => Some (mkReply 409 [] "quote expired" None)
             end)) in
  exists r lines,
    fst (main (fun _ => true) [] w) = Raise (HTTPError r)
    /\ status_code r = 409
    /\ stdout (snd (main (fun _ => true) [] w))
       = (lines ++ [[PStr "HTTPError during execute:"; PError r]])%list.
Proof.
  cbv zeta.
  rewrite (main_executes_the_polled_quote (fun _ => true) []
             (Samples.world (Scenarios.created_then (fun k =>
                match k with
                | O => Some (mkReply 200 [] "[{...}]"
                               (Some (JList [Scenarios.quote1])))
                | _ => Some (mkReply 409 [] "quote expired" None)
                end)))
             "key" "secret" "https://x.test/rfq/1"
             [("quoteId", JStr "q1")] (JStr "q1")
             eq_refl ltac:(discriminate) eq_refl ltac:(discriminate)
             eq_refl eq_refl eq_refl).
  rewrite execute_quote_run. cbn [fst snd].
  eexists. eexists. split; [reflexivity|]. split; [reflexivity|].
  cbn [stdout set_stdout]. reflexivity.
Defined.

Module BudgetFacts.

Lemma within_same (d : Q) (w w' : World) :
  sent w' = sent w -> slept w' = slept w -> within 0 0 d w w'.
Proof.
  intros Hs Hl. exists [], 0%nat. cbn [repeat List.length].
  rewrite !app_nil_r. auto.
Qed.

Lemma within_one (d : Q) (w w' : World) (r : Request) :
  sent w' = (sent w ++ [r])%list -> slept w' = slept w -> within 1 0 d w w'.
Proof.
  intros Hs Hl. exists [r], 0%nat. cbn [repeat List.length].
  rewrite app_nil_r. auto.
Qed.

Lemma within_trans (n1 m1 n2 m2 : nat) (d : Q) (w1 w2 w3 : World) :
  within n1 m1 d w1 w2 -> within n2 m2 d w2 w3 ->
  within (n1 + n2) (m1 + m2) d w1 w3.
Proof.
  intros (r1 & k1 & Hs1 & Hn1 & Hl1 & Hm1) (r2 & k2 & Hs2 & Hn2 & Hl2 & Hm2).
  exists (r1 ++ r2)%list, (k1 + k2)%nat.
  rewrite Hs2, Hs1, Hl2, Hl1, length_app, repeat_app, !app_assoc.
  repeat split; lia.
Qed.

Lemma within_weaken (n m n' m' : nat) (d : Q) (w w' : World) :
  (n <= n')%nat -> (m <= m')%nat -> within n m d w w' -> within n' m' d w w'.
Proof.
  intros Hn Hm (r & k & Hs & Hr & Hl & Hk). exists r, k. repeat split; auto; lia.
Qed.

Lemma create_rfq_within (session : Session) (api_key secret_key : string)
      (d : Q) (w : World) :
  within 1 0 d w (snd (create_rfq session api_key secret_key w)).
Proof.
  apply (within_one d _ _ (create_request session api_key secret_key w)).
  - destruct (transport w (List.length (sent w))
                (create_request session api_key secret_key w)) as [rep|] eqn:Hrep.
    + rewrite (create_rfq_run _ _ _ _ _ Hrep).
      destruct (error_status (reply_status rep)); [reflexivity|].
      destruct (body_data rep); try reflexivity.
      cbv zeta. destruct (truthy (extracted d0 (reply_headers rep)));
        [destruct (extracted d0 (reply_headers rep))|]; reflexivity.
    + rewrite (create_rfq_run_failure _ _ _ _ Hrep). reflexivity.
  - destruct (transport w (List.length (sent w))
                (create_request session api_key secret_key w)) as [rep|] eqn:Hrep.
    + rewrite (create_rfq_run _ _ _ _ _ Hrep).
      destruct (error_status (reply_status rep)); [reflexivity|].
      destruct (body_data rep); try reflexivity.
      cbv zeta. destruct (truthy (extracted d0 (reply_headers rep)));
        [destruct (extracted d0 (reply_headers rep))|]; reflexivity.
    + rewrite (create_rfq_run_failure _ _ _ _ Hrep). reflexivity.
Qed.

Lemma poll_loop_within (session : Session)
      (quotes_url quotes_path api_key secret_key : string) (max_attempts : Z)
      (delay_seconds : Q) (attempts : list Z) :
  forall w : World,
    within (List.length attempts) (List.length attempts) delay_seconds w
      (snd (poll_loop session quotes_url quotes_path api_key secret_key
                      max_attempts delay_seconds attempts w)).
Proof.
  induction attempts as [|attempt rest IH]; intros w.
  - apply within_same; reflexivity.
  - assert (Hone : forall r w' req,
              sent w' = (sent w ++ [req])%list -> slept w' = slept w ->
              poll_loop session quotes_url quotes_path api_key secret_key
                        max_attempts delay_seconds (attempt :: rest) w = (r, w') ->
              within (List.length (attempt :: rest)) (List.length (attempt :: rest))
                     delay_seconds w
                     (snd (poll_loop session quotes_url quotes_path api_key
                             secret_key max_attempts delay_seconds
                             (attempt :: rest) w))).
    { intros r w' req Hs Hl ->. cbn [snd List.length].
      apply (within_weaken 1 0); [lia | lia |].
      now apply (within_one _ _ _ req). }
    pose proof (poll_loop_step session quotes_url quotes_path api_key secret_key
                  max_attempts delay_seconds attempt rest w) as Hstep.
    cbv zeta in Hstep.
    destruct (transport w (List.length (sent w)) _) as [rep|];
      [|refine (Hone _ _ _ _ _ Hstep); reflexivity].
    destruct (error_status (reply_status rep));
      [refine (Hone _ _ _ _ _ Hstep); reflexivity|].
    destruct (reply_json rep) as [quotes|];
      [|refine (Hone _ _ _ _ _ Hstep); reflexivity].
    destruct (truthy quotes).
    { destruct (fst (index0 quotes _));
        refine (Hone _ _ _ _ _ Hstep); reflexivity. }
    destruct (Qle_bool 0 delay_seconds);
      [|refine (Hone _ _ _ _ _ Hstep); reflexivity].
    rewrite Hstep. cbn [List.length].
    apply (within_trans 1 1 _ _ delay_seconds w
             (after_empty_attempt session quotes_url quotes_path api_key
                secret_key max_attempts delay_seconds attempt w)).
    + eexists [_], 1%nat. unfold after_empty_attempt.
      cbn [sent slept set_slept set_stdout set_sent set_ticks repeat List.length].
      repeat split; lia.
    + apply IH.
Qed.

Lemma poll_quotes_within (nv : string -> bool) (session : Session)
      (rfq_url api_key secret_key : string) (max_attempts : Z)
      (delay_seconds : Q) (w : World) :
  within (Z.to_nat max_attempts) (Z.to_nat max_attempts) delay_seconds w
    (snd (poll_quotes nv session rfq_url api_key secret_key
                      max_attempts delay_seconds w)).
Proof.
  rewrite poll_quotes_run.
  destruct (urlparse nv rfq_url) as [parsed|].
  - cbv zeta.
    replace (Z.to_nat max_attempts)
      with (List.length (py_range 1 (max_attempts + 1)))
      by (rewrite py_range_length; f_equal; lia).
    apply poll_loop_within.
  - apply (within_weaken 0 0); [lia | lia |]. apply within_same; reflexivity.
Qed.

Lemma execute_quote_within (nv : string -> bool) (session : Session)
      (rfq_url : string) (quote_id : json) (api_key secret_key : string)
      (d : Q) (w : World) :
  within 1 0 d w
    (snd (execute_quote nv session rfq_url quote_id api_key secret_key w)).
Proof.
  rewrite execute_quote_run.
  destruct (urlparse nv rfq_url) as [parsed|].
  - cbv zeta.
    destruct (transport w _ _) as [rep|];
      [destruct (error_status (reply_status rep))|];
      eapply within_one; reflexivity.
  - apply (within_weaken 0 0); [lia | lia |]. apply within_same; reflexivity.
Qed.

End BudgetFacts.

(** X23.  Whatever the calls return, a run of [main] calls [session.post]
    and [session.get] at most twelve times, once to create, ten times to
    poll, once to execute, and sleeps at most ten times, one second each.
    What the library puts on the wire for one call is not counted. *)
Theorem main_request_budget :
  forall (netloc_valid : string -> bool) (default_headers : headers) (w : World),
    exists (reqs : list Request) (k : nat),
      sent (snd (main netloc_valid default_headers w)) = (sent w ++ reqs)%list
      /\ (List.length reqs <= 12)%nat
      /\ slept (snd (main netloc_valid default_headers w))
         = (slept w ++ repeat (1 # 1)%Q k)%list
      /\ (k <= 10)%nat.
Proof.
  intros nv dh w.
  change (within 12 10 (1 # 1) w (snd (main nv dh w))).
  assert (Hnone : forall w', sent w' = sent w -> slept w' = slept w ->
                             within 12 10 (1 # 1) w w').
  { intros w' Hs Hl. apply (BudgetFacts.within_weaken 0 0); [lia | lia |].
    now apply BudgetFacts.within_same. }
  unfold main. unfold bind at 1, environ_get. unfold bind at 1.
  destruct (assoc "CHECKER_API_KEY" (environ w)) as [[|c1 k1]|];
    try solve [apply Hnone; reflexivity].
  destruct (assoc "CHECKER_SECRET_KEY" (environ w)) as [[|c2 k2]|];
    try solve [apply Hnone; reflexivity].
  unfold bind at 1.
  pose proof (BudgetFacts.create_rfq_within (mkSession dh) (String c1 k1)
                (String c2 k2) (1 # 1) w) as Hc.
  destruct (create_rfq (mkSession dh) (String c1 k1) (String c2 k2) w)
    as [[rfq_url|e] wc]; cbn [snd] in Hc;
    [|apply (BudgetFacts.within_weaken 1 0); [lia | lia | exact Hc]].
  unfold bind at 1.
  pose proof (BudgetFacts.poll_quotes_within nv (mkSession dh) rfq_url
                (String c1 k1) (String c2 k2) 10 (1 # 1) wc) as Hp.
  pose proof (BudgetFacts.within_trans _ _ _ _ _ _ _ _ Hc Hp) as Hcp.
  destruct (poll_quotes nv (mkSession dh) rfq_url (String c1 k1) (String c2 k2)
              10 (1 # 1) wc) as [[quote|e] wp]; cbn [snd] in Hcp;
    [|apply (BudgetFacts.within_weaken (1 + Z.to_nat 10) (0 + Z.to_nat 10));
      [cbn; lia | cbn; lia | exact Hcp]].
  unfold bind at 1.
  assert (Hg : snd (getitem quote "quoteId" wp) = wp).
  { destruct quote as [| | | | | |d]; try reflexivity.
    cbn. destruct (assoc "quoteId" d); reflexivity. }
  destruct (getitem quote "quoteId" wp) as [[quote_id|e] wg]; cbn [snd] in Hg;
    subst wg;
    [|apply (BudgetFacts.within_weaken (1 + Z.to_nat 10) (0 + Z.to_nat 10));
      [cbn; lia | cbn; lia | exact Hcp]].
  unfold try_except, bind.
  pose proof (BudgetFacts.execute_quote_within nv (mkSession dh) rfq_url quote_id
                (String c1 k1) (String c2 k2) (1 # 1) wp) as He.
  pose proof (BudgetFacts.within_trans _ _ _ _ _ _ _ _ Hcp He) as Hall.
  destruct (execute_quote nv (mkSession dh) rfq_url quote_id
              (String c1 k1) (String c2 k2) wp) as [[data|e] we];
    cbn [snd] in Hall.
  - apply (BudgetFacts.within_weaken (1 + Z.to_nat 10 + 1) (0 + Z.to_nat 10 + 0));
      [cbn; lia | cbn; lia | exact Hall].
  - destruct e;
      apply (BudgetFacts.within_weaken (1 + Z.to_nat 10 + 1) (0 + Z.to_nat 10 + 0));
      try (cbn; lia); exact Hall.
Qed.

(** X2.  The whole of a successful run.  With both credentials set, a
    create reply that names the RFQ URL [u], [k] polls that find nothing,
    a poll that finds a list whose first quote has a [quoteId], and an
    execute reply without error status, [main] returns after [k + 3]
    signed requests, each with the nonce of its own clock reading: the
    create POST, [k + 1] GETs to the quotes URL of [u] with its scheme
    rewritten, and the POST of that [quoteId] to the execute URL of the
    same RFQ URL; it prints one line per step and sleeps [k] seconds. *)
Theorem main_happy_path :
  forall (netloc_valid : string -> bool) (default_headers : headers) (w : World)
         (api_key secret_key u : string) (rep0 repx : Reply)
         (d dq : list (string * json)) (parsed : ParseResult) (k : nat)
         (qs : list json) (quote_id : json),
    assoc "CHECKER_API_KEY" (environ w) = Some api_key -> api_key <> "" ->
    assoc "CHECKER_SECRET_KEY" (environ w) = Some secret_key -> secret_key <> "" ->
    let session := mkSession default_headers in
    let n0 := List.length (sent w) in
    transport w n0 (create_request session api_key secret_key w) = Some rep0 ->
    error_status (reply_status rep0) = false ->
    body_data rep0 = JDict d ->
    extracted d (reply_headers rep0) = JStr u -> u <> "" ->
    urlparse netloc_valid (normalize_scheme u) = Some parsed ->
    (k < 10)%nat ->
    (forall i, (i < k)%nat -> attempt_finds_nothing w (n0 + 1 + i)) ->
    attempt_gets w (n0 + 1 + k) (JList (JDict dq :: qs)) ->
    assoc "quoteId" dq = Some quote_id ->
    (forall req, transport w (n0 + 1 + S k) req = Some repx) ->
    error_status (reply_status repx) = false ->
    main netloc_valid default_headers w
    = (Ok tt,
       mkWorld (clock w) (transport w) (last_hop w) (environ w) (ticks w + 1 + S k + 1)
         (sent w
          ++ [create_request session api_key secret_key w]
          ++ map (fun i => signed session "GET" (quotes_url_of parsed)
                             (quotes_path_of parsed) api_key secret_key None
                             (nonce_of_reading w (ticks w + 1 + i)))
                 (seq 0 (S k))
          ++ [execute_request session parsed quote_id api_key secret_key
                (nonce_of_reading w (ticks w + 1 + S k))])%list
         (stdout w
          ++ [[PFmt [PStr "Created RFQ: "; PStr (normalize_scheme u)]]]
          ++ map (fun i => no_quotes_line (1 + Z.of_nat i) 10) (seq 0 k)
          ++ [ received_line (1 + Z.of_nat k) (JDict dq);
               sending_line parsed quote_id;
               [PFmt [PStr "Execution response: "; PStr (reply_text repx)]] ])%list
         (slept w ++ repeat (1 # 1)%Q k)%list).
Proof.
  intros nv dh w api_key secret_key u rep0 repx d dq parsed k qs quote_id
         Ha Hane Hs Hsne session n0 Hrep0 Hst0 Hd Hx Hu Hparse Hk Hempty Hfound
         Hid Hexec Hstx.
  rewrite (main_with_credentials nv dh w api_key secret_key Ha Hane Hs Hsne).
  cbv zeta. fold session.
  (* create *)
  set (w1 := mkWorld (clock w) (transport w) (last_hop w) (environ w) (S (ticks w))
               (sent w ++ [create_request session api_key secret_key w])%list
               (stdout w ++ [[PFmt [PStr "Created RFQ: ";
                                    PStr (normalize_scheme u)]]])%list
               (slept w)).
  assert (Hc : create_rfq session api_key secret_key w
               = (Ok (normalize_scheme u), w1)).
  { rewrite (create_rfq_run _ _ _ _ _ Hrep0), Hst0, Hd. cbv zeta. rewrite Hx.
    cbn [truthy]. destruct (String.eqb_spec u ""); [contradiction|]. reflexivity. }
  unfold bind at 1. rewrite Hc.
  (* poll *)
  assert (Hl1 : List.length (sent w1) = (n0 + 1)%nat).
  { unfold w1. cbn [sent]. rewrite length_app. reflexivity. }
  unfold bind at 1.
  rewrite (poll_quotes_at nv session (normalize_scheme u) api_key secret_key
             10 (1 # 1) parsed Hparse k w1);
    [ | lia | left; discriminate
      | intros i Hi; rewrite Hl1; exact (Hempty i Hi) ].
  destruct (Z.to_nat 10 - k)%nat as [|m] eqn:Hm; [lia|].
  change (seq 0 (S m)) with (0%nat :: seq 1 m). cbn [map]. rewrite Z.add_0_r.
  rewrite (poll_loop_found _ _ _ _ _ _ _ _ _ _ (JDict dq) qs
             (attempt_gets_at session api_key secret_key 10 (1 # 1) parsed
                k w1 1 _ ltac:(rewrite Hl1; exact Hfound))).
  unfold after_empty_attempts, set_stdout, set_sent, set_ticks, next_nonce.
  clear Hc Hl1. subst w1.
  cbn [clock transport last_hop environ ticks sent stdout slept].
  (* the quote id *)
  unfold bind at 1. cbn [getitem]. rewrite Hid. cbn [ret].
  (* execute *)
  unfold try_except, bind at 1.
  rewrite execute_quote_run, Hparse. cbv zeta.
  cbn [clock transport last_hop environ ticks sent stdout slept].
  fold (execute_path_of parsed). fold (execute_url_of parsed).
  rewrite !length_app, length_map, length_seq. cbn [List.length].
  match goal with
  | |- context [transport w ?n _] =>
      replace n with (n0 + 1 + S k)%nat by (unfold n0; lia)
  end.
  rewrite Hexec, Hstx. unfold ret. cbv beta iota. f_equal.
  unfold next_nonce, poll_request, execute_request, nonce_of_reading,
         sending_line.
  cbn [clock ticks slept]. f_equal.
  - lia.
  - rewrite seq_S, map_app. cbn [map]. rewrite <- !app_assoc. cbn [app].
    replace (S (S (ticks w) + k)) with (ticks w + 1 + S k)%nat by lia.
    replace (S (ticks w) + k)%nat with (ticks w + 1 + (0 + k))%nat by lia.
    do 2 f_equal. f_equal. apply map_ext. intros i.
    replace (S (ticks w) + i)%nat with (ticks w + 1 + i)%nat by lia.
    reflexivity.
  - rewrite <- !app_assoc. reflexivity.
Qed.

Lemma main_happy_path_witness :
  let run := main (fun _ => true) (sess_headers Samples.session)
                  (Samples.world Scenarios.full_run) in
  fst run = Ok tt
  /\ map req_url (sent (snd run))
     = [ "https://api-staging.checker.finance/api/v1/request-for-quotes";
         "https://x.test/rfq/1/quotes"; "https://x.test/rfq/1/quotes";
         "https://x.test/rfq/1/execute" ]
  /\ slept (snd run) = [1 # 1]%Q.
Proof.
  cbv zeta.
  rewrite (main_happy_path (fun _ => true) (sess_headers Samples.session)
             (Samples.world Scenarios.full_run) "key" "secret"
             "http://x.test/rfq/1"
             (mkReply 201 [] "{...}"
                (Some (JDict [("rfqUrl", JStr "http://x.test/rfq/1")])))
             (mkReply 200 [] "done" None)
             [("rfqUrl", JStr "http://x.test/rfq/1")] [("quoteId", JStr "q1")]
             Scenarios.rfq1 1 [] (JStr "q1")
             eq_refl ltac:(discriminate) eq_refl ltac:(discriminate)
             eq_refl eq_refl eq_refl eq_refl ltac:(discriminate) eq_refl
             ltac:(lia)
             ltac:(intros i Hi req; assert (i = 0%nat) as -> by lia;
                   do 2 eexists; repeat split)
             ltac:(intros req; eexists; repeat split)
             eq_refl ltac:(intros req; reflexivity) eq_refl).
  repeat split.
Defined.

(** ** What the execute diagnostic shows *)

Lemma shown_headers_selected (h : headers) (name : string) :
  ci_get name (filter shown_header h)
  = if startswith (lower name) "x-"
       || existsb (String.eqb (lower name)) ["content-type"; "accept"]
    then ci_get name h else None.
Proof.
  pose (p := fun l : string =>
               startswith l "x-"
               || existsb (String.eqb l) ["content-type"; "accept"]).
  change shown_header with (fun kv : string * string => p (lower (fst kv))).
  fold (p (lower name)).
  destruct (p (lower name)) eqn:Hp.
  - now apply HeaderFacts.ci_get_filter.
  - induction h as [|[k v] h IH]; [reflexivity|].
    cbn [filter fst]. destruct (p (lower k)) eqn:Hk; [|exact IH].
    cbn [ci_get]. destruct (String.eqb_spec (lower k) (lower name)) as [E|_];
      [|exact IH].
    rewrite E, Hp in Hk. discriminate.
Qed.

(** X24.  When the execute response has an error status, the line
    [Request headers:] that [execute_quote] prints shows, of the headers of
    [resp.request], those whose lowered name begins with [x-] or is
    [content-type] or [accept], each with its value, and no other header:
    the API key and the signature are printed, an [Authorization] or
    [Cookie] header is not. *)
Theorem execute_diagnostic_header_selection :
  forall (netloc_valid : string -> bool) (session : Session) (rfq_url : string)
         (quote_id : json) (api_key secret_key : string) (w : World)
         (parsed : ParseResult) (rep : Reply),
    urlparse netloc_valid rfq_url = Some parsed ->
    let req := execute_request session parsed quote_id api_key secret_key
                               (next_nonce w) in
    let answered := last_hop w (List.length (sent w)) req in
    transport w (List.length (sent w)) req = Some rep ->
    error_status (reply_status rep) = true ->
    exists shown,
      In [PStr "Request headers:"; PHeaders shown]
         (stdout (snd (execute_quote netloc_valid session rfq_url quote_id
                                     api_key secret_key w)))
      /\ (forall name,
            ci_get name shown
            = if startswith (lower name) "x-"
                 || String.eqb (lower name) "content-type"
                 || String.eqb (lower name) "accept"
              then ci_get name (req_headers answered) else None)
      /\ ci_get "Authorization" shown = None
      /\ ci_get "Cookie" shown = None
      /\ (answers_the_call answered req ->
          ci_get "x-api-key" shown = Some api_key
          /\ ci_get "x-signature" shown
             = Some (create_signature (next_nonce w) (execute_path_of parsed)
                                      api_key secret_key)).
Proof.
  intros nv session rfq_url quote_id api_key secret_key w parsed rep Hparse
         req answered Hrep Hst.
  exists (filter shown_header (req_headers answered)).
  assert (Hsel : forall name,
             ci_get name (filter shown_header (req_headers answered))
             = if startswith (lower name) "x-"
                  || String.eqb (lower name) "content-type"
                  || String.eqb (lower name) "accept"
               then ci_get name (req_headers answered) else None).
  { intros name. rewrite shown_headers_selected. cbn [existsb].
    now rewrite orb_false_r, orb_assoc. }
  split.
  - rewrite execute_quote_run, Hparse. cbv zeta.
    fold (execute_path_of parsed). fold (execute_url_of parsed).
    fold (execute_request session parsed quote_id api_key secret_key (next_nonce w)).
    fold req. rewrite Hrep, Hst. cbn [snd stdout].
    apply in_or_app. right. unfold execute_diagnostic.
    fold answered. cbn [request In]. auto 10.
  - split; [exact Hsel|]. split; [apply Hsel|]. split; [apply Hsel|].
    intros (_ & _ & Hh). rewrite Hh.
    pose proof (shown_auth_headers (sess_headers session) (next_nonce w)
                  (execute_path_of parsed) api_key secret_key) as H.
    cbv zeta in H. destruct H as (H1 & _ & H3 & _). split; assumption.
Qed.

Lemma execute_diagnostic_header_selection_witness :
  let rep := mkReply 400 [] "insufficient funds" None in
  exists shown,
    In [PStr "Request headers:"; PHeaders shown]
       (stdout (snd (execute_quote (fun _ => true) Samples.session
                       "https://x.test/rfq/1" (JStr "q1") "key" "secret"
                       (Samples.world (Samples.always rep)))))
    /\ ci_get "X-API-KEY" shown = Some "key"
    /\ ci_get "User-Agent" shown = None.
Proof.
  cbv zeta.
  destruct (execute_diagnostic_header_selection (fun _ => true) Samples.session
              "https://x.test/rfq/1" (JStr "q1") "key" "secret"
              (Samples.world (Samples.always
                 (mkReply 400 [] "insufficient funds" None)))
              Scenarios.rfq1 (mkReply 400 [] "insufficient funds" None)
              eq_refl eq_refl eq_refl)
    as (shown & Hin & Hsel & _ & _ & Hkey).
  exists shown. split; [exact Hin|]. split.
  - rewrite Hsel. cbn [lower lower_char]. 
    destruct (Hkey (conj eq_refl (conj eq_refl eq_refl))) as [Hk _].
    rewrite Hsel in Hk. exact Hk.
  - rewrite Hsel. reflexivity.
Defined.

(** ** The scheme rewrite and upper case *)

Module UpperFacts.
Import SlashFacts.

Lemma urlsplit_upper_http (nv : string -> bool) (rest : string) (rs : ParseResult) :
  urlsplit nv ("HTTP://" ++ rest) = Some rs -> scheme rs = "http".
Proof.
  rewrite urlsplit_steps.
  assert (Hs : split_scheme (sanitized ("HTTP://" ++ rest))
               = ("http", "//" ++ remove unsafe_byte rest)) by reflexivity.
  rewrite Hs.
  destruct (net_step ("//" ++ remove unsafe_byte rest)) as [nl url2].
  destruct (split_at "#" url2) as [url3 frag].
  destruct (split_at "?" url3) as [url4 qry].
  destruct (netloc_ok nv nl); [|discriminate].
  now intros [= <-].
Qed.

Lemma urlparse_upper_http (nv : string -> bool) (rest : string)
      (parsed : ParseResult) :
  urlparse nv ("HTTP://" ++ rest) = Some parsed -> scheme parsed = "http".
Proof.
  unfold urlparse.
  destruct (urlsplit nv ("HTTP://" ++ rest)) as [rs|] eqn:Hrs; [|discriminate].
  apply urlsplit_upper_http in Hrs.
  destruct (existsb (String.eqb (scheme rs)) uses_params && contains ";" (path rs)).
  - destruct (splitparams (path rs)) as [p prm]. now intros [= <-].
  - now intros [= <-].
Qed.

End UpperFacts.

(** X25.  The rewrite to [https://] looks for the lower-case prefix only.
    When the URL found in a create response begins with [HTTP://],
    [create_rfq] returns it as it is, and since [urlparse] lowers the
    scheme, polling and execution then go to [http://] URLs. *)
Theorem uppercase_http_is_not_upgraded :
  forall (netloc_valid : string -> bool) (session : Session)
         (rest api_key secret_key : string),
    let rfq_url := "HTTP://" ++ rest in
    (forall (w : World) (rep : Reply) (d : list (string * json)),
        transport w (List.length (sent w))
                  (create_request session api_key secret_key w) = Some rep ->
        error_status (reply_status rep) = false ->
        body_data rep = JDict d ->
        extracted d (reply_headers rep) = JStr rfq_url ->
        create_rfq session api_key secret_key w
        = (Ok rfq_url,
           set_stdout (stdout w ++ [[PFmt [PStr "Created RFQ: "; PStr rfq_url]]])
             (set_sent (sent w ++ [create_request session api_key secret_key w])
                       (set_ticks (S (ticks w)) w))))
    /\ (forall (max_attempts : Z) (delay_seconds : Q) (w : World),
          exists reqs,
            sent (snd (poll_quotes netloc_valid session rfq_url api_key secret_key
                                   max_attempts delay_seconds w))
            = (sent w ++ reqs)%list
            /\ Forall (fun r => startswith (req_url r) "http://" = true) reqs)
    /\ (forall (quote_id : json) (w : World),
          exists reqs,
            sent (snd (execute_quote netloc_valid session rfq_url quote_id
                                     api_key secret_key w))
            = (sent w ++ reqs)%list
            /\ Forall (fun r => startswith (req_url r) "http://" = true) reqs).
Proof.
  intros nv session rest api_key secret_key rfq_url.
  split.
  { intros w rep d Hrep Hst Hd Hx.
    rewrite (create_rfq_run _ _ _ _ _ Hrep), Hst, Hd. cbv zeta. rewrite Hx.
    reflexivity. }
  split.
  - intros max_attempts delay_seconds w. rewrite poll_quotes_run.
    destruct (urlparse nv rfq_url) as [parsed|] eqn:Hparse.
    + apply UpperFacts.urlparse_upper_http in Hparse. cbv zeta.
      match goal with
      | |- context [poll_loop ?s ?u ?p ?a ?k ?m ?d ?l w] =>
          destruct (poll_loop_calls s u p a k m d l w) as (n & _ & Hsent & _)
      end.
      eexists. split; [exact Hsent|].
      apply Forall_forall. intros r Hr. apply in_map_iff in Hr.
      destruct Hr as (i & <- & _). cbn [req_url signed]. rewrite Hparse.
      apply (RelativeFacts.startswith_app "http://").
    + exists []. cbn [snd]. rewrite app_nil_r. auto.
  - intros quote_id w. rewrite execute_quote_run.
    destruct (urlparse nv rfq_url) as [parsed|] eqn:Hparse.
    + apply UpperFacts.urlparse_upper_http in Hparse. cbv zeta.
      eexists [signed session "POST" _ _ api_key secret_key _ (next_nonce w)].
      split.
      * destruct (transport w _ _) as [rep|];
          [destruct (error_status (reply_status rep))|]; reflexivity.
      * constructor; [|constructor]. cbn [req_url signed]. rewrite Hparse.
        apply (RelativeFacts.startswith_app "http://").
    + exists []. cbn [snd]. rewrite app_nil_r. auto.
Qed.
